(** * BrowserAgent_v2: the plan / execute / recover loop of [app.py]

    A shallow embedding of [src/app.py]: the action vocabulary
    ([ActionType], [SelectorType], [BrowserAction]), the browser driver
    ([BrowserAgent]), the planner ([TaskPlanner]), the dispatcher
    [execute_browser_action] and one Streamlit script run of [main].

    Python objects that come out of [json.loads] are values of [json];
    dictionaries keep their insertion order.  Code that can raise lives
    in a state-and-exception monad [M] over a [world]: the Streamlit
    session state, the two files the program writes and the trace of
    everything the program did to the outside (Playwright calls, planner
    calls, dispatches).  What the outside answers is read from an [Env]:
    Playwright, the chat completion endpoint, the clock, [uuid4], the
    [json] module and BeautifulSoup are parameters, never axioms. *)

From Stdlib Require Import ZArith String Ascii List Bool Lia DecimalString.
From stdpp Require Import base strings gmap list.

Set Warnings "-register-all".
Open Scope string_scope.
Open Scope list_scope.

(** ** Python values *)

(** What [json.loads] can return.  Numbers are the integers; a JSON object
    is its list of fields in order. *)
Inductive json : Type :=
| JNull
| JBool (b : bool)
| JNum (n : Z)
| JStr (s : string)
| JArr (items : list json)
| JObj (fields : list (string * json)).

Abbreviation pydict := (list (string * json)).

(** [bool(v)], the truth value Python's [if], [and] and [not] use. *)
Definition truthy (v : json) : bool :=
  match v with
  | JNull => false
  | JBool b => b
  | JNum n => negb (n =? 0)%Z
  | JStr s => negb (String.eqb s "")
  | JArr items => match items with [] => false | _ => true end
  | JObj fields => match fields with [] => false | _ => true end
  end.

(** [d[k]] lookup (also deciding [k in d]), [d.get(k, default)],
    [d.get(k)] and [d[k] = v] on an insertion-ordered dictionary. *)
Fixpoint dict_get (k : string) (d : pydict) : option json :=
  match d with
  | [] => None
  | (k', v) :: d' => if decide (k = k') then Some v else dict_get k d'
  end.

Definition dict_get_default (k : string) (dflt : json) (d : pydict) : json :=
  match dict_get k d with Some v => v | None => dflt end.

Definition dict_get_none (k : string) (d : pydict) : json :=
  dict_get_default k JNull d.

Fixpoint dict_set (k : string) (v : json) (d : pydict) : pydict :=
  match d with
  | [] => [(k, v)]
  | (k', v') :: d' =>
      if decide (k = k') then (k, v) :: d' else (k', v') :: dict_set k v d'
  end.

(** [v == s] for a value and a [str]. *)
Definition json_eq_str (v : json) (s : string) : bool :=
  match v with
  | JStr s' => String.eqb s' s
  | _ => false
  end.

(** The exceptions the program can meet. *)
Inductive exn : Type :=
| ValueError            (* Enum lookup of a value that is no member *)
| AttributeError        (* a method called on None *)
| TypeError             (* an unhashable dictionary key *)
| JSONDecodeError       (* json.loads on text that is not JSON *)
| PlaywrightError       (* any error of a Playwright call *)
| APIError              (* the chat completion call failed *)
| RerunException.       (* st.rerun(): stop this script run, start the next *)

Inductive result (A : Type) : Type :=
| Return (a : A)
| Raise (e : exn).
Arguments Return {A} a.
Arguments Raise {A} e.

(** ** Action vocabulary (lines 17-47) *)

Inductive ActionType : Type := CLICK | TYPE | EXTRACT | WAIT | NAVIGATE | FINISHED.

Inductive SelectorType : Type := ID | CLASS | XPATH | TEXT | CSS.

(** [ActionType(v)]: lookup of an Enum member by value. *)
Definition ActionType_of_value (v : json) : result ActionType :=
  match v with
  | JStr s =>
      if decide (s = "click") then Return CLICK
      else if decide (s = "type") then Return TYPE
      else if decide (s = "extract") then Return EXTRACT
      else if decide (s = "wait") then Return WAIT
      else if decide (s = "navigate") then Return NAVIGATE
      else if decide (s = "finished") then Return FINISHED
      else Raise ValueError
  | _ => Raise ValueError
  end.

(** [SelectorType(v)]. *)
Definition SelectorType_of_value (v : json) : result SelectorType :=
  match v with
  | JStr s =>
      if decide (s = "id") then Return ID
      else if decide (s = "class") then Return CLASS
      else if decide (s = "xpath") then Return XPATH
      else if decide (s = "text") then Return TEXT
      else if decide (s = "css") then Return CSS
      else Raise ValueError
  | _ => Raise ValueError
  end.

(** [BrowserAction]: the constructor stores its arguments as they come. *)
Record BrowserAction : Type := {
  action_type : option ActionType;
  selector_type : option SelectorType;
  selector : json;
  input_value : json;
  requires_user_input : json;
  user_prompt : json;
  timeout : json
}.

(** ** The outside world *)

Record message : Type := { role : string; content : string }.

(** The [current_state] dictionary [main] builds for the planner. *)
Record browser_state : Type := { state_url : json; state_page_content : string }.

Definition state_json (st : browser_state) : json :=
  JObj [("current_url", state_url st); ("page_content", JStr (state_page_content st))].

(** Calls on the Playwright objects a [BrowserAgent] holds. *)
Inductive page_call : Type :=
| launch                                              (* lines 51-54 *)
| context_close | browser_close | playwright_stop     (* lines 58-60 *)
| goto (url : json)
| click (locator : json) (timeout_ms : json)
| fill (locator : json) (text : json) (timeout_ms : json)
| wait_for_selector (locator : json) (timeout_ms : json)
| inner_text
| page_content.

(** What a Playwright call does: it raises, or it returns; [Succeeds None]
    is a return of [None], [Succeeds (Some s)] a return of an object whose
    text (for [inner_text] and [page_content]: the string itself) is [s]. *)
Inductive page_reply : Type :=
| Fails
| Succeeds (value : option string).

Inductive planner_call : Type :=
| GetNextAction (user_input : string) (current_state : option browser_state)
    (history : list message)
| HandleError (error : string) (current_state : browser_state)
    (history : list message).

(** How a planner call ended: the endpoint raised, it answered text that
    [json.loads] rejects, or the answer decoded to [result]. *)
Inductive planner_outcome : Type :=
| NoResponse
| Malformed (response : string)
| Decoded (response : string) (decoded : pydict).

Inductive event : Type :=
| Driver (c : page_call) (r : page_reply)
| Planner (c : planner_call) (messages : list message) (o : planner_outcome)
| Dispatch (action_data : pydict)
| Executed (action_data : pydict) (success : bool) (extracted : option string).

(** Everything outside the program.  Answers may depend on all that
    happened before, the trace. *)
Record Env : Type := {
  (* the browser: what a call on the Playwright objects does *)
  playwright : list event -> page_call -> page_reply;
  (* client.chat.completions.create(...).choices[0].message.content;
     None when the call raises *)
  chat_completion : list event -> list message -> option string;
  (* datetime.datetime.now().isoformat() *)
  now_isoformat : list event -> string;
  (* str(uuid.uuid4()) *)
  uuid4 : list event -> string;
  (* json.loads; None when it raises.  The completion is requested with
     response_format json_object, so what decodes is a dictionary *)
  json_loads : string -> option pydict;
  (* json.dumps(v) and json.dumps(v, indent=n) *)
  json_dumps : json -> string;
  json_dumps_indent : nat -> json -> string;
  (* repr of a list or a dictionary *)
  py_repr : json -> string;
  (* BeautifulSoup with the script, style, meta and svg elements taken out *)
  strip_markup : string -> string;
  (* the prompt text of lines 137-204 *)
  system_prompt : string
}.

(** ** State *)

(** A [BrowserAgent] object: besides the Playwright handles it holds the
    URL it recorded (line 55). *)
Record BrowserAgent : Type := { current_url : json }.

(** A [TaskPlanner] object (lines 135-136); its [system_prompt] is the
    constant of [Env]. *)
Record TaskPlanner : Type := { session_id : string; log_file : string }.

(** One record of the interaction log (lines 213-220). *)
Record log_entry : Type := {
  log_timestamp : string;
  log_session_id : string;
  log_interaction_type : string;
  log_messages : list message;
  log_response : string;
  log_parsed_result : pydict
}.

(** The content of a file: text written with [f.write] or [json.dump] of
    one value, or the JSON array [json.dump] writes for a list of log
    records. *)
Inductive file : Type :=
| Text (s : string)
| Records (logs : list log_entry).

(** Keys of the [user_inputs] dictionary.  Python hashes and compares
    [True] as [1] and [False] as [0]; lists and dictionaries are not
    hashable. *)
Inductive pykey : Type := KNone | KInt (n : Z) | KStr (s : string).

#[global] Instance pykey_eq_dec : EqDecision pykey.
Proof. solve_decision. Defined.

#[global] Instance pykey_countable : Countable pykey :=
  inj_countable'
    (fun k => match k with
              | KNone => inl tt
              | KInt n => inr (inl n)
              | KStr s => inr (inr s)
              end)
    (fun x => match x with
              | inl _ => KNone
              | inr (inl n) => KInt n
              | inr (inr s) => KStr s
              end)
    (fun k => match k with KNone | KInt _ | KStr _ => eq_refl end).

Definition key_of (v : json) : result pykey :=
  match v with
  | JNull => Return KNone
  | JBool b => Return (KInt (if b then 1 else 0))
  | JNum n => Return (KInt n)
  | JStr s => Return (KStr s)
  | JArr _ | JObj _ => Raise TypeError
  end.

(** The mutable state a script run works on: the keys of
    [st.session_state] (lines 339-356), the files on disk, and the trace
    of what the program did so far, oldest event first. *)
Record world : Type := {
  agent : option BrowserAgent;
  task_planner : option TaskPlanner;
  user_task : option string;
  conversation_history : list message;
  current_action : option pydict;
  user_inputs : gmap pykey string;
  finished : bool;
  task_progress : json;
  extracted_content : option string;
  files : gmap string file;
  trace : list event
}.

Definition set_agent (v : option BrowserAgent) (w : world) : world :=
  {| agent := v;
     task_planner := task_planner w;
     user_task := user_task w;
     conversation_history := conversation_history w;
     current_action := current_action w;
     user_inputs := user_inputs w;
     finished := finished w;
     task_progress := task_progress w;
     extracted_content := extracted_content w;
     files := files w;
     trace := trace w |}.

Definition set_task_planner (v : option TaskPlanner) (w : world) : world :=
  {| agent := agent w;
     task_planner := v;
     user_task := user_task w;
     conversation_history := conversation_history w;
     current_action := current_action w;
     user_inputs := user_inputs w;
     finished := finished w;
     task_progress := task_progress w;
     extracted_content := extracted_content w;
     files := files w;
     trace := trace w |}.

Definition set_user_task (v : option string) (w : world) : world :=
  {| agent := agent w;
     task_planner := task_planner w;
     user_task := v;
     conversation_history := conversation_history w;
     current_action := current_action w;
     user_inputs := user_inputs w;
     finished := finished w;
     task_progress := task_progress w;
     extracted_content := extracted_content w;
     files := files w;
     trace := trace w |}.

Definition set_conversation_history (v : list message) (w : world) : world :=
  {| agent := agent w;
     task_planner := task_planner w;
     user_task := user_task w;
     conversation_history := v;
     current_action := current_action w;
     user_inputs := user_inputs w;
     finished := finished w;
     task_progress := task_progress w;
     extracted_content := extracted_content w;
     files := files w;
     trace := trace w |}.

Definition set_current_action (v : option pydict) (w : world) : world :=
  {| agent := agent w;
     task_planner := task_planner w;
     user_task := user_task w;
     conversation_history := conversation_history w;
     current_action := v;
     user_inputs := user_inputs w;
     finished := finished w;
     task_progress := task_progress w;
     extracted_content := extracted_content w;
     files := files w;
     trace := trace w |}.

Definition set_user_inputs (v : gmap pykey string) (w : world) : world :=
  {| agent := agent w;
     task_planner := task_planner w;
     user_task := user_task w;
     conversation_history := conversation_history w;
     current_action := current_action w;
     user_inputs := v;
     finished := finished w;
     task_progress := task_progress w;
     extracted_content := extracted_content w;
     files := files w;
     trace := trace w |}.

Definition set_finished (v : bool) (w : world) : world :=
  {| agent := agent w;
     task_planner := task_planner w;
     user_task := user_task w;
     conversation_history := conversation_history w;
     current_action := current_action w;
     user_inputs := user_inputs w;
     finished := v;
     task_progress := task_progress w;
     extracted_content := extracted_content w;
     files := files w;
     trace := trace w |}.

Definition set_task_progress (v : json) (w : world) : world :=
  {| agent := agent w;
     task_planner := task_planner w;
     user_task := user_task w;
     conversation_history := conversation_history w;
     current_action := current_action w;
     user_inputs := user_inputs w;
     finished := finished w;
     task_progress := v;
     extracted_content := extracted_content w;
     files := files w;
     trace := trace w |}.

Definition set_extracted_content (v : option string) (w : world) : world :=
  {| agent := agent w;
     task_planner := task_planner w;
     user_task := user_task w;
     conversation_history := conversation_history w;
     current_action := current_action w;
     user_inputs := user_inputs w;
     finished := finished w;
     task_progress := task_progress w;
     extracted_content := v;
     files := files w;
     trace := trace w |}.

Definition set_files (v : gmap string file) (w : world) : world :=
  {| agent := agent w;
     task_planner := task_planner w;
     user_task := user_task w;
     conversation_history := conversation_history w;
     current_action := current_action w;
     user_inputs := user_inputs w;
     finished := finished w;
     task_progress := task_progress w;
     extracted_content := extracted_content w;
     files := v;
     trace := trace w |}.

Definition set_trace (v : list event) (w : world) : world :=
  {| agent := agent w;
     task_planner := task_planner w;
     user_task := user_task w;
     conversation_history := conversation_history w;
     current_action := current_action w;
     user_inputs := user_inputs w;
     finished := finished w;
     task_progress := task_progress w;
     extracted_content := extracted_content w;
     files := files w;
     trace := v |}.

(** The session state of a fresh browser session, before the first script
    run (the defaults of lines 339-356; [task_planner] is still absent),
    on a disk holding [fs]. *)
Definition new_session (fs : gmap string file) : world :=
  {| agent := None;
     task_planner := None;
     user_task := None;
     conversation_history := [];
     current_action := None;
     user_inputs := ∅;
     finished := false;
     task_progress := JStr "";
     extracted_content := None;
     files := fs;
     trace := [] |}.

(** ** The monad of script code *)

Definition M (A : Type) : Type := world -> result A * world.

Definition ret {A} (a : A) : M A := fun w => (Return a, w).

Definition raise {A} (e : exn) : M A := fun w => (Raise e, w).

Definition bind {A B} (m : M A) (k : A -> M B) : M B :=
  fun w =>
    match m w with
    | (Return a, w') => k a w'
    | (Raise e, w') => (Raise e, w')
    end.

(** [try: m except Exception: h].  [st.rerun()] is not an [Exception] and
    passes through. *)
Definition try_except {A} (m : M A) (h : M A) : M A :=
  fun w =>
    match m w with
    | (Raise RerunException, w') => (Raise RerunException, w')
    | (Raise _, w') => h w'
    | (Return a, w') => (Return a, w')
    end.

Definition lift {A} (r : result A) : M A := fun w => (r, w).

Definition get : M world := fun w => (Return w, w).

Definition modify (f : world -> world) : M unit := fun w => (Return tt, f w).

Definition emit (e : event) : M unit :=
  modify (fun w => set_trace (trace w ++ [e]) w).

Notation "'let*' x ':=' m 'in' k" := (bind m (fun x => k))
  (at level 10, x name, m at level 200, k at level 200, only parsing).
Notation "'let*' ' p ':=' m 'in' k" := (bind m (fun x => match x with p => k end))
  (at level 10, p strict pattern, m at level 200, k at level 200, only parsing).
Notation "m ;;; k" := (bind m (fun _ => k))
  (at level 100, k at level 200, right associativity, only parsing).

(** Streamlit output ([st.error], [st.write], [st.info], ...) shows text
    and has no effect the program reads back. *)
Definition st_show : M unit := ret tt.

Definition st_rerun {A} : M A := raise RerunException.

(** What the user did on the page before this script run: the values the
    widgets return if the run reaches them. *)
Record ui_input : Type := {
  task_input : string;         (* st.text_input(..., key="task_input") *)
  user_response : string;      (* st.text_input(user_prompt, key="user_response") *)
  submit : bool;               (* st.button("Submit") *)
  start_new_task : bool        (* st.button("Start New Task") *)
}.

Definition nl : string := String "010"%char EmptyString.

Section Program.

Context (E : Env).

(** [str(v)], as an f-string formats [v]. *)
Definition py_str (v : json) : string :=
  match v with
  | JStr s => s
  | JNull => "None"
  | JBool true => "True"
  | JBool false => "False"
  | JNum n => NilZero.string_of_int (Z.to_int n)
  | JArr _ | JObj _ => py_repr E v
  end.

(** ** BrowserAgent (lines 49-131) *)

(** One Playwright call: ask the outside, record call and answer. *)
Definition page_do (c : page_call) : M (option string) :=
  fun w =>
    let r := playwright E (trace w) c in
    let w' := set_trace (trace w ++ [Driver c r]) w in
    match r with
    | Fails => (Raise PlaywrightError, w')
    | Succeeds v => (Return v, w')
    end.

(** [agent.method(...)] needs an object: on [None] it raises. *)
Definition self : M BrowserAgent :=
  fun w =>
    match agent w with
    | Some a => (Return a, w)
    | None => (Raise AttributeError, w)
    end.

(** [BrowserAgent()], lines 50-55: Playwright is started, the browser
    launched, a context and a page opened.  Nothing is caught here: when
    the launch raises, so does the constructor, and no object is made. *)
Definition BrowserAgent_init : M BrowserAgent :=
  let* _ := page_do launch in
  ret {| current_url := JStr "" |}.

(** [close], lines 57-60: nothing is caught here. *)
Definition close : M unit :=
  let* _ := self in
  let* _ := page_do context_close in
  let* _ := page_do browser_close in
  let* _ := page_do playwright_stop in
  ret tt.

Definition navigate_to_url (url : json) : M bool :=
  let* _ := self in
  try_except
    (let* _ := page_do (goto url) in
     modify (set_agent (Some {| current_url := url |})) ;;;
     ret true)
    (st_show ;;; ret false).

Definition _get_selector (selector_type : option SelectorType) (selector : json) : json :=
  match selector_type with
  | Some ID => JStr ("#" +:+ py_str selector)
  | Some CLASS => JStr ("." +:+ py_str selector)
  | Some XPATH => selector
  | Some TEXT => JStr ("text=" +:+ py_str selector)
  | _ => selector
  end.

Definition find_and_click (selector_type : option SelectorType) (selector : json)
    (timeout : json) : M bool :=
  let* _ := self in
  try_except
    (let full_selector := _get_selector selector_type selector in
     let* _ := page_do (click full_selector timeout) in
     ret true)
    (st_show ;;; ret false).

Definition find_and_type (selector_type : option SelectorType) (selector : json)
    (text : json) (timeout : json) : M bool :=
  let* _ := self in
  try_except
    (let full_selector := _get_selector selector_type selector in
     let* _ := page_do (fill full_selector text timeout) in
     ret true)
    (st_show ;;; ret false).

Definition extract_content (selector_type : option SelectorType) (selector : json)
    (timeout : json) : M (option string) :=
  let* _ := self in
  try_except
    (let full_selector := _get_selector selector_type selector in
     let* element := page_do (wait_for_selector full_selector timeout) in
     match element with
     | Some _ => page_do inner_text
     | None => ret None
     end)
    (st_show ;;; ret None).

Definition wait_for_element (selector_type : option SelectorType) (selector : json)
    (timeout : json) : M bool :=
  let* _ := self in
  try_except
    (let full_selector := _get_selector selector_type selector in
     let* _ := page_do (wait_for_selector full_selector timeout) in
     ret true)
    (st_show ;;; ret false).

Definition get_current_url : M json :=
  let* a := self in
  ret (current_url a).

(** [BeautifulSoup(None, ...)] raises inside the [try]. *)
Definition get_page_content : M string :=
  let* _ := self in
  try_except
    (let* html_content := page_do page_content in
     match html_content with
     | Some html => ret (strip_markup E html)
     | None => raise TypeError
     end)
    (st_show ;;; ret "").

(** ** TaskPlanner (lines 133-298) *)

(** [TaskPlanner()], lines 134-207: a new session id, and the log file
    opened for writing and left empty. *)
Definition TaskPlanner_init : M TaskPlanner :=
  let* w := get in
  let p := {| session_id := substring 0 8 (uuid4 E (trace w));
              log_file := "llm_interactions.json" |} in
  modify (fun w => set_files (<[log_file p := Text ""]> (files w)) w) ;;;
  ret p.

(** What the read of lines 222-229 recovers from the log file: the records
    of the JSON array in it; [[]] if the file is missing
    ([FileNotFoundError]) or holds text that is no JSON
    ([JSONDecodeError]).  The only text the program ever writes to this
    file is the empty one of the constructor, so a file of text is taken
    to hold no JSON. *)
Definition read_logs (p : TaskPlanner) (w : world) : list log_entry :=
  match files w !! log_file p with
  | Some (Records logs) => logs
  | Some (Text _) => []
  | None => []
  end.

Definition log_llm_interaction (p : TaskPlanner) (interaction_type : string)
    (messages : list message) (response_content : string) (res : pydict) : M unit :=
  let* w := get in
  let timestamp := now_isoformat E (trace w) in
  let log_entry := {| log_timestamp := timestamp;
                      log_session_id := session_id p;
                      log_interaction_type := interaction_type;
                      log_messages := messages;
                      log_response := response_content;
                      log_parsed_result := res |} in
  let logs := read_logs p w in
  modify (fun w => set_files (<[log_file p := Records (logs ++ [log_entry])]> (files w)) w).

(** The request of [get_next_action], lines 240-250. *)
Definition next_action_messages (user_input : string)
    (current_state : option browser_state) (history : list message) : list message :=
  [{| role := "system"; content := system_prompt E |}]
  ++ (match history with
      | [] => [{| role := "user"; content := user_input |}]
      | _ => history
      end)
  ++ (match current_state with
      | Some st => [{| role := "user";
                       content := "Current state: " +:+ json_dumps E (state_json st) |}]
      | None => []
      end).

(** One call of the endpoint and [json.loads] of its answer (lines
    255-262 and 284-291); call and outcome go to the trace. *)
Definition ask_oracle (c : planner_call) (messages : list message) : M (string * pydict) :=
  let* w := get in
  match chat_completion E (trace w) messages with
  | None => emit (Planner c messages NoResponse) ;;; raise APIError
  | Some response_content =>
      match json_loads E response_content with
      | None => emit (Planner c messages (Malformed response_content)) ;;;
                raise JSONDecodeError
      | Some res => emit (Planner c messages (Decoded response_content res)) ;;;
                    ret (response_content, res)
      end
  end.

Definition append_history (m : message) : M unit :=
  modify (fun w => set_conversation_history (conversation_history w ++ [m]) w).

Definition write_file (name : string) (f : file) : M unit :=
  modify (fun w => set_files (<[name := f]> (files w)) w).

(** [get_next_action], lines 239-272.  [main] passes
    [st.session_state.conversation_history]: the parameter is that very
    list, never [None], and the append of line 270 is seen by the session. *)
Definition get_next_action (p : TaskPlanner) (user_input : string)
    (current_state : option browser_state) : M pydict :=
  let* w := get in
  let history := conversation_history w in
  let messages := next_action_messages user_input current_state history in
  write_file "dump.json"
    (Text (json_dumps E (match current_state with
                         | Some st => state_json st
                         | None => JNull
                         end))) ;;;
  let* '(response_content, res) :=
    ask_oracle (GetNextAction user_input current_state history) messages in
  log_llm_interaction p "get_next_action" messages response_content res ;;;
  write_file "dump.json" (Text (nl +:+ nl +:+ nl +:+ json_dumps_indent E 4 (JObj res))) ;;;
  append_history {| role := "assistant"; content := json_dumps E (JObj res) |} ;;;
  ret res.

(** The request of [handle_error], lines 275-282. *)
Definition handle_error_messages (error : string) (current_state : browser_state)
    (history : list message) : list message :=
  [{| role := "system"; content := system_prompt E |}]
  ++ history
  ++ [{| role := "user";
         content := "Error occurred: " +:+ error +:+ nl
                    +:+ "Current state: " +:+ json_dumps E (state_json current_state) +:+ nl
                    +:+ "Please provide an alternative approach." |}].

(** [handle_error], lines 274-298, on the session's history list. *)
Definition handle_error (p : TaskPlanner) (error : string)
    (current_state : browser_state) : M pydict :=
  let* w := get in
  let history := conversation_history w in
  let messages := handle_error_messages error current_state history in
  let* '(response_content, res) :=
    ask_oracle (HandleError error current_state history) messages in
  log_llm_interaction p "handle_error" messages response_content res ;;;
  append_history {| role := "user"; content := "Error occurred: " +:+ error |} ;;;
  append_history {| role := "assistant"; content := json_dumps E (JObj res) |} ;;;
  ret res.

(** ** execute_browser_action (lines 300-332) *)

(** Line 301. *)
Definition decode_action_type (action_data : pydict) : result (option ActionType) :=
  match dict_get "action_type" action_data with
  | Some v =>
      match ActionType_of_value v with
      | Return t => Return (Some t)
      | Raise e => Raise e
      end
  | None => Return None
  end.

(** Lines 306-314: the [BrowserAction] built from the decision. *)
Definition build_action (action_type : option ActionType) (action_data : pydict)
    : result BrowserAction :=
  match (if truthy (dict_get_none "selector_type" action_data)
         then match SelectorType_of_value (dict_get_none "selector_type" action_data) with
              | Return t => Return (Some t)
              | Raise e => Raise e
              end
         else Return None) with
  | Raise e => Raise e
  | Return selector_type =>
      Return {| action_type := action_type;
                selector_type := selector_type;
                selector := dict_get_none "selector" action_data;
                input_value := dict_get_none "input_value" action_data;
                requires_user_input :=
                  dict_get_default "requires_user_input" (JBool false) action_data;
                user_prompt := dict_get_none "user_prompt" action_data;
                timeout := dict_get_default "timeout" (JNum 10000) action_data |}
  end.

(** The [agent] argument is the session's agent object. *)
Definition execute_browser_action (action_data : pydict) : M (bool * option string) :=
  let* a_type := lift (decode_action_type action_data) in
  match a_type with
  | Some FINISHED => ret (true, Some "finished")
  | _ =>
      let* action := lift (build_action a_type action_data) in
      match action_type action with
      | Some NAVIGATE =>
          let* success := navigate_to_url (input_value action) in
          ret (success, None)
      | Some CLICK =>
          let* success :=
            find_and_click (selector_type action) (selector action) (timeout action) in
          ret (success, None)
      | Some TYPE =>
          let* success :=
            find_and_type (selector_type action) (selector action) (input_value action)
              (timeout action) in
          ret (success, None)
      | Some EXTRACT =>
          let* content :=
            extract_content (selector_type action) (selector action) (timeout action) in
          ret (match content with Some _ => true | None => false end, content)
      | Some WAIT =>
          let* success :=
            wait_for_element (selector_type action) (selector action) (timeout action) in
          ret (success, None)
      | _ => ret (false, None)
      end
  end.

(** ** main (lines 334-441): one script run *)

Definition str_truthy (s : string) : bool := negb (String.eqb s "").

Definition opt_str_truthy (o : option string) : bool :=
  match o with Some s => str_truthy s | None => false end.

(** [bool(st.session_state.current_action)]: [None] and the empty
    dictionary are false. *)
Definition action_pending (a : option pydict) : bool :=
  match a with Some (_ :: _) => true | _ => false end.

(** Lines 339-356: only the [task_planner] default has an effect; the
    other defaults are those of [new_session]. *)
Definition init_session_state : M TaskPlanner :=
  let* w := get in
  match task_planner w with
  | Some p => ret p
  | None =>
      let* p := TaskPlanner_init in
      modify (set_task_planner (Some p)) ;;;
      ret p
  end.

(** Lines 358-364. *)
Definition await_goal (ui : ui_input) : M unit :=
  let* w := get in
  if negb (opt_str_truthy (user_task w)) then
    let user_input := task_input ui in
    if str_truthy user_input then
      modify (set_user_task (Some user_input)) ;;;
      modify (set_conversation_history [{| role := "user"; content := user_input |}]) ;;;
      let* a := BrowserAgent_init in
      modify (set_agent (Some a)) ;;;
      st_rerun
    else ret tt
  else ret tt.

(** Lines 376-379: the state for a fresh plan, guarded by [if agent]. *)
Definition planning_state : M browser_state :=
  let* w := get in
  let* url := match agent w with Some _ => get_current_url | None => ret (JStr "") end in
  let* w := get in
  let* html := match agent w with Some _ => get_page_content | None => ret "" end in
  ret {| state_url := url; state_page_content := html |}.

(** Lines 374-384. *)
Definition plan_if_idle (p : TaskPlanner) (task : string) : M unit :=
  let* w := get in
  if negb (action_pending (current_action w)) then
    let* current_state := planning_state in
    let* res := get_next_action p task (Some current_state) in
    modify (set_current_action (Some res))
  else ret tt.

(** Lines 397-401, the Submit button. *)
Definition ask_user (ui : ui_input) (prompt_key : pykey) (action : pydict) : M unit :=
  let user_response := user_response ui in
  if submit ui then
    modify (fun w => set_user_inputs (<[prompt_key := user_response]> (user_inputs w)) w) ;;;
    modify (set_current_action (Some (dict_set "input_value" (JStr user_response) action))) ;;;
    append_history {| role := "user";
                      content := "User provided input: " +:+ user_response |} ;;;
    st_rerun
  else ret tt.

(** Lines 410-421, the Start New Task button. *)
Definition new_task_button (ui : ui_input) : M unit :=
  if start_new_task ui then
    let* w := get in
    match agent w with Some _ => close | None => ret tt end ;;;
    modify (set_agent None) ;;;
    modify (set_user_task None) ;;;
    modify (set_conversation_history []) ;;;
    modify (set_current_action None) ;;;
    modify (set_user_inputs ∅) ;;;
    modify (set_finished false) ;;;
    modify (set_task_progress (JStr "")) ;;;
    modify (set_extracted_content None) ;;;
    st_rerun
  else ret tt.

(** Lines 406-428. *)
Definition on_success (ui : ui_input) (action : pydict) (extracted : option string) : M unit :=
  if json_eq_str (dict_get_none "action_type" action) "finished" then
    modify (set_finished true) ;;;
    new_task_button ui
  else
    match extracted with
    | Some text =>
        if str_truthy text then
          modify (set_extracted_content (Some text)) ;;;
          append_history {| role := "user"; content := "Extracted content: " +:+ text |}
        else ret tt
    | None => ret tt
    end ;;;
    modify (set_current_action None) ;;;
    st_rerun.

(** Lines 429-441. *)
Definition on_failure (p : TaskPlanner) : M unit :=
  let* url := get_current_url in
  let* html := get_page_content in
  let current_state := {| state_url := url; state_page_content := html |} in
  let* res := handle_error p "Action failed" current_state in
  modify (set_current_action (Some res)) ;;;
  st_rerun.

(** Lines 403-441. *)
Definition run_action (p : TaskPlanner) (ui : ui_input) (action : pydict) : M unit :=
  emit (Dispatch action) ;;;
  let* '(success, extracted) := execute_browser_action action in
  emit (Executed action success extracted) ;;;
  if success then on_success ui action extracted else on_failure p.

(** [user_prompt not in st.session_state.user_inputs], evaluated only if
    [requires_input] is true. *)
Definition needs_answer (requires_input user_prompt : json) (w : world)
    : result (option pykey) :=
  if truthy requires_input then
    match key_of user_prompt with
    | Raise e => Raise e
    | Return k =>
        match user_inputs w !! k with
        | None => Return (Some k)
        | Some _ => Return None
        end
    end
  else Return None.

(** Lines 366-441. *)
Definition work_on_task (p : TaskPlanner) (ui : ui_input) : M unit :=
  let* w := get in
  match user_task w with
  | Some task =>
      if str_truthy task && negb (finished w) then
        plan_if_idle p task ;;;
        let* w := get in
        match current_action w with
        | None => raise TypeError
        | Some action =>
            match dict_get "task_progress" action with
            | Some v => modify (set_task_progress v)
            | None => ret tt
            end ;;;
            let requires_input :=
              dict_get_default "requires_user_input" (JBool false) action in
            let user_prompt := dict_get_default "user_prompt" (JStr "") action in
            let* w := get in
            let* unanswered := lift (needs_answer requires_input user_prompt w) in
            match unanswered with
            | Some prompt_key => ask_user ui prompt_key action
            | None => run_action p ui action
            end
        end
      else ret tt
  | None => ret tt
  end.

Definition main (ui : ui_input) : M unit :=
  let* p := init_session_state in
  await_goal ui ;;;
  work_on_task p ui.

(** The script runs of a session: each interaction of the user reruns
    [main] on the state the last run left, also when that run raised. *)
Definition run_main (ui : ui_input) (w : world) : world := snd (main ui w).

Definition run_script (fs : gmap string file) (uis : list ui_input) : world :=
  fold_left (fun w ui => run_main ui w) uis (new_session fs).

End Program.

(** ** Scripted environments for concrete scenarios *)

(** A rendering of JSON text, good enough to read a scenario's messages. *)
Fixpoint render_json (v : json) : string :=
  match v with
  | JNull => "null"
  | JBool true => "true"
  | JBool false => "false"
  | JNum n => NilZero.string_of_int (Z.to_int n)
  | JStr s => "'" +:+ s +:+ "'"
  | JArr items => "[" +:+ String.concat ", " (map render_json items) +:+ "]"
  | JObj fields =>
      "{" +:+ String.concat ", "
                (map (fun kv => "'" +:+ fst kv +:+ "': " +:+ render_json (snd kv)) fields)
      +:+ "}"
  end.

(** An environment whose browser answers by [pw], whose endpoint always
    answers the text [answer], decoded by [loads]. *)
Definition scripted_env (pw : page_call -> page_reply) (answer : option string)
    (loads : string -> option pydict) : Env :=
  {| playwright := fun _ c => pw c;
     chat_completion := fun _ _ => answer;
     now_isoformat := fun tr => "T" +:+ NilZero.string_of_uint (Nat.to_uint (length tr));
     uuid4 := fun _ => "123e4567-e89b-12d3-a456-426614174000";
     json_loads := loads;
     json_dumps := render_json;
     json_dumps_indent := fun _ => render_json;
     py_repr := render_json;
     strip_markup := fun html => html;
     system_prompt := "You are a browser automation expert." |}.

(** A browser in which every call succeeds and every text is [text]. *)
Definition obliging_page (text : string) (c : page_call) : page_reply :=
  Succeeds (Some text).

(** A browser in which no element is ever found. *)
Definition empty_page (c : page_call) : page_reply :=
  match c with
  | click _ _ | fill _ _ _ | wait_for_selector _ _ | inner_text => Fails
  | _ => Succeeds (Some "<html></html>")
  end.

(** A browser that cannot load [None] and answers every other call. *)
Definition page_without_null (c : page_call) : page_reply :=
  match c with
  | goto JNull => Fails
  | _ => Succeeds (Some "<html></html>")
  end.

(** ** Vocabulary of the statements *)

(** The six values of [ActionType] and the five of [SelectorType]. *)
Definition known_action_type (v : json) : Prop :=
  v = JStr "click" \/ v = JStr "type" \/ v = JStr "extract"
  \/ v = JStr "wait" \/ v = JStr "navigate" \/ v = JStr "finished".

Definition known_selector_type (s : string) : Prop :=
  s = "id" \/ s = "class" \/ s = "xpath" \/ s = "text" \/ s = "css".

(** ** Uses of the driver *)

(** One call of a public method of the session's [BrowserAgent]. *)
Inductive driver_op : Type :=
| op_navigate (url : json)
| op_click (selector_type : option SelectorType) (selector timeout : json)
| op_type (selector_type : option SelectorType) (selector text timeout : json)
| op_extract (selector_type : option SelectorType) (selector timeout : json)
| op_wait (selector_type : option SelectorType) (selector timeout : json)
| op_current_url
| op_page_content.

Definition run_op (E : Env) (o : driver_op) : M unit :=
  match o with
  | op_navigate url => let* _ := navigate_to_url E url in ret tt
  | op_click k s t => let* _ := find_and_click E k s t in ret tt
  | op_type k s x t => let* _ := find_and_type E k s x t in ret tt
  | op_extract k s t => let* _ := extract_content E k s t in ret tt
  | op_wait k s t => let* _ := wait_for_element E k s t in ret tt
  | op_current_url => let* _ := get_current_url in ret tt
  | op_page_content => let* _ := get_page_content E in ret tt
  end.

Fixpoint run_ops (E : Env) (ops : list driver_op) : M unit :=
  match ops with
  | [] => ret tt
  | o :: rest => run_op E o ;;; run_ops E rest
  end.

(** The world once [BrowserAgent()] has returned and the session holds
    the new object (lines 50-55 and 363). *)
Definition with_new_agent (w : world) : world :=
  set_agent (Some {| current_url := JStr "" |})
    (set_trace (trace w ++ [Driver launch (Succeeds None)]) w).

(** The URL of the last [goto] that came back without an error among
    [evs], [before] if there is none. *)
Fixpoint last_navigated (before : json) (evs : list event) : json :=
  match evs with
  | [] => before
  | Driver (goto url) (Succeeds _) :: rest => last_navigated url rest
  | _ :: rest => last_navigated before rest
  end.

(** ** The paths of one script run *)

(** What [get_page_content] makes of the answer to [page.content()]. *)
Definition page_snapshot (E : Env) (r : page_reply) : string :=
  match r with
  | Succeeds (Some html) => strip_markup E html
  | _ => ""
  end.

(** Lines 389-390. *)
Definition note_progress (action : pydict) (w : world) : world :=
  set_task_progress (dict_get_default "task_progress" (task_progress w) action) w.

Definition requires_input_of (action : pydict) : json :=
  dict_get_default "requires_user_input" (JBool false) action.

Definition user_prompt_of (action : pydict) : json :=
  dict_get_default "user_prompt" (JStr "") action.

(** The ways through lines 366-441, one constructor each: the task is not
    active; planning raised; the pending action needs an answer that is
    not there (or its prompt cannot be a key); the action is run. *)
Inductive task_step (E : Env) (p : TaskPlanner) (ui : ui_input) (w : world)
  : result unit -> world -> Prop :=
| step_inactive :
    opt_str_truthy (user_task w) && negb (finished w) = false ->
    task_step E p ui w (Return tt) w
| step_plan_raised (task : string) (e : exn) (w2 : world) :
    user_task w = Some task ->
    str_truthy task && negb (finished w) = true ->
    plan_if_idle E p task w = (Raise e, w2) ->
    task_step E p ui w (Raise e) w2
| step_no_action (task : string) (w2 : world) :
    user_task w = Some task ->
    str_truthy task && negb (finished w) = true ->
    plan_if_idle E p task w = (Return tt, w2) ->
    current_action w2 = None ->
    task_step E p ui w (Raise TypeError) w2
| step_unhashable (task : string) (w2 : world) (action : pydict) (e : exn) :
    user_task w = Some task ->
    str_truthy task && negb (finished w) = true ->
    plan_if_idle E p task w = (Return tt, w2) ->
    current_action w2 = Some action ->
    needs_answer (requires_input_of action) (user_prompt_of action)
      (note_progress action w2) = Raise e ->
    task_step E p ui w (Raise e) (note_progress action w2)
| step_ask (task : string) (w2 : world) (action : pydict) (k : pykey)
    (r : result unit) (w' : world) :
    user_task w = Some task ->
    str_truthy task && negb (finished w) = true ->
    plan_if_idle E p task w = (Return tt, w2) ->
    current_action w2 = Some action ->
    needs_answer (requires_input_of action) (user_prompt_of action)
      (note_progress action w2) = Return (Some k) ->
    ask_user ui k action (note_progress action w2) = (r, w') ->
    task_step E p ui w r w'
| step_run (task : string) (w2 : world) (action : pydict)
    (r : result unit) (w' : world) :
    user_task w = Some task ->
    str_truthy task && negb (finished w) = true ->
    plan_if_idle E p task w = (Return tt, w2) ->
    current_action w2 = Some action ->
    needs_answer (requires_input_of action) (user_prompt_of action)
      (note_progress action w2) = Return None ->
    run_action E p ui action (note_progress action w2) = (r, w') ->
    task_step E p ui w r w'.

Definition is_driver (ev : event) : Prop :=
  match ev with Driver _ _ => True | _ => False end.

(** The events that follow a failed execution: the page is read again and
    the planner is entered by [handle_error] with the fixed description
    and the state made from that reading. *)
Definition recovery_starts (E : Env) (post : list event) : Prop :=
  exists r st h msgs o post',
    post = Driver page_content r :: Planner (HandleError "Action failed" st h) msgs o :: post'
    /\ state_page_content st = page_snapshot E r.

Fixpoint recovery_follows (E : Env) (evs : list event) : Prop :=
  match evs with
  | [] => True
  | Executed _ false _ :: rest => recovery_starts E rest /\ recovery_follows E rest
  | _ :: rest => recovery_follows E rest
  end.

(** A finished session still has its task and its planner. *)
Definition session_ok (w : world) : Prop :=
  (finished w = true -> opt_str_truthy (user_task w) = true)
  /\ (finished w = true -> is_Some (task_planner w)).

(** A session that works on a task has a driver.  This is so as long as
    every [BrowserAgent()] of line 363 has returned. *)
Definition has_agent (w : world) : Prop :=
  opt_str_truthy (user_task w) = true -> is_Some (agent w).

(** No launch of the browser has raised among [evs]. *)
Definition launches_succeed (evs : list event) : Prop :=
  ~ In (Driver launch Fails) evs.

(** How one call of the endpoint ends, seen from [ask_oracle]. *)
Definition oracle_outcome (E : Env) (tr : list event) (messages : list message)
    : planner_outcome :=
  match chat_completion E tr messages with
  | None => NoResponse
  | Some response =>
      match json_loads E response with
      | None => Malformed response
      | Some res => Decoded response res
      end
  end.

(** The session after the assignments of lines 413-420. *)
Definition reset_session (w : world) : world :=
  set_extracted_content None
    (set_task_progress (JStr "")
       (set_finished false
          (set_user_inputs ∅
             (set_current_action None
                (set_conversation_history []
                   (set_user_task None (set_agent None w))))))).

(** The planner of the session and the world after lines 339-356. *)
Definition started (E : Env) (w : world) : TaskPlanner * world :=
  match task_planner w with
  | Some p => (p, w)
  | None =>
      let p := {| session_id := substring 0 8 (uuid4 E (trace w));
                  log_file := "llm_interactions.json" |} in
      (p, set_task_planner (Some p) (set_files (<[log_file p := Text ""]> (files w)) w))
  end.

(** The world after lines 361-363, when a goal has been typed and the
    launch of the browser was answered by [r]: task and history are
    stored first, the agent only if the constructor returned. *)
Definition goal_world (r : page_reply) (ui : ui_input) (w : world) : world :=
  let w2 :=
    set_trace (trace w ++ [Driver launch r])
      (set_conversation_history [{| role := "user"; content := task_input ui |}]
         (set_user_task (Some (task_input ui)) w)) in
  match r with
  | Fails => w2
  | Succeeds _ => set_agent (Some {| current_url := JStr "" |}) w2
  end.

(** How the run that stores a goal ends: at [st.rerun()], or with the
    error of the launch. *)
Definition goal_outcome (r : page_reply) : exn :=
  match r with
  | Fails => PlaywrightError
  | Succeeds _ => RerunException
  end.

(** The driver call and the state of lines 376-379. *)
Definition planning_events (E : Env) (w : world) : list event :=
  match agent w with
  | Some _ => [Driver page_content (playwright E (trace w) page_content)]
  | None => []
  end.

Definition planning_browser_state (E : Env) (w : world) : browser_state :=
  match agent w with
  | Some a => {| state_url := current_url a;
                 state_page_content :=
                   page_snapshot E (playwright E (trace w) page_content) |}
  | None => {| state_url := JStr ""; state_page_content := "" |}
  end.

(** The events one script run adds to the trace. *)
Definition events_of_run (E : Env) (ui : ui_input) (w : world) : list event :=
  drop (length (trace w)) (trace (run_main E ui w)).

(** ** Scenarios *)

(** The user types the goal; the user does nothing; the user answers a
    question and presses Submit. *)
Definition ui_goal (goal : string) : ui_input :=
  {| task_input := goal; user_response := ""; submit := false; start_new_task := false |}.

Definition ui_idle : ui_input :=
  {| task_input := ""; user_response := ""; submit := false; start_new_task := false |}.

Definition ui_answer (answer : string) : ui_input :=
  {| task_input := ""; user_response := answer; submit := true; start_new_task := false |}.

(** An endpoint that always proposes [decision]. *)
Definition proposing (pw : page_call -> page_reply) (decision : pydict) : Env :=
  scripted_env pw (Some "decision") (fun _ => Some decision).

Definition finished_decision : pydict :=
  [("action_type", JStr "finished"); ("explanation", JStr "Nothing left to do")].

(** Scenario B: a click on an element that is not there. *)
Definition click_login : pydict :=
  [("action_type", JStr "click"); ("selector_type", JStr "id");
   ("selector", JStr "login"); ("timeout", JNum 5000)].

(** Scenario C: the price is read from the page. *)
Definition extract_price : pydict :=
  [("action_type", JStr "extract"); ("selector_type", JStr "css");
   ("selector", JStr ".price")].

(** Scenario D: the planner needs the user's e-mail address. *)
Definition type_email : pydict :=
  [("action_type", JStr "type"); ("selector_type", JStr "id");
   ("selector", JStr "email"); ("requires_user_input", JBool true);
   ("user_prompt", JStr "What is your email?")].

(** A machine on which the browser cannot be started. *)
Definition no_browser (c : page_call) : page_reply :=
  match c with
  | launch => Fails
  | _ => Succeeds None
  end.

(** No browser, and a planner that answers the empty decision. *)
Definition lost_browser : Env := proposing no_browser [].

(** ** The interaction log *)

Definition interaction_name (c : planner_call) : string :=
  match c with
  | GetNextAction _ _ _ => "get_next_action"
  | HandleError _ _ _ => "handle_error"
  end.

(** The record [log_llm_interaction] appends for a planner call that
    ended in [o], the trace being [tr] when it reads the clock: none if
    the call raised before the logging line. *)
Definition log_record (E : Env) (p : TaskPlanner) (tr : list event)
    (interaction_type : string) (msgs : list message) (o : planner_outcome)
    : list log_entry :=
  match o with
  | Decoded response res =>
      [{| log_timestamp := now_isoformat E tr;
          log_session_id := session_id p;
          log_interaction_type := interaction_type;
          log_messages := msgs;
          log_response := response;
          log_parsed_result := res |}]
  | _ => []
  end.

(** The records the planner calls of [evs] leave, in the order of the
    calls; [before] is the trace up to [evs]. *)
Fixpoint logged_calls (E : Env) (p : TaskPlanner) (before evs : list event)
    : list log_entry :=
  match evs with
  | [] => []
  | ev :: rest =>
      match ev with
      | Planner c msgs o => log_record E p (before ++ [ev]) (interaction_name c) msgs o
      | _ => []
      end ++ logged_calls E p (before ++ [ev]) rest
  end.

(** The log file holds what the session's planner calls have logged. *)
Definition log_ok (E : Env) (w : world) : Prop :=
  match task_planner w with
  | Some p =>
      log_file p = "llm_interactions.json"
      /\ read_logs p w = logged_calls E p [] (trace w)
  | None => trace w = []
  end.

(** ** Driver calls, decisions and requests *)

(** Whether a Playwright call came back without raising. *)
Definition came_back (r : page_reply) : bool :=
  match r with Succeeds _ => true | Fails => false end.

(** The world after one Playwright call [c] made in [w]. *)
Definition after_call (E : Env) (c : page_call) (w : world) : world :=
  set_trace (trace w ++ [Driver c (playwright E (trace w) c)]) w.

(** The member values of lines 18-30. *)
Definition ActionType_value (t : ActionType) : string :=
  match t with
  | CLICK => "click"
  | TYPE => "type"
  | EXTRACT => "extract"
  | WAIT => "wait"
  | NAVIGATE => "navigate"
  | FINISHED => "finished"
  end.

Definition SelectorType_value (t : SelectorType) : string :=
  match t with
  | ID => "id"
  | CLASS => "class"
  | XPATH => "xpath"
  | TEXT => "text"
  | CSS => "css"
  end.

(** The Playwright call a decision of kind [t] starts with, read from the
    decision's own fields; [k] is its decoded selector kind. *)
Definition first_call (E : Env) (t : ActionType) (k : option SelectorType) (d : pydict)
    : option page_call :=
  let locator := _get_selector E k (dict_get_none "selector" d) in
  let timeout_ms := dict_get_default "timeout" (JNum 10000) d in
  match t with
  | NAVIGATE => Some (goto (dict_get_none "input_value" d))
  | CLICK => Some (click locator timeout_ms)
  | TYPE => Some (fill locator (dict_get_none "input_value" d) timeout_ms)
  | EXTRACT | WAIT => Some (wait_for_selector locator timeout_ms)
  | FINISHED => None
  end.

(** While a task is set, the history begins with it. *)
Definition history_ok (w : world) : Prop :=
  forall task, user_task w = Some task ->
    exists rest, conversation_history w = {| role := "user"; content := task |} :: rest.

(** The same interaction with [s] in the goal box. *)
Definition with_task_input (s : string) (ui : ui_input) : ui_input :=
  {| task_input := s; user_response := user_response ui; submit := submit ui;
     start_new_task := start_new_task ui |}.

(** ** Counting the events of a run *)

(** The kinds of events a run is counted by. *)
Definition is_dispatch (ev : event) : bool :=
  match ev with Dispatch _ => true | _ => false end.

Definition is_executed (ev : event) : bool :=
  match ev with Executed _ _ _ => true | _ => false end.

Definition is_planner_call (ev : event) : bool :=
  match ev with Planner _ _ _ => true | _ => false end.

(** How many events of [evs] satisfy [f]. *)
Fixpoint count_events (f : event -> bool) (evs : list event) : nat :=
  match evs with
  | [] => 0
  | ev :: rest => (if f ev then 1 else 0) + count_events f rest
  end.

(** ** More scenarios *)

(** A browser that finds the element and cannot read its text. *)
Definition unreadable_page (c : page_call) : page_reply :=
  match c with
  | inner_text => Fails
  | _ => Succeeds (Some "<html></html>")
  end.

(** A browser whose context closes and whose process does not. *)
Definition stuck_browser (c : page_call) : page_reply :=
  match c with
  | browser_close => Fails
  | _ => Succeeds None
  end.

(** An endpoint that is down. *)
Definition silent (pw : page_call -> page_reply) : Env :=
  scripted_env pw None (fun _ => None).

(** An endpoint that answers its first call with [decision] and is down
    from then on. *)
Definition answers_once (pw : page_call -> page_reply) (decision : pydict) : Env :=
  {| playwright := fun _ c => pw c;
     chat_completion := fun tr _ =>
       match count_events is_planner_call tr with
       | 0 => Some "decision"
       | _ => None
       end;
     now_isoformat := now_isoformat (proposing pw decision);
     uuid4 := uuid4 (proposing pw decision);
     json_loads := fun _ => Some decision;
     json_dumps := render_json;
     json_dumps_indent := fun _ => render_json;
     py_repr := render_json;
     strip_markup := fun html => html;
     system_prompt := system_prompt (proposing pw decision) |}.

(** A decision whose question is a list, not a text. *)
Definition ask_with_list : pydict :=
  [("action_type", JStr "type"); ("selector", JStr "#email");
   ("requires_user_input", JBool true);
   ("user_prompt", JArr [JStr "What is your email?"])].

(** * Properties *)

(** ** Reasoning about monadic code *)

Ltac run_monad :=
  repeat (progress (unfold bind, ret, raise, lift, get, modify, emit, try_except,
                      st_show, st_rerun in *;
                    cbn beta iota zeta delta [fst snd] in *)).

(** ** The selector mapping *)

(** C3. The mapping from selector kind and raw selector string to the
    locator is a function of its two arguments alone (it takes no state),
    and gives "#" + s for ID, "." + s for CLASS, s for XPATH,
    "text=" + s for TEXT and s for CSS. *)
Theorem get_selector_mapping (E : Env) (s : string) :
  _get_selector E (Some ID) (JStr s) = JStr ("#" +:+ s)
  /\ _get_selector E (Some CLASS) (JStr s) = JStr ("." +:+ s)
  /\ _get_selector E (Some XPATH) (JStr s) = JStr s
  /\ _get_selector E (Some TEXT) (JStr s) = JStr ("text=" +:+ s)
  /\ _get_selector E (Some CSS) (JStr s) = JStr s.
Proof. repeat split. Qed.

Example get_selector_id_submit (E : Env) :
  _get_selector E (Some ID) (JStr "submit") = JStr "#submit".
Proof. reflexivity. Qed.

Example get_selector_text_sign_in (E : Env) :
  _get_selector E (Some TEXT) (JStr "Sign in") = JStr "text=Sign in".
Proof. reflexivity. Qed.

(** ** Decoding a decision *)

Lemma ActionType_of_value_unknown (v : json) :
  ~ known_action_type v -> ActionType_of_value v = Raise ValueError.
Proof.
  unfold known_action_type, ActionType_of_value. intros Hv.
  destruct v as [| | |s| |]; try reflexivity.
  repeat (case_decide; [subst; exfalso; apply Hv; tauto|]).
  reflexivity.
Qed.

Lemma SelectorType_of_value_unknown (s : string) :
  ~ known_selector_type s -> SelectorType_of_value (JStr s) = Raise ValueError.
Proof.
  unfold known_selector_type, SelectorType_of_value. intros Hs.
  repeat (case_decide; [subst; exfalso; apply Hs; tauto|]).
  reflexivity.
Qed.

Lemma build_action_type (t : option ActionType) (d : pydict) (a : BrowserAction) :
  build_action t d = Return a -> action_type a = t.
Proof.
  unfold build_action. intros H.
  repeat case_match; simplify_eq; reflexivity.
Qed.

Lemma build_action_raises (t : option ActionType) (d : pydict) (e : exn) :
  build_action t d = Raise e -> e = ValueError.
Proof.
  unfold build_action, SelectorType_of_value. intros H.
  repeat case_match; simplify_eq; reflexivity.
Qed.

(** C4. A decision without "action_type", or whose "action_type" is not
    one of the six kind strings (compared exactly, so "Click" or a number
    is not one), is never executed: [execute_browser_action] leaves the
    world as it is, so no driver operation is issued, and it ends in
    failure. For an unrecognized value it raises ValueError; for a
    missing key it returns the failure result (False, None), or raises
    ValueError from the selector kind. *)
Theorem undecodable_action_fails (E : Env) (d : pydict) (w : world) :
  (forall v, dict_get "action_type" d = Some v -> ~ known_action_type v ->
     execute_browser_action E d w = (Raise ValueError, w))
  /\ (dict_get "action_type" d = None ->
        execute_browser_action E d w = (Return (false, None), w)
        \/ execute_browser_action E d w = (Raise ValueError, w)).
Proof.
  split.
  - intros v Hv Hunknown.
    unfold execute_browser_action, decode_action_type. run_monad.
    rewrite Hv, (ActionType_of_value_unknown v Hunknown). reflexivity.
  - intros Hnone.
    unfold execute_browser_action, decode_action_type. run_monad.
    rewrite Hnone.
    destruct (build_action None d) as [a|e] eqn:Hb.
    + left. rewrite (build_action_type _ _ _ Hb). reflexivity.
    + right. rewrite (build_action_raises _ _ _ Hb). reflexivity.
Qed.

(** The scenario of C4: a decision with only an explanation, and one whose
    kind is spelled "Click". *)
Lemma undecodable_action_fails_witness :
  execute_browser_action (scripted_env (obliging_page "") None (fun _ => None))
    [("action_type", JStr "Click")] (new_session ∅)
  = (Raise ValueError, new_session ∅)
  /\ (execute_browser_action (scripted_env (obliging_page "") None (fun _ => None))
        [("explanation", JStr "no kind")] (new_session ∅)
      = (Return (false, None), new_session ∅)
      \/ execute_browser_action (scripted_env (obliging_page "") None (fun _ => None))
           [("explanation", JStr "no kind")] (new_session ∅)
         = (Raise ValueError, new_session ∅)).
Proof.
  pose proof (undecodable_action_fails
                (scripted_env (obliging_page "") None (fun _ => None))
                [("action_type", JStr "Click")] (new_session ∅)) as [Hunknown _].
  pose proof (undecodable_action_fails
                (scripted_env (obliging_page "") None (fun _ => None))
                [("explanation", JStr "no kind")] (new_session ∅)) as [_ Hmissing].
  split.
  - apply (Hunknown (JStr "Click")); [reflexivity|].
    unfold known_action_type. intros H; decompose [or] H; discriminate.
  - apply Hmissing. reflexivity.
Defined.

(** C10. A decision of kind click, type, extract or wait whose
    "selector_type" is a non-empty string other than "id", "class",
    "xpath", "text" and "css" makes [execute_browser_action] raise
    ValueError, not return (False, None); nothing in the dispatch of
    [main] catches it, so the script run ends in that exception. *)
Theorem invalid_selector_type_raises (E : Env) (d : pydict) (w : world) (k s : string) :
  dict_get "action_type" d = Some (JStr k) ->
  k = "click" \/ k = "type" \/ k = "extract" \/ k = "wait" ->
  dict_get "selector_type" d = Some (JStr s) ->
  s <> "" ->
  ~ known_selector_type s ->
  execute_browser_action E d w = (Raise ValueError, w)
  /\ forall p ui,
       run_action E p ui d w = (Raise ValueError, set_trace (trace w ++ [Dispatch d]) w).
Proof.
  intros Hk Hkind Hs Hne Hunknown.
  assert (Hexec : forall w', execute_browser_action E d w' = (Raise ValueError, w')).
  { intros w'.
    assert (Hb : forall t, build_action t d = Raise ValueError).
    { intros t. unfold build_action, dict_get_none, dict_get_default. rewrite Hs.
      cbn [truthy]. destruct (String.eqb_spec s "") as [-> | _]; [congruence|].
      cbn [negb]. rewrite (SelectorType_of_value_unknown s Hunknown). reflexivity. }
    unfold execute_browser_action, decode_action_type. run_monad.
    rewrite Hk.
    destruct Hkind as [-> | [-> | [-> | ->]]];
      (match goal with
       | |- context [ActionType_of_value ?v] =>
           let r := eval vm_compute in (ActionType_of_value v) in
           change (ActionType_of_value v) with r
       end);
      cbn beta iota; rewrite Hb; reflexivity. }
  split; [apply Hexec|].
  intros p ui. unfold run_action. run_monad. rewrite Hexec. reflexivity.
Qed.

Lemma invalid_selector_type_raises_witness :
  execute_browser_action (scripted_env (obliging_page "") None (fun _ => None))
    [("action_type", JStr "click"); ("selector_type", JStr "name");
     ("selector", JStr "q")] (new_session ∅)
  = (Raise ValueError, new_session ∅).
Proof.
  apply (invalid_selector_type_raises
           (scripted_env (obliging_page "") None (fun _ => None))
           [("action_type", JStr "click"); ("selector_type", JStr "name");
            ("selector", JStr "q")] (new_session ∅) "click" "name").
  - reflexivity.
  - left. reflexivity.
  - reflexivity.
  - discriminate.
  - unfold known_selector_type. intros H. decompose [or] H; discriminate.
Defined.

(** ** The timeout of an action *)

(** C8, as the code has it. The timeout of the action built from a
    decision is 10000 when the decision has no "timeout" field; a value
    that is supplied is kept as it is, whatever its sign. *)
Theorem timeout_default_when_absent (t : option ActionType) (d : pydict)
    (a : BrowserAction) :
  build_action t d = Return a ->
  (dict_get "timeout" d = None -> timeout a = JNum 10000)
  /\ (forall v, dict_get "timeout" d = Some v -> timeout a = v).
Proof.
  unfold build_action. intros Hb.
  assert (Ht : timeout a = dict_get_default "timeout" (JNum 10000) d).
  { repeat case_match; simplify_eq; reflexivity. }
  rewrite Ht. unfold dict_get_default.
  split; [intros ->; reflexivity | intros v ->; reflexivity].
Qed.

Lemma timeout_default_when_absent_witness :
  (exists a, build_action (Some CLICK) [("action_type", JStr "click")] = Return a
             /\ timeout a = JNum 10000)
  /\ (exists a, build_action (Some CLICK)
                  [("action_type", JStr "click"); ("timeout", JNum (-5))] = Return a
                /\ timeout a = JNum (-5)).
Proof.
  split; eexists; (split; [reflexivity|]).
  - destruct (timeout_default_when_absent (Some CLICK)
                [("action_type", JStr "click")] _ eq_refl) as [Habsent _].
    apply Habsent. reflexivity.
  - destruct (timeout_default_when_absent (Some CLICK)
                [("action_type", JStr "click"); ("timeout", JNum (-5))] _ eq_refl)
      as [_ Hgiven].
    apply Hgiven. reflexivity.
Defined.

(** C8, as the claim has it, fails: a supplied timeout of 0 is not replaced
    by 10000; it reaches Playwright as the timeout of the click. *)
Lemma nonpositive_timeout_is_kept :
  (exists a,
     build_action (Some CLICK)
       [("action_type", JStr "click"); ("selector_type", JStr "id");
        ("selector", JStr "login"); ("timeout", JNum 0)] = Return a
     /\ timeout a = JNum 0
     /\ timeout a <> JNum 10000)
  /\ trace (snd (execute_browser_action
                   (scripted_env (obliging_page "") None (fun _ => None))
                   [("action_type", JStr "click"); ("selector_type", JStr "id");
                    ("selector", JStr "login"); ("timeout", JNum 0)]
                   (set_agent (Some {| current_url := JStr "" |}) (new_session ∅))))
     = [Driver (click (JStr "#login") (JNum 0)) (Succeeds (Some ""))].
Proof.
  split.
  - eexists. split; [reflexivity|]. split; [reflexivity|discriminate].
  - reflexivity.
Qed.

(** ** The recorded URL *)

Lemma last_navigated_app (before : json) (evs evs' : list event) :
  last_navigated before (evs ++ evs') = last_navigated (last_navigated before evs) evs'.
Proof.
  revert before. induction evs as [|ev evs IH]; intros before; [reflexivity|].
  destruct ev as [c r| | |]; cbn; try apply IH.
  destruct c; try apply IH. destruct r; apply IH.
Qed.

Ltac case_playwright :=
  match goal with
  | |- context [playwright ?E ?tr ?c] =>
      let r := fresh "reply" in
      destruct (playwright E tr c) as [|[r|]] eqn:?
  end.

(** A driver method returns, and the recorded URL follows the [goto]s. *)
Lemma run_op_spec (E : Env) (o : driver_op) (w : world) (a : BrowserAgent) :
  agent w = Some a ->
  exists evs a',
    run_op E o w = (Return tt, set_agent (Some a') (set_trace (trace w ++ evs) w))
    /\ current_url a' = last_navigated (current_url a) evs.
Proof.
  intros Ha. destruct w as [ag tp ut ch ca ui fin prog ext fs tr].
  cbn in Ha. subst ag.
  destruct o; unfold run_op, navigate_to_url, find_and_click, find_and_type,
    extract_content, wait_for_element, get_current_url, get_page_content,
    self, page_do; run_monad; cbn;
    repeat (case_playwright; cbn);
    try (eexists [_; _], _; split; [rewrite <- app_assoc; reflexivity|]; reflexivity);
    try (eexists [_], _; split; [reflexivity|]; reflexivity);
    try (exists [], a; split; [rewrite app_nil_r; destruct a; reflexivity|]; reflexivity).
Qed.

Lemma run_ops_spec (E : Env) (ops : list driver_op) (w : world) (a : BrowserAgent) :
  agent w = Some a ->
  exists evs a',
    run_ops E ops w = (Return tt, set_agent (Some a') (set_trace (trace w ++ evs) w))
    /\ current_url a' = last_navigated (current_url a) evs.
Proof.
  revert w a. induction ops as [|o ops IH]; intros w a Ha.
  - exists [], a. split; [|reflexivity].
    destruct w; cbn in *; subst. rewrite app_nil_r. reflexivity.
  - destruct (run_op_spec E o w a Ha) as (evs1 & a1 & Hrun1 & Hurl1).
    destruct (IH (set_agent (Some a1) (set_trace (trace w ++ evs1) w)) a1 eq_refl)
      as (evs2 & a2 & Hrun2 & Hurl2).
    exists (evs1 ++ evs2), a2. split.
    + cbn [run_ops]. unfold bind at 1. rewrite Hrun1, Hrun2.
      destruct w; cbn. rewrite app_assoc. reflexivity.
    + rewrite last_navigated_app, <- Hurl1. exact Hurl2.
Qed.

(** [with_new_agent] is what lines 363 and 50-55 leave when the launch
    returns. *)
Lemma with_new_agent_launched (E : Env) (w : world) :
  playwright E (trace w) launch = Succeeds None ->
  (let* a := BrowserAgent_init E in modify (set_agent (Some a))) w
  = (Return tt, with_new_agent w).
Proof.
  intros Hlaunch. unfold BrowserAgent_init, page_do, with_new_agent. run_monad.
  rewrite Hlaunch. reflexivity.
Qed.

(** C6. [navigate_to_url] on an error of [goto] returns False and leaves
    the recorded URL as it was; when [goto] comes back it returns True and
    records the URL. [get_current_url] of a new agent is the empty string,
    and after any sequence of driver calls it is the URL of the last
    [goto] that came back without an error since the agent was made, the
    empty string if there was none. *)
Theorem current_url_is_last_navigation (E : Env) (w : world) :
  (forall a url, agent w = Some a ->
     playwright E (trace w) (goto url) = Fails ->
     fst (navigate_to_url E url w) = Return false
     /\ fst (get_current_url (snd (navigate_to_url E url w))) = Return (current_url a))
  /\ (forall a url v, agent w = Some a ->
        playwright E (trace w) (goto url) = Succeeds v ->
        fst (navigate_to_url E url w) = Return true
        /\ fst (get_current_url (snd (navigate_to_url E url w))) = Return url)
  /\ fst (get_current_url (with_new_agent w)) = Return (JStr "")
  /\ (forall ops, exists evs,
        trace (snd (run_ops E ops (with_new_agent w))) = trace (with_new_agent w) ++ evs
        /\ fst (get_current_url (snd (run_ops E ops (with_new_agent w))))
           = Return (last_navigated (JStr "") evs)).
Proof.
  split; [|split; [|split]].
  - intros a url Ha Hgoto.
    unfold navigate_to_url, get_current_url, self, page_do. run_monad.
    rewrite Ha, Hgoto. cbn. rewrite Ha. split; reflexivity.
  - intros a url v Ha Hgoto.
    unfold navigate_to_url, get_current_url, self, page_do. run_monad.
    rewrite Ha, Hgoto. split; reflexivity.
  - reflexivity.
  - intros ops.
    destruct (run_ops_spec E ops (with_new_agent w) {| current_url := JStr "" |} eq_refl)
      as (evs & a' & Hrun & Hurl).
    exists evs. rewrite Hrun. cbn in *. rewrite Hurl. split; reflexivity.
Qed.

(** Scenario A with a failure before it: a navigation that fails, then
    one to "https://example.com" that succeeds. *)
Lemma current_url_is_last_navigation_witness :
  (fst (navigate_to_url (scripted_env page_without_null None (fun _ => None)) JNull
          (with_new_agent (new_session ∅))) = Return false
   /\ fst (get_current_url
             (snd (navigate_to_url (scripted_env page_without_null None (fun _ => None))
                     JNull (with_new_agent (new_session ∅))))) = Return (JStr ""))
  /\ (fst (navigate_to_url (scripted_env page_without_null None (fun _ => None))
             (JStr "https://example.com") (with_new_agent (new_session ∅))) = Return true
      /\ fst (get_current_url
                (snd (navigate_to_url (scripted_env page_without_null None (fun _ => None))
                        (JStr "https://example.com") (with_new_agent (new_session ∅)))))
         = Return (JStr "https://example.com")).
Proof.
  destruct (current_url_is_last_navigation
              (scripted_env page_without_null None (fun _ => None))
              (with_new_agent (new_session ∅))) as (Hfail & Hok & _).
  split.
  - apply (Hfail {| current_url := JStr "" |} JNull); reflexivity.
  - apply (Hok {| current_url := JStr "" |} (JStr "https://example.com")
             (Some "<html></html>")); reflexivity.
Defined.

Example url_after_three_calls :
  fst (get_current_url
         (snd (run_ops (scripted_env page_without_null None (fun _ => None))
                 [op_navigate (JStr "https://example.com"); op_navigate JNull;
                  op_click (Some ID) (JStr "login") (JNum 10000)]
                 (with_new_agent (new_session ∅)))))
  = Return (JStr "https://example.com").
Proof. reflexivity. Qed.

(** ** The blocks of a script run *)

Lemma init_session_state_eq (E : Env) (w : world) :
  init_session_state E w
  = match task_planner w with
    | Some p => (Return p, w)
    | None =>
        let p := {| session_id := substring 0 8 (uuid4 E (trace w));
                    log_file := "llm_interactions.json" |} in
        (Return p,
         set_task_planner (Some p) (set_files (<[log_file p := Text ""]> (files w)) w))
    end.
Proof.
  unfold init_session_state, TaskPlanner_init. run_monad.
  destruct (task_planner w); reflexivity.
Qed.

Lemma await_goal_eq (E : Env) (ui : ui_input) (w : world) :
  await_goal E ui w
  = if negb (opt_str_truthy (user_task w)) && str_truthy (task_input ui)
    then (Raise (goal_outcome (playwright E (trace w) launch)),
          goal_world (playwright E (trace w) launch) ui w)
    else (Return tt, w).
Proof.
  unfold await_goal, BrowserAgent_init, page_do, goal_world, goal_outcome. run_monad.
  destruct (opt_str_truthy (user_task w)); [reflexivity|].
  destruct (str_truthy (task_input ui)); [|reflexivity].
  cbn. destruct (playwright E (trace w) launch); reflexivity.
Qed.

Lemma get_page_content_eq (E : Env) (w : world) (a : BrowserAgent) :
  agent w = Some a ->
  get_page_content E w
  = (Return (page_snapshot E (playwright E (trace w) page_content)),
     set_trace (trace w ++ [Driver page_content (playwright E (trace w) page_content)]) w).
Proof.
  intros Ha. unfold get_page_content, self, page_do, page_snapshot. run_monad.
  rewrite Ha. destruct (playwright E (trace w) page_content) as [|[html|]]; reflexivity.
Qed.

Lemma planning_state_eq (E : Env) (w : world) :
  planning_state E w
  = match agent w with
    | Some a =>
        (Return {| state_url := current_url a;
                   state_page_content :=
                     page_snapshot E (playwright E (trace w) page_content) |},
         set_trace
           (trace w ++ [Driver page_content (playwright E (trace w) page_content)]) w)
    | None => (Return {| state_url := JStr ""; state_page_content := "" |}, w)
    end.
Proof.
  unfold planning_state, get_current_url, self, bind, get, ret. cbn beta iota.
  destruct (agent w) as [a|] eqn:Ha; cbn beta iota; rewrite ?Ha; cbn beta iota.
  - rewrite (get_page_content_eq E w a Ha). reflexivity.
  - reflexivity.
Qed.

Lemma get_next_action_spec (E : Env) (p : TaskPlanner) (task : string)
    (st : option browser_state) (w : world) :
  let h := conversation_history w in
  let msgs := next_action_messages E task st h in
  let o := oracle_outcome E (trace w) msgs in
  let tr' := trace w ++ [Planner (GetNextAction task st h) msgs o] in
  exists fs',
    get_next_action E p task st w
    = match o with
      | NoResponse => (Raise APIError, set_files fs' (set_trace tr' w))
      | Malformed _ => (Raise JSONDecodeError, set_files fs' (set_trace tr' w))
      | Decoded _ res =>
          (Return res,
           set_conversation_history
             (h ++ [{| role := "assistant"; content := json_dumps E (JObj res) |}])
             (set_files fs' (set_trace tr' w)))
      end
    /\ (log_file p <> "dump.json" ->
        forall w0, files w0 = fs' ->
          read_logs p w0 = read_logs p w ++ log_record E p tr' "get_next_action" msgs o).
Proof.
  cbn zeta. unfold get_next_action, ask_oracle, log_llm_interaction, write_file,
    append_history, oracle_outcome.
  destruct w as [ag tp ut ch ca ui fin prog ext fs tr].
  run_monad. cbn [trace files set_files conversation_history].
  destruct (chat_completion E tr _) as [resp|];
    [|eexists; split; [reflexivity|];
      intros Hne w0 Hw0; unfold read_logs; rewrite Hw0;
      cbn [files set_files set_trace set_conversation_history];
      rewrite lookup_insert_ne by congruence; cbn; rewrite app_nil_r; reflexivity].
  destruct (json_loads E resp) as [res|]; eexists; (split; [reflexivity|]);
    intros Hne w0 Hw0; unfold read_logs; rewrite Hw0;
    cbn [files set_files set_trace set_conversation_history].
  - rewrite lookup_insert_ne by congruence. rewrite lookup_insert_eq.
    unfold read_logs. cbn [files set_files set_trace].
    rewrite lookup_insert_ne by congruence. reflexivity.
  - rewrite lookup_insert_ne by congruence. cbn. rewrite app_nil_r. reflexivity.
Qed.

Lemma handle_error_spec (E : Env) (p : TaskPlanner) (error : string)
    (st : browser_state) (w : world) :
  let h := conversation_history w in
  let msgs := handle_error_messages E error st h in
  let o := oracle_outcome E (trace w) msgs in
  let tr' := trace w ++ [Planner (HandleError error st h) msgs o] in
  exists fs',
    handle_error E p error st w
    = match o with
      | NoResponse => (Raise APIError, set_files fs' (set_trace tr' w))
      | Malformed _ => (Raise JSONDecodeError, set_files fs' (set_trace tr' w))
      | Decoded _ res =>
          (Return res,
           set_conversation_history
             (h ++ [{| role := "user"; content := "Error occurred: " +:+ error |};
                    {| role := "assistant"; content := json_dumps E (JObj res) |}])
             (set_files fs' (set_trace tr' w)))
      end
    /\ (forall w0, files w0 = fs' ->
          read_logs p w0 = read_logs p w ++ log_record E p tr' "handle_error" msgs o).
Proof.
  cbn zeta. unfold handle_error, ask_oracle, log_llm_interaction, write_file,
    append_history, oracle_outcome.
  destruct w as [ag tp ut ch ca ui fin prog ext fs tr].
  run_monad. cbn [trace files set_files conversation_history].
  destruct (chat_completion E tr _) as [resp|];
    [|exists fs; split; [reflexivity|];
      intros w0 Hw0; unfold read_logs; rewrite Hw0; cbn; rewrite app_nil_r; reflexivity].
  destruct (json_loads E resp) as [res|].
  - eexists; split; [cbn; rewrite <- ?app_assoc; reflexivity|].
    intros w0 Hw0. unfold read_logs; rewrite Hw0.
    cbn [files set_files set_trace set_conversation_history].
    rewrite lookup_insert_eq. reflexivity.
  - exists fs. split; [reflexivity|].
    intros w0 Hw0. unfold read_logs; rewrite Hw0; cbn. rewrite app_nil_r. reflexivity.
Qed.

Lemma execute_finished (E : Env) (d : pydict) (w : world) :
  dict_get "action_type" d = Some (JStr "finished") ->
  execute_browser_action E d w = (Return (true, Some "finished"), w).
Proof.
  intros Hd. unfold execute_browser_action, decode_action_type. run_monad.
  rewrite Hd. reflexivity.
Qed.

(** Whatever the decision, executing it only adds driver calls to the
    trace and can only change the URL the agent recorded. *)
Lemma execute_browser_action_spec (E : Env) (d : pydict) (w : world) :
  exists r drv ag',
    execute_browser_action E d w = (r, set_agent ag' (set_trace (trace w ++ drv) w))
    /\ Forall is_driver drv
    /\ (is_Some (agent w) -> is_Some ag')
    /\ (agent w = None -> ag' = None).
Proof.
  destruct w as [ag tp ut ch ca ui fin prog ext fs tr].
  unfold execute_browser_action. run_monad.
  destruct (decode_action_type d) as [t|e];
    [|exists (Raise e), [], ag; cbn; rewrite app_nil_r; auto].
  assert (Hnone : forall (r : result (bool * option string)),
            exists r' drv ag',
              (r, {| agent := ag; task_planner := tp; user_task := ut;
                     conversation_history := ch; current_action := ca;
                     user_inputs := ui; finished := fin; task_progress := prog;
                     extracted_content := ext; files := fs; trace := tr |})
              = (r', set_agent ag'
                       (set_trace (tr ++ drv)
                          {| agent := ag; task_planner := tp; user_task := ut;
                             conversation_history := ch; current_action := ca;
                             user_inputs := ui; finished := fin; task_progress := prog;
                             extracted_content := ext; files := fs; trace := tr |}))
              /\ Forall is_driver drv
              /\ (is_Some ag -> is_Some ag') /\ (ag = None -> ag' = None)).
  { intros r. exists r, [], ag. cbn. rewrite app_nil_r. auto. }
  destruct (build_action t d) as [action|e] eqn:Hb.
  2:{ destruct t as [[]|]; apply Hnone. }
  pose proof (build_action_type _ _ _ Hb) as Ht. rewrite Ht.
  destruct t as [[]|]; try apply Hnone;
    unfold navigate_to_url, find_and_click, find_and_type, extract_content,
      wait_for_element, self, page_do; run_monad; cbn;
    (destruct ag as [a|]; [|apply Hnone]); cbn;
    repeat (case_playwright; cbn);
    try (eexists _, [_; _], _; split; [rewrite <- app_assoc; reflexivity|];
         repeat split; eauto; repeat constructor; congruence);
    try (eexists _, [_], _; split; [reflexivity|];
         repeat split; eauto; repeat constructor; congruence).
Qed.

Lemma on_failure_without_agent (E : Env) (p : TaskPlanner) (w : world) :
  agent w = None -> on_failure E p w = (Raise AttributeError, w).
Proof.
  intros Ha. unfold on_failure, get_current_url, self. run_monad. rewrite Ha. reflexivity.
Qed.

Lemma on_failure_spec (E : Env) (p : TaskPlanner) (w : world) (a : BrowserAgent) :
  agent w = Some a ->
  let r := playwright E (trace w) page_content in
  let st := {| state_url := current_url a; state_page_content := page_snapshot E r |} in
  let h := conversation_history w in
  let msgs := handle_error_messages E "Action failed" st h in
  let o := oracle_outcome E (trace w ++ [Driver page_content r]) msgs in
  let tr' := trace w ++ [Driver page_content r;
                         Planner (HandleError "Action failed" st h) msgs o] in
  exists fs',
    on_failure E p w
    = match o with
      | NoResponse => (Raise APIError, set_files fs' (set_trace tr' w))
      | Malformed _ => (Raise JSONDecodeError, set_files fs' (set_trace tr' w))
      | Decoded _ res =>
          (Raise RerunException,
           set_current_action (Some res)
             (set_conversation_history
                (h ++ [{| role := "user"; content := "Error occurred: Action failed" |};
                       {| role := "assistant"; content := json_dumps E (JObj res) |}])
                (set_files fs' (set_trace tr' w))))
      end
    /\ (forall w0, files w0 = fs' ->
          read_logs p w0 = read_logs p w ++ log_record E p tr' "handle_error" msgs o).
Proof.
  intros Ha. cbn zeta.
  unfold on_failure, get_current_url, self, bind at 1 2 3, ret, st_rerun, raise.
  rewrite Ha. cbn beta iota. rewrite (get_page_content_eq E w a Ha). cbn beta iota.
  destruct (handle_error_spec E p "Action failed"
              {| state_url := current_url a;
                 state_page_content :=
                   page_snapshot E (playwright E (trace w) page_content) |}
              (set_trace
                 (trace w ++ [Driver page_content (playwright E (trace w) page_content)])
                 w)) as (fs' & Hh & Hlog).
  cbn zeta in Hh, Hlog. unfold bind. rewrite Hh. clear Hh.
  destruct w as [ag tp ut ch ca ui fin prog ext fs tr].
  cbn [trace conversation_history set_trace] in *.
  exists fs'. split.
  - destruct (oracle_outcome E _ _); unfold modify; cbn; rewrite <- ?app_assoc;
      reflexivity.
  - intros w0 Hw0. rewrite (Hlog w0 Hw0). rewrite <- ?app_assoc. reflexivity.
Qed.

Lemma close_spec (E : Env) (w : world) (a : BrowserAgent) :
  agent w = Some a ->
  exists drv,
    Forall is_driver drv
    /\ (close E w = (Return tt, set_trace (trace w ++ drv) w)
        \/ close E w = (Raise PlaywrightError, set_trace (trace w ++ drv) w)).
Proof.
  intros Ha. destruct w as [ag tp ut ch ca ui fin prog ext fs tr].
  cbn in Ha. subst ag.
  unfold close, self, page_do. run_monad. cbn.
  repeat (case_playwright; cbn);
    try (exists [Driver context_close Fails];
         split; [repeat constructor|right; reflexivity]);
    try (eexists [_; _];
         (split; [|rewrite <- !app_assoc; (left; reflexivity) || (right; reflexivity)]);
         repeat constructor);
    try (eexists [_; _; _];
         (split; [|rewrite <- !app_assoc; (left; reflexivity) || (right; reflexivity)]);
         repeat constructor).
Qed.

Lemma new_task_button_spec (E : Env) (ui : ui_input) (w : world) :
  if start_new_task ui
  then exists drv,
         Forall is_driver drv
         /\ (new_task_button E ui w
             = (Raise RerunException, reset_session (set_trace (trace w ++ drv) w))
             \/ new_task_button E ui w
                = (Raise PlaywrightError, set_trace (trace w ++ drv) w))
  else new_task_button E ui w = (Return tt, w).
Proof.
  unfold new_task_button. destruct (start_new_task ui); [|reflexivity].
  unfold bind, get, modify, st_rerun, raise, ret. cbn beta iota.
  destruct (agent w) as [a|] eqn:Ha.
  - destruct (close_spec E w a Ha) as (drv & Hdrv & [Hc|Hc]);
      exists drv; (split; [exact Hdrv|]); rewrite Hc; [left|right]; reflexivity.
  - exists []. split; [constructor|]. left.
    destruct w; cbn in *; subst. rewrite app_nil_r. reflexivity.
Qed.

Lemma on_success_eq (E : Env) (ui : ui_input) (d : pydict) (x : option string)
    (w : world) :
  on_success E ui d x w
  = if json_eq_str (dict_get_none "action_type" d) "finished"
    then new_task_button E ui (set_finished true w)
    else (Raise RerunException,
          set_current_action None
            (match x with
             | Some text =>
                 if str_truthy text
                 then set_conversation_history
                        (conversation_history w
                         ++ [{| role := "user";
                                content := "Extracted content: " +:+ text |}])
                        (set_extracted_content (Some text) w)
                 else w
             | None => w
             end)).
Proof.
  unfold on_success.
  destruct (json_eq_str (dict_get_none "action_type" d) "finished"); [reflexivity|].
  unfold append_history. run_monad.
  destruct x as [text|]; [destruct (str_truthy text)|]; reflexivity.
Qed.

Lemma run_action_eq (E : Env) (p : TaskPlanner) (ui : ui_input) (d : pydict)
    (w : world) :
  run_action E p ui d w
  = match execute_browser_action E d (set_trace (trace w ++ [Dispatch d]) w) with
    | (Raise e, w5) => (Raise e, w5)
    | (Return (b, x), w5) =>
        if b
        then on_success E ui d x (set_trace (trace w5 ++ [Executed d b x]) w5)
        else on_failure E p (set_trace (trace w5 ++ [Executed d b x]) w5)
    end.
Proof.
  unfold run_action. unfold bind at 1 2 3, emit, modify.
  destruct (execute_browser_action E d _) as [[[[] x]|e] w5]; reflexivity.
Qed.

Lemma plan_if_idle_spec (E : Env) (p : TaskPlanner) (task : string) (w : world) :
  if action_pending (current_action w)
  then plan_if_idle E p task w = (Return tt, w)
  else
    let st := planning_browser_state E w in
    let h := conversation_history w in
    let msgs := next_action_messages E task (Some st) h in
    let o := oracle_outcome E (trace w ++ planning_events E w) msgs in
    let tr' := trace w ++ planning_events E w
               ++ [Planner (GetNextAction task (Some st) h) msgs o] in
    exists fs',
      plan_if_idle E p task w
      = match o with
        | NoResponse => (Raise APIError, set_files fs' (set_trace tr' w))
        | Malformed _ => (Raise JSONDecodeError, set_files fs' (set_trace tr' w))
        | Decoded _ res =>
            (Return tt,
             set_current_action (Some res)
               (set_conversation_history
                  (h ++ [{| role := "assistant"; content := json_dumps E (JObj res) |}])
                  (set_files fs' (set_trace tr' w))))
        end
      /\ (log_file p <> "dump.json" ->
          forall w0, files w0 = fs' ->
            read_logs p w0
            = read_logs p w ++ log_record E p tr' "get_next_action" msgs o).
Proof.
  destruct (action_pending (current_action w)) eqn:Hpending;
    unfold plan_if_idle; unfold bind at 1, get; cbn beta iota; rewrite Hpending;
    [reflexivity|].
  cbn zeta. cbn [negb]. unfold bind at 1. rewrite planning_state_eq.
  unfold planning_browser_state, planning_events.
  destruct (agent w) as [a|] eqn:Ha.
  - destruct (get_next_action_spec E p task
                (Some {| state_url := current_url a;
                         state_page_content :=
                           page_snapshot E (playwright E (trace w) page_content) |})
                (set_trace
                   (trace w ++ [Driver page_content (playwright E (trace w) page_content)])
                   w)) as (fs' & Hg & Hlog).
    cbn zeta in Hg, Hlog. unfold bind. rewrite Hg. clear Hg.
    destruct w as [ag tp ut ch ca ui fin prog ext fs tr].
    cbn [trace conversation_history set_trace] in *. exists fs'. split.
    + destruct (oracle_outcome E _ _); unfold modify; cbn; rewrite <- ?app_assoc;
        reflexivity.
    + intros Hne w0 Hw0. rewrite (Hlog Hne w0 Hw0). rewrite <- ?app_assoc. reflexivity.
  - destruct (get_next_action_spec E p task
                (Some {| state_url := JStr ""; state_page_content := "" |}) w)
      as (fs' & Hg & Hlog).
    cbn zeta in Hg, Hlog. unfold bind. rewrite Hg. clear Hg.
    destruct w as [ag tp ut ch ca ui fin prog ext fs tr].
    cbn [trace conversation_history set_trace] in *. exists fs'.
    cbn in Ha. subst ag. cbn [app]. rewrite app_nil_r. split.
    + destruct (oracle_outcome E _ _); unfold modify; cbn; reflexivity.
    + intros Hne w0 Hw0. rewrite (Hlog Hne w0 Hw0). reflexivity.
Qed.

(** Every script run takes one of the ways of [task_step]. *)
Lemma work_on_task_step (E : Env) (p : TaskPlanner) (ui : ui_input) (w : world)
    (r : result unit) (w' : world) :
  work_on_task E p ui w = (r, w') -> task_step E p ui w r w'.
Proof.
  unfold work_on_task. unfold bind at 1, get. cbn beta iota.
  destruct (user_task w) as [task|] eqn:Htask.
  2:{ intros [= <- <-]. apply step_inactive. rewrite Htask. reflexivity. }
  destruct (str_truthy task && negb (finished w)) eqn:Hactive.
  2:{ intros [= <- <-]. apply step_inactive. rewrite Htask. exact Hactive. }
  unfold bind at 1.
  destruct (plan_if_idle E p task w) as [[[]|e] w2] eqn:Hplan.
  2:{ intros [= <- <-]. eapply step_plan_raised; eassumption. }
  unfold bind at 1, get. cbn beta iota.
  destruct (current_action w2) as [action|] eqn:Haction.
  2:{ intros [= <- <-]. eapply step_no_action; eassumption. }
  assert (Hnote : (match dict_get "task_progress" action with
                   | Some v => modify (set_task_progress v)
                   | None => ret tt
                   end) w2 = (Return tt, note_progress action w2)).
  { unfold note_progress, dict_get_default.
    destruct (dict_get "task_progress" action); [reflexivity|].
    destruct w2; reflexivity. }
  unfold bind at 1. rewrite Hnote. unfold bind at 1, get. cbn beta iota.
  unfold bind at 1, lift.
  fold (requires_input_of action). fold (user_prompt_of action).
  destruct (needs_answer (requires_input_of action) (user_prompt_of action)
              (note_progress action w2)) as [[k|]|e] eqn:Hneeds.
  - intros Hask. eapply step_ask; eassumption.
  - intros Hrun. eapply step_run; eassumption.
  - intros [= <- <-]. eapply step_unhashable; eassumption.
Qed.

Lemma main_eq (E : Env) (ui : ui_input) (w : world) :
  main E ui w
  = if negb (opt_str_truthy (user_task w)) && str_truthy (task_input ui)
    then (Raise (goal_outcome (playwright E (trace w) launch)),
          goal_world (playwright E (trace w) launch) ui (snd (started E w)))
    else work_on_task E (fst (started E w)) ui (snd (started E w)).
Proof.
  unfold main, bind. rewrite init_session_state_eq. unfold started.
  destruct (task_planner w) as [p|]; cbn beta iota zeta; rewrite await_goal_eq;
    cbn [user_task trace set_task_planner set_files fst snd];
    destruct (negb (opt_str_truthy (user_task w)) && str_truthy (task_input ui));
    reflexivity.
Qed.

(** ** Invariants of a session *)

Lemma started_same (E : Env) (w : world) :
  agent (snd (started E w)) = agent w
  /\ user_task (snd (started E w)) = user_task w
  /\ conversation_history (snd (started E w)) = conversation_history w
  /\ current_action (snd (started E w)) = current_action w
  /\ user_inputs (snd (started E w)) = user_inputs w
  /\ finished (snd (started E w)) = finished w
  /\ extracted_content (snd (started E w)) = extracted_content w
  /\ trace (snd (started E w)) = trace w
  /\ task_planner (snd (started E w)) = Some (fst (started E w)).
Proof.
  unfold started. destruct (task_planner w) eqn:Hp; cbn; auto 10.
Qed.

Lemma session_ok_started (E : Env) (w : world) :
  session_ok w -> session_ok (snd (started E w)).
Proof.
  unfold session_ok.
  destruct (started_same E w) as (_ & -> & _ & _ & _ & -> & _ & _ & ->).
  intuition eauto.
Qed.

(** Using the block lemmas on a hypothesis about a block. *)
Ltac use_plan H :=
  match type of H with
  | plan_if_idle ?E ?p ?task ?w = _ =>
      let Hs := fresh "Hspec" in
      let Hpend := fresh "Hpending" in
      let fs' := fresh "fs'" in
      let Ho := fresh "Houtcome" in
      pose proof (plan_if_idle_spec E p task w) as Hs;
      destruct (action_pending (current_action w)) eqn:Hpend;
      [ rewrite Hs in H; clear Hs
      | let Hlog := fresh "Hplanlog" in
        cbn zeta in Hs; destruct Hs as (fs' & Hs & Hlog); rewrite Hs in H; clear Hs;
        match type of H with
        | context [oracle_outcome ?E' ?tr ?m] =>
            destruct (oracle_outcome E' tr m) eqn:Ho
        end ];
      simplify_eq
  end.

Ltac use_execute H :=
  match type of H with
  | context [execute_browser_action ?E ?d ?w] =>
      let r := fresh "r" in
      let drv := fresh "drv" in
      let ag' := fresh "ag'" in
      let Hx := fresh "Hexec" in
      let Hdrv := fresh "Hdrv" in
      let Hsome := fresh "Hsome" in
      let Hnone := fresh "Hnone" in
      let x := fresh "x" in
      let e := fresh "e" in
      destruct (execute_browser_action_spec E d w)
        as (r & drv & ag' & Hx & Hdrv & Hsome & Hnone);
      rewrite Hx in H; clear Hx;
      destruct r as [[[] x]|e];
      cbn in Hsome, Hnone
  end.

Ltac use_new_task H :=
  match type of H with
  | context [new_task_button ?E ?ui ?w] =>
      let Hs := fresh "Hbutton" in
      let drv := fresh "closing" in
      let Hdrv := fresh "Hclosing" in
      pose proof (new_task_button_spec E ui w) as Hs;
      destruct (start_new_task ui) eqn:?;
      [ destruct Hs as (drv & Hdrv & [Hs|Hs]) | ];
      rewrite Hs in H; clear Hs
  end.

Ltac use_failure H :=
  match type of H with
  | context [on_failure ?E ?p ?w] =>
      let a := fresh "a" in
      let Ha := fresh "Hagent" in
      let fs' := fresh "fs'" in
      let Hs := fresh "Hrecover" in
      let Ho := fresh "Houtcome" in
      destruct (agent w) as [a|] eqn:Ha;
      [ let Hlog := fresh "Hrecoverlog" in
        destruct (on_failure_spec E p w a Ha) as (fs' & Hs & Hlog); cbn zeta in Hs, Hlog;
        rewrite Hs in H; clear Hs;
        match type of H with
        | context [oracle_outcome ?E' ?tr ?m] =>
            destruct (oracle_outcome E' tr m) eqn:Ho
        end
      | rewrite (on_failure_without_agent E p w Ha) in H ]
  end.

Lemma session_ok_new (fs : gmap string file) : session_ok (new_session fs).
Proof. repeat split; cbn; discriminate. Qed.

(** The case analysis of one script run: from [task_step] down to the
    world each way leaves. *)
Ltac analyse_plan :=
  match goal with
  | H : plan_if_idle _ _ _ _ = _ |- _ => use_plan H
  end.

Ltac analyse_ask :=
  match goal with
  | H : ask_user ?ui _ _ _ = _ |- _ =>
      unfold ask_user in H; destruct (submit ui) eqn:?;
      unfold append_history in H; run_monad; simplify_eq
  end.

Ltac analyse_action :=
  match goal with
  | H : run_action _ _ _ _ _ = _ |- _ =>
      rewrite run_action_eq in H; use_execute H;
      match type of H with
      | on_success _ _ ?d ?x _ = _ =>
          rewrite on_success_eq in H;
          destruct (json_eq_str (dict_get_none "action_type" d) "finished") eqn:?;
          [ use_new_task H; simplify_eq
          | simplify_eq;
            let text := fresh "text" in
            destruct x as [text|]; [destruct (str_truthy text) eqn:?|] ]
      | on_failure _ _ _ = _ => use_failure H; simplify_eq
      | _ => simplify_eq
      end
  end.

Lemma session_ok_run_main (E : Env) (ui : ui_input) (w : world) :
  session_ok w -> session_ok (run_main E ui w).
Proof.
  intros Hok. unfold run_main. rewrite main_eq.
  pose proof (session_ok_started E w Hok) as Hok1.
  destruct (started_same E w) as (_ & Hut & _ & _ & _ & Hfinished & _ & _ & Hplanner).
  destruct (negb (opt_str_truthy (user_task w)) && str_truthy (task_input ui)) eqn:Hguard.
  - apply andb_true_iff in Hguard as [_ Hin].
    destruct (playwright E (trace w) launch); repeat split; cbn; eauto.
  - clear Hguard Hut Hfinished Hok.
    set (p := fst (started E w)) in *. set (w1 := snd (started E w)) in *.
    clearbody p w1.
    destruct (work_on_task E p ui w1) as [r w'] eqn:Hrun. cbn [snd].
    apply work_on_task_step in Hrun.
    destruct Hok1 as (Hfin & Hplan).
    inversion Hrun; subst; try (repeat split; assumption).
    all: analyse_plan; unfold session_ok; cbn; try (repeat split; assumption).
    all: try (analyse_ask; cbn; repeat split; assumption).
    all: match goal with
         | Hactive : str_truthy _ && negb _ = true |- _ =>
             apply andb_true_iff in Hactive as [Htruthy Hnotfin]
         end.
    all: analyse_action; cbn.
    all: try match goal with
             | Htask : user_task _ = Some _ |- _ => rewrite Htask in *; cbn in *
             end.
    all: try (repeat split; eauto; discriminate).
Qed.

Lemma run_script_snoc (E : Env) (fs : gmap string file) (uis : list ui_input)
    (ui : ui_input) :
  run_script E fs (uis ++ [ui]) = run_main E ui (run_script E fs uis).
Proof. unfold run_script. rewrite fold_left_app. reflexivity. Qed.

Lemma session_ok_run_script (E : Env) (fs : gmap string file) (uis : list ui_input) :
  session_ok (run_script E fs uis).
Proof.
  induction uis as [|ui uis IH] using rev_ind.
  - apply session_ok_new.
  - rewrite run_script_snoc. apply session_ok_run_main, IH.
Qed.

(** ** The events of a script run *)

Lemma planning_events_driver (E : Env) (w : world) :
  Forall is_driver (planning_events E w).
Proof. unfold planning_events. destruct (agent w); repeat constructor. Qed.

Lemma not_in_drivers (ev : event) (drv : list event) :
  Forall is_driver drv -> ~ is_driver ev -> ~ In ev drv.
Proof.
  intros Hdrv Hev Hin. rewrite Forall_forall in Hdrv.
  apply Hev, Hdrv. apply list_elem_of_In. exact Hin.
Qed.

(** One script run, way by way: the goal has just been typed, or
    [work_on_task] took one of the ways of [task_step], each followed to
    the world it leaves. *)
Ltac analyse_run E ui w p w1 :=
  let Hguard := fresh "Hguard" in
  let Hrun := fresh "Hrun" in
  let r := fresh "r" in
  let w' := fresh "w'" in
  unfold run_main; rewrite main_eq;
  destruct (started_same E w)
    as (Hagent1 & Htask1 & Hhist1 & Haction1 & Hinputs1 & Hfinished1 & Hextracted1
        & Htrace1 & Hplanner1);
  destruct (negb (opt_str_truthy (user_task w)) && str_truthy (task_input ui)) eqn:Hguard;
  [ cbn [snd];
    let launched := fresh "launched" in
    destruct (playwright E (trace w) launch) as [|launched] eqn:Hlaunch
  | set (p := fst (started E w)) in *; set (w1 := snd (started E w)) in *;
    clearbody p w1;
    destruct (work_on_task E p ui w1) as [r w'] eqn:Hrun; cbn [snd];
    apply work_on_task_step in Hrun;
    inversion Hrun; subst; clear Hrun;
    [ | analyse_plan .. ];
    try analyse_ask; try analyse_action ].

Ltac norm_events :=
  cbn [trace goal_world set_agent set_trace set_files set_conversation_history
       set_user_task set_current_action set_user_inputs set_finished
       set_task_progress set_extracted_content note_progress reset_session] in *;
  repeat match goal with
         | H : trace ?w1 = trace ?w |- context [trace ?w1] => rewrite H
         end;
  rewrite <- ?app_assoc; rewrite ?drop_app_length, ?drop_all.

Ltac event_cases H :=
  repeat match type of H with
         | In _ (_ ++ _) => apply in_app_or in H; destruct H as [H|H]
         | In _ (_ :: _) => destruct H as [H|H]
         | In _ [] => destruct H
         | In _ (planning_events ?E ?w) =>
             exfalso; revert H;
             apply (not_in_drivers _ _ (planning_events_driver E w)); exact id
         | In _ ?drv =>
             match goal with
             | Hd : Forall is_driver drv |- _ =>
                 exfalso; revert H; apply (not_in_drivers _ _ Hd); exact id
             end
         | _ = _ => simplify_eq
         end.

(** ** A finished task *)

Lemma finished_run_sets_flag (E : Env) (ui : ui_input) (w : world) (d : pydict)
    (x : option string) :
  In (Executed d true x) (events_of_run E ui w) ->
  dict_get "action_type" d = Some (JStr "finished") ->
  start_new_task ui = false ->
  finished (run_main E ui w) = true.
Proof.
  unfold events_of_run. analyse_run E ui w p w1.
  all: norm_events; intros Hin Hd Hstart; event_cases Hin.
  all: try congruence.
  all: try reflexivity.
  all: exfalso; unfold dict_get_none, dict_get_default in *;
    match goal with
    | H : json_eq_str _ _ = false |- _ => rewrite Hd in H; discriminate H
    end.
Qed.

Lemma finished_run_is_idle (E : Env) (ui : ui_input) (w : world) :
  session_ok w -> finished w = true -> main E ui w = (Return tt, w).
Proof.
  intros (Htask & Hplanner) Hfin.
  specialize (Htask Hfin). destruct (Hplanner Hfin) as [p Hp].
  rewrite main_eq. rewrite Htask. cbn [negb andb].
  unfold started. rewrite Hp. cbn [fst snd].
  unfold work_on_task. unfold bind at 1, get. cbn beta iota.
  destruct (user_task w) as [task|]; [|reflexivity].
  rewrite Hfin. rewrite andb_false_r. reflexivity.
Qed.

Lemma finished_session_is_stuck (E : Env) (more : list ui_input) (w : world) :
  session_ok w -> finished w = true ->
  fold_left (fun w ui => run_main E ui w) more w = w.
Proof.
  intros Hok Hfin. induction more as [|ui more IH]; [reflexivity|].
  cbn [fold_left]. unfold run_main at 2.
  rewrite (finished_run_is_idle E ui w Hok Hfin). exact IH.
Qed.

(** C2. A decision of kind "finished" is executed without any driver
    operation: [execute_browser_action] returns (True, "finished") and
    leaves the world, hence the trace, as it was. The script run that
    executes it sets the finished flag, unless the Start New Task button
    is pressed in that very run. Once a run has ended with the flag set,
    every later run leaves the session and the trace unchanged: no driver
    call is issued any more. *)
Theorem finished_is_terminal (E : Env) :
  (forall d w,
     dict_get "action_type" d = Some (JStr "finished") ->
     execute_browser_action E d w = (Return (true, Some "finished"), w))
  /\ (forall ui w d x,
        In (Executed d true x) (events_of_run E ui w) ->
        dict_get "action_type" d = Some (JStr "finished") ->
        start_new_task ui = false ->
        finished (run_main E ui w) = true)
  /\ (forall fs uis more,
        finished (run_script E fs uis) = true ->
        run_script E fs (uis ++ more) = run_script E fs uis).
Proof.
  split; [|split].
  - intros d w Hd. apply execute_finished, Hd.
  - intros ui w d x. apply finished_run_sets_flag.
  - intros fs uis more Hfin. unfold run_script at 1. rewrite fold_left_app.
    apply finished_session_is_stuck; [apply session_ok_run_script|exact Hfin].
Qed.

(** A session whose planner declares the task finished at once. *)
Lemma finished_is_terminal_witness :
  execute_browser_action (proposing (obliging_page "") finished_decision)
    finished_decision (new_session ∅)
  = (Return (true, Some "finished"), new_session ∅)
  /\ finished (run_main (proposing (obliging_page "") finished_decision) ui_idle
                 (run_script (proposing (obliging_page "") finished_decision) ∅
                    [ui_goal "buy milk"])) = true
  /\ run_script (proposing (obliging_page "") finished_decision) ∅
       ([ui_goal "buy milk"; ui_idle] ++ [ui_idle; ui_goal "again"])
     = run_script (proposing (obliging_page "") finished_decision) ∅
         [ui_goal "buy milk"; ui_idle].
Proof.
  destruct (finished_is_terminal (proposing (obliging_page "") finished_decision))
    as (Hexec & Hflag & Hstuck).
  split; [|split].
  - apply Hexec. reflexivity.
  - apply (Hflag ui_idle _ finished_decision (Some "finished")).
    + vm_compute. tauto.
    + reflexivity.
    + reflexivity.
  - apply Hstuck. vm_compute. reflexivity.
Defined.

(** ** Recovery after a failed execution *)

Lemma recovery_starts_app (E : Env) (post more : list event) :
  recovery_starts E post -> recovery_starts E (post ++ more).
Proof.
  intros (r & st & h & msgs & o & post' & -> & Hst).
  exists r, st, h, msgs, o, (post' ++ more). split; [reflexivity|exact Hst].
Qed.

Lemma recovery_follows_app (E : Env) (evs more : list event) :
  recovery_follows E evs -> recovery_follows E more -> recovery_follows E (evs ++ more).
Proof.
  intros Hevs Hmore. induction evs as [|ev evs IH]; [exact Hmore|].
  destruct ev as [c r|c m o|d|d [] x]; cbn in *; try (apply IH; exact Hevs).
  destruct Hevs as [Hstart Hevs]. split; [apply recovery_starts_app, Hstart|apply IH, Hevs].
Qed.

Lemma recovery_follows_drivers (E : Env) (drv : list event) :
  Forall is_driver drv -> recovery_follows E drv.
Proof.
  induction 1 as [|ev drv Hev _ IH]; [exact I|].
  destruct ev; cbn in *; try contradiction. exact IH.
Qed.

Lemma recovery_follows_split (E : Env) (pre post : list event) (d : pydict)
    (x : option string) :
  recovery_follows E (pre ++ Executed d false x :: post) -> recovery_starts E post.
Proof.
  induction pre as [|ev pre IH]; cbn.
  - intros [Hstart _]. exact Hstart.
  - destruct ev as [c r|c m o|d'|d' [] x']; cbn; try exact IH. intros [_ H]. apply IH, H.
Qed.

Lemma run_main_trace (E : Env) (ui : ui_input) (w : world) :
  trace (run_main E ui w) = trace w ++ events_of_run E ui w.
Proof.
  unfold events_of_run. analyse_run E ui w p w1.
  all: norm_events; rewrite ?app_nil_r; reflexivity.
Qed.

Lemma run_recovery (E : Env) (ui : ui_input) (w : world) :
  has_agent w -> recovery_follows E (events_of_run E ui w).
Proof.
  intros Hagent.
  unfold events_of_run. analyse_run E ui w p w1.
  all: norm_events; cbn [app].
  all: repeat (apply recovery_follows_app;
               [first [apply recovery_follows_drivers; assumption
                      |apply recovery_follows_drivers, planning_events_driver
                      |exact I]|]).
  all: try exact I.
  all: cbn [recovery_follows]; try (apply recovery_follows_drivers; assumption).
  all: try (split; [do 6 eexists; split; reflexivity | exact I]).
  all: exfalso.
  all: match goal with
       | Ht : user_task ?w1 = Some ?task, Ha : str_truthy ?task && _ = true,
         Hs : is_Some (agent ?w1) -> is_Some ?ag', Hn : agent _ = None |- _ =>
           apply andb_true_iff in Ha as [Ha _];
           cbn in Hn; subst ag';
           assert (Hw : is_Some (agent w1))
             by (rewrite Hagent1; apply Hagent; rewrite <- Htask1, Ht; exact Ha);
           destruct (Hs Hw) as [? Hcontra]; discriminate Hcontra
       end.
Qed.

Lemma recovery_result_is_pending (E : Env) (ui : ui_input) (w : world) (e : string)
    (st : browser_state) (h msgs : list message) (resp : string) (res : pydict) :
  In (Planner (HandleError e st h) msgs (Decoded resp res)) (events_of_run E ui w) ->
  current_action (run_main E ui w) = Some res
  /\ exists a, agent (run_main E ui w) = Some a /\ state_url st = current_url a.
Proof.
  unfold events_of_run. analyse_run E ui w p w1.
  all: norm_events; intros Hin; event_cases Hin.
  all: cbn in *; simplify_eq; split; [reflexivity|eexists; split; reflexivity].
Qed.

(** As long as every launch returns, a session with a task has its
    agent. *)
Lemma has_agent_run_main (E : Env) (ui : ui_input) (w : world) :
  has_agent w -> launches_succeed (events_of_run E ui w) -> has_agent (run_main E ui w).
Proof.
  unfold has_agent, launches_succeed. intros Hagent.
  unfold events_of_run. analyse_run E ui w p w1.
  all: norm_events; intros Hlaunches; cbn; rewrite ?Htask1, ?Hagent1.
  all: try exact Hagent.
  all: try (exfalso; apply Hlaunches; left; reflexivity).
  all: try (intros _; eexists; reflexivity).
  all: try discriminate.
  all: match goal with
       | Hs : is_Some (agent ?w0) -> is_Some ?ag' |- _ =>
           intros Htruthy; apply Hs; cbn; rewrite ?Hagent1; apply Hagent;
           exact Htruthy
       end.
Qed.

Lemma launches_succeed_app (evs more : list event) :
  launches_succeed (evs ++ more) -> launches_succeed evs /\ launches_succeed more.
Proof.
  unfold launches_succeed. intros Hno.
  split; intros Hin; apply Hno, in_or_app; [left|right]; exact Hin.
Qed.

Lemma has_agent_run_script (E : Env) (fs : gmap string file) (uis : list ui_input) :
  launches_succeed (trace (run_script E fs uis)) -> has_agent (run_script E fs uis).
Proof.
  induction uis as [|ui uis IH] using rev_ind; [intros _; discriminate|].
  rewrite run_script_snoc, run_main_trace. intros Hno.
  apply launches_succeed_app in Hno as [Hbefore Hrun].
  apply has_agent_run_main; [apply IH, Hbefore|exact Hrun].
Qed.

Lemma recovery_follows_run_script (E : Env) (fs : gmap string file) (uis : list ui_input) :
  launches_succeed (trace (run_script E fs uis)) ->
  recovery_follows E (trace (run_script E fs uis)).
Proof.
  induction uis as [|ui uis IH] using rev_ind; [intros _; exact I|].
  rewrite run_script_snoc, run_main_trace. intros Hno.
  apply launches_succeed_app in Hno as [Hbefore Hrun].
  apply recovery_follows_app; [apply IH, Hbefore|].
  apply run_recovery, has_agent_run_script, Hbefore.
Qed.

(** Where the code does recover.  In a session in which every launch of
    the browser has returned, an execution that returned failure is
    followed at once by a fresh reading of the page and then by the
    planner's [handle_error], called with the description
    "Action failed" and a state holding that reading.  In any session,
    when a [handle_error] call decodes a decision, the decision is the
    pending action at the end of the run, and the state's URL is the one
    the agent has recorded. *)
Theorem launched_session_recovers (E : Env) (fs : gmap string file)
    (uis : list ui_input) :
  (launches_succeed (trace (run_script E fs uis)) ->
   forall pre d x post,
     trace (run_script E fs uis) = pre ++ Executed d false x :: post ->
     recovery_starts E post)
  /\ (forall ui e st h msgs resp res,
        In (Planner (HandleError e st h) msgs (Decoded resp res))
           (events_of_run E ui (run_script E fs uis)) ->
        current_action (run_main E ui (run_script E fs uis)) = Some res
        /\ exists a, agent (run_main E ui (run_script E fs uis)) = Some a
                     /\ state_url st = current_url a).
Proof.
  split.
  - intros Hno pre d x post Htrace.
    apply (recovery_follows_split E pre post d x). rewrite <- Htrace.
    apply recovery_follows_run_script, Hno.
  - intros ui e st h msgs resp res. apply recovery_result_is_pending.
Qed.

(** Scenario B: the click on "#login" fails and the planner is asked for
    another way. *)
Example click_failure_is_recovered :
  recovery_starts (proposing empty_page click_login)
    (drop 6 (trace (run_script (proposing empty_page click_login) ∅
                      [ui_goal "log in"; ui_idle])))
  /\ current_action (run_main (proposing empty_page click_login) ui_idle
                       (run_script (proposing empty_page click_login) ∅
                          [ui_goal "log in"]))
     = Some click_login.
Proof.
  split.
  - destruct (launched_session_recovers (proposing empty_page click_login) ∅
                [ui_goal "log in"; ui_idle]) as [Hfollows _].
    apply (Hfollows
             ltac:(vm_compute; intuition discriminate)
             (take 5 (trace (run_script (proposing empty_page click_login) ∅
                               [ui_goal "log in"; ui_idle])))
             click_login None).
    vm_compute. reflexivity.
  - destruct (launched_session_recovers (proposing empty_page click_login) ∅
                [ui_goal "log in"]) as [_ Hpending].
    eapply Hpending. vm_compute. do 6 right. left. reflexivity.
Qed.

(** C1. The code recovers only while the session has an agent.  On a
    machine where the browser cannot be started, the run that stores the
    goal "log in" ends with the error of the launch: the task is set and
    there is no agent.  The next run plans with the empty state; the
    planner answers the empty decision, whose execution returns failure;
    reading the URL for [handle_error] then raises AttributeError (line
    433 has no guard for a missing agent, lines 377-378 have one), so
    [handle_error] is not called, and the planner call that follows the
    failed execution is the [get_next_action] of the run after. *)
Lemma missing_agent_skips_recovery :
  agent (run_script lost_browser ∅ [ui_goal "log in"]) = None
  /\ user_task (run_script lost_browser ∅ [ui_goal "log in"]) = Some "log in"
  /\ events_of_run lost_browser ui_idle (run_script lost_browser ∅ [ui_goal "log in"])
     = [Planner
          (GetNextAction "log in"
             (Some {| state_url := JStr ""; state_page_content := "" |})
             [{| role := "user"; content := "log in" |}])
          (next_action_messages lost_browser "log in"
             (Some {| state_url := JStr ""; state_page_content := "" |})
             [{| role := "user"; content := "log in" |}])
          (Decoded "decision" []);
        Dispatch []; Executed [] false None]
  /\ fst (main lost_browser ui_idle (run_script lost_browser ∅ [ui_goal "log in"]))
     = Raise AttributeError
  /\ (exists st h msgs o rest,
        drop 4 (trace (run_script lost_browser ∅ [ui_goal "log in"; ui_idle; ui_idle]))
        = Planner (GetNextAction "log in" st h) msgs o :: rest)
  /\ ~ recovery_starts lost_browser
         (drop 4 (trace (run_script lost_browser ∅ [ui_goal "log in"; ui_idle; ui_idle]))).
Proof.
  split; [reflexivity|]. split; [reflexivity|]. split; [reflexivity|].
  split; [reflexivity|]. split.
  - do 5 eexists. vm_compute. reflexivity.
  - intros (r & st & h & msgs & o & post' & Heq & _).
    vm_compute in Heq. discriminate Heq.
Qed.

(** The same with a decision that only holds an explanation: it stays
    pending, and the run after dispatches it again and raises again
    without a call of the planner. *)
Example bare_decision_is_dispatched_again :
  events_of_run (proposing no_browser [("explanation", JStr "Let me think")]) ui_idle
    (run_script (proposing no_browser [("explanation", JStr "Let me think")]) ∅
       [ui_goal "log in"; ui_idle])
  = [Dispatch [("explanation", JStr "Let me think")];
     Executed [("explanation", JStr "Let me think")] false None]
  /\ fst (main (proposing no_browser [("explanation", JStr "Let me think")]) ui_idle
            (run_script (proposing no_browser [("explanation", JStr "Let me think")]) ∅
               [ui_goal "log in"; ui_idle]))
     = Raise AttributeError.
Proof. split; reflexivity. Qed.

(** ** Questions to the user *)

Lemma dict_get_set_ne (k k' : string) (v : json) (d : pydict) :
  k <> k' -> dict_get k' (dict_set k v d) = dict_get k' d.
Proof.
  intros Hne. induction d as [|[k0 v0] d IH]; cbn.
  - destruct (decide (k' = k)); [congruence|reflexivity].
  - destruct (decide (k = k0)) as [->|Hk]; cbn.
    + destruct (decide (k' = k0)); [congruence|reflexivity].
    + destruct (decide (k' = k0)); [reflexivity|exact IH].
Qed.

Lemma dict_get_set_eq (k : string) (v : json) (d : pydict) :
  dict_get k (dict_set k v d) = Some v.
Proof.
  induction d as [|[k0 v0] d IH]; cbn.
  - destruct (decide (k = k)); [reflexivity|congruence].
  - destruct (decide (k = k0)) as [->|Hk]; cbn.
    + destruct (decide (k0 = k0)); [reflexivity|congruence].
    + destruct (decide (k = k0)); [congruence|exact IH].
Qed.

Lemma dict_set_pending (k : string) (v : json) (d : pydict) :
  action_pending (Some (dict_set k v d)) = true.
Proof. destruct d as [|[k0 v0] d]; cbn; [reflexivity|]. destruct (decide (k = k0)); reflexivity. Qed.

Lemma requires_input_pending (d : pydict) :
  truthy (requires_input_of d) = true -> action_pending (Some d) = true.
Proof. destruct d; [discriminate|reflexivity]. Qed.

Lemma dispatch_needs_answer (E : Env) (ui : ui_input) (w : world) (d : pydict) :
  In (Dispatch d) (events_of_run E ui w) ->
  truthy (requires_input_of d) = true ->
  exists k answer,
    key_of (user_prompt_of d) = Return k /\ user_inputs w !! k = Some answer.
Proof.
  unfold events_of_run. analyse_run E ui w p w1.
  all: norm_events; intros Hin Hreq; event_cases Hin.
  all: match goal with
       | H : needs_answer _ _ _ = Return None |- _ =>
           unfold needs_answer in H; rewrite Hreq in H; cbn in H;
           rewrite ?Hinputs1 in H;
           destruct (key_of (user_prompt_of d)) as [k|]; [|discriminate H];
           destruct (user_inputs w !! k) as [answer|] eqn:Hk; [|discriminate H];
           exists k, answer; split; [reflexivity|exact Hk]
       end.
Qed.

Ltac back_to_start :=
  repeat match goal with
         | H : ?f ?w1 = ?f ?w |- _ => rewrite H in *
         end.

Lemma pending_question (E : Env) (ui : ui_input) (w : world) (task : string)
    (d : pydict) (k : pykey) :
  user_task w = Some task -> str_truthy task = true -> finished w = false ->
  current_action w = Some d ->
  truthy (requires_input_of d) = true ->
  key_of (user_prompt_of d) = Return k ->
  user_inputs w !! k = None ->
  events_of_run E ui w = []
  /\ (user_task (run_main E ui w) = Some task /\ finished (run_main E ui w) = false)
  /\ (submit ui = false ->
      current_action (run_main E ui w) = Some d
      /\ user_inputs (run_main E ui w) = user_inputs w)
  /\ (submit ui = true ->
      user_inputs (run_main E ui w) = <[k := user_response ui]> (user_inputs w)
      /\ current_action (run_main E ui w)
         = Some (dict_set "input_value" (JStr (user_response ui)) d)
      /\ conversation_history (run_main E ui w)
         = conversation_history w
           ++ [{| role := "user";
                  content := "User provided input: " +:+ user_response ui |}]).
Proof.
  intros Htask Htruthy Hfin Haction Hreq Hkey Hunanswered.
  pose proof (requires_input_pending d Hreq) as Hpend.
  unfold events_of_run. analyse_run E ui w p w1.
  all: norm_events; back_to_start; simplify_eq.
  all: try (rewrite Htask in Hguard; cbn in Hguard; rewrite Htruthy in Hguard;
            discriminate Hguard).
  all: try match goal with
           | H : opt_str_truthy _ && negb _ = false |- _ =>
               rewrite Htask, Hfin in H; cbn in H; rewrite Htruthy in H; discriminate H
           | H : action_pending _ = false |- _ =>
               rewrite Haction, Hpend in H; discriminate H
           end.
  all: match goal with
       | H : needs_answer _ _ _ = _ |- _ =>
           unfold needs_answer in H; rewrite Hreq, Hkey in H;
           cbn [user_inputs note_progress set_task_progress] in H;
           rewrite ?Hinputs1 in H; rewrite Hunanswered in H; simplify_eq
       end.
  all: cbn; rewrite ?Hinputs1, ?Hhist1, ?Haction1, ?Haction, ?Htask1, ?Hfinished1,
         ?Htask, ?Hfin.
  all: repeat split; intros; try discriminate; reflexivity.
Qed.

Lemma answered_action_is_dispatched (E : Env) (ui : ui_input) (w : world)
    (task : string) (d : pydict) (k : pykey) (answer : string) :
  user_task w = Some task -> str_truthy task = true -> finished w = false ->
  current_action w = Some d ->
  truthy (requires_input_of d) = true ->
  key_of (user_prompt_of d) = Return k ->
  user_inputs w !! k = Some answer ->
  exists rest, events_of_run E ui w = Dispatch d :: rest.
Proof.
  intros Htask Htruthy Hfin Haction Hreq Hkey Hanswered.
  pose proof (requires_input_pending d Hreq) as Hpend.
  unfold events_of_run. analyse_run E ui w p w1.
  all: norm_events; back_to_start; simplify_eq.
  all: try (rewrite Htask in Hguard; cbn in Hguard; rewrite Htruthy in Hguard;
            discriminate Hguard).
  all: try match goal with
           | H : opt_str_truthy _ && negb _ = false |- _ =>
               rewrite Htask, Hfin in H; cbn in H; rewrite Htruthy in H; discriminate H
           | H : action_pending _ = false |- _ =>
               rewrite Haction, Hpend in H; discriminate H
           end.
  all: match goal with
       | H : needs_answer _ _ _ = _ |- _ =>
           unfold needs_answer in H; rewrite Hreq, Hkey in H;
           cbn [user_inputs note_progress set_task_progress] in H;
           rewrite ?Hinputs1 in H; rewrite Hanswered in H; simplify_eq
       end.
  all: eexists; reflexivity.
Qed.


Lemma requires_input_after_answer (v : json) (d : pydict) :
  requires_input_of (dict_set "input_value" v d) = requires_input_of d
  /\ user_prompt_of (dict_set "input_value" v d) = user_prompt_of d.
Proof.
  unfold requires_input_of, user_prompt_of, dict_get_default.
  rewrite !dict_get_set_ne by discriminate. split; reflexivity.
Qed.

(** C5. No script run dispatches an action that requires user input
    unless the session's answered prompts hold an answer for its prompt.
    A run that finds a pending action with a truthy requires_user_input
    and an unanswered prompt adds nothing to the trace: without Submit the
    action stays pending; with Submit the answer is recorded under the
    prompt, written into the action's "input_value", and a user message
    is appended to the conversation history, and it is that updated action
    the next run dispatches. *)
Theorem user_input_precedes_dispatch (E : Env) (ui : ui_input) (w : world) :
  (forall d,
     In (Dispatch d) (events_of_run E ui w) ->
     truthy (requires_input_of d) = true ->
     exists k answer,
       key_of (user_prompt_of d) = Return k /\ user_inputs w !! k = Some answer)
  /\ (forall task d k,
        user_task w = Some task -> str_truthy task = true -> finished w = false ->
        current_action w = Some d ->
        truthy (requires_input_of d) = true ->
        key_of (user_prompt_of d) = Return k ->
        user_inputs w !! k = None ->
        events_of_run E ui w = []
        /\ (submit ui = false ->
            current_action (run_main E ui w) = Some d
            /\ user_inputs (run_main E ui w) = user_inputs w)
        /\ (submit ui = true ->
            user_inputs (run_main E ui w) = <[k := user_response ui]> (user_inputs w)
            /\ current_action (run_main E ui w)
               = Some (dict_set "input_value" (JStr (user_response ui)) d)
            /\ dict_get "input_value" (dict_set "input_value" (JStr (user_response ui)) d)
               = Some (JStr (user_response ui))
            /\ conversation_history (run_main E ui w)
               = conversation_history w
                 ++ [{| role := "user";
                        content := "User provided input: " +:+ user_response ui |}]
            /\ forall ui', exists rest,
                 events_of_run E ui' (run_main E ui w)
                 = Dispatch (dict_set "input_value" (JStr (user_response ui)) d) :: rest)).
Proof.
  split; [intros d; apply dispatch_needs_answer|].
  intros task d k Htask Htruthy Hfin Haction Hreq Hkey Hunanswered.
  destruct (pending_question E ui w task d k Htask Htruthy Hfin Haction Hreq Hkey
              Hunanswered) as (Hquiet & [Htask' Hfin'] & Hwait & Hsubmit).
  split; [exact Hquiet|]. split; [exact Hwait|].
  intros Hpressed. destruct (Hsubmit Hpressed) as (Hinputs & Haction' & Hhistory).
  split; [exact Hinputs|]. split; [exact Haction'|].
  split; [apply dict_get_set_eq|]. split; [exact Hhistory|].
  intros ui'.
  destruct (requires_input_after_answer (JStr (user_response ui)) d) as [Hreq' Hprompt'].
  apply (answered_action_is_dispatched E ui' (run_main E ui w) task _ k (user_response ui));
    try assumption.
  - rewrite Hreq'. exact Hreq.
  - rewrite Hprompt'. exact Hkey.
  - rewrite Hinputs. apply lookup_insert_eq.
Qed.

(** Scenario D: the planner asks for the e-mail address and the user
    answers "a@b.com". *)
Lemma user_input_precedes_dispatch_witness :
  (exists k answer,
     key_of (user_prompt_of (dict_set "input_value" (JStr "a@b.com") type_email))
     = Return k
     /\ user_inputs (run_script (proposing (obliging_page "") type_email) ∅
                       [ui_goal "sign up"; ui_idle; ui_answer "a@b.com"]) !! k
        = Some answer)
  /\ events_of_run (proposing (obliging_page "") type_email) (ui_answer "a@b.com")
       (run_script (proposing (obliging_page "") type_email) ∅
          [ui_goal "sign up"; ui_idle]) = []
  /\ current_action
       (run_main (proposing (obliging_page "") type_email) (ui_answer "a@b.com")
          (run_script (proposing (obliging_page "") type_email) ∅
             [ui_goal "sign up"; ui_idle]))
     = Some (dict_set "input_value" (JStr "a@b.com") type_email).
Proof.
  split; [|split].
  - destruct (user_input_precedes_dispatch (proposing (obliging_page "") type_email)
                ui_idle
                (run_script (proposing (obliging_page "") type_email) ∅
                   [ui_goal "sign up"; ui_idle; ui_answer "a@b.com"])) as [Hsafe _].
    apply Hsafe; [vm_compute; tauto|reflexivity].
  - destruct (user_input_precedes_dispatch (proposing (obliging_page "") type_email)
                (ui_answer "a@b.com")
                (run_script (proposing (obliging_page "") type_email) ∅
                   [ui_goal "sign up"; ui_idle])) as [_ Hask].
    apply (Hask "sign up" type_email (KStr "What is your email?"));
      vm_compute; reflexivity.
  - destruct (user_input_precedes_dispatch (proposing (obliging_page "") type_email)
                (ui_answer "a@b.com")
                (run_script (proposing (obliging_page "") type_email) ∅
                   [ui_goal "sign up"; ui_idle])) as [_ Hask].
    destruct (Hask "sign up" type_email (KStr "What is your email?"))
      as (_ & _ & Hsubmit); [vm_compute; reflexivity ..|].
    apply Hsubmit. reflexivity.
Defined.

(** ** Extracted text *)

(** What the success branch does with text that is not empty. *)
Lemma nonempty_extraction_is_stored (E : Env) (ui : ui_input) (w : world) (d : pydict)
    (text : string) :
  In (Executed d true (Some text)) (events_of_run E ui w) ->
  json_eq_str (dict_get_none "action_type" d) "finished" = false ->
  str_truthy text = true ->
  extracted_content (run_main E ui w) = Some text
  /\ exists h,
       conversation_history (run_main E ui w)
       = h ++ [{| role := "user"; content := "Extracted content: " +:+ text |}].
Proof.
  unfold events_of_run. analyse_run E ui w p w1.
  all: norm_events; intros Hin Hkind Htext; event_cases Hin.
  all: try congruence.
  all: cbn; split; [reflexivity|eexists; reflexivity].
Qed.

(** ... and with the empty text: the run changes neither the stored text
    nor, after the planner's own entry, the history. *)
Lemma empty_extraction_is_not_stored (E : Env) (ui : ui_input) (w : world) (d : pydict) :
  In (Executed d true (Some "")) (events_of_run E ui w) ->
  json_eq_str (dict_get_none "action_type" d) "finished" = false ->
  extracted_content (run_main E ui w) = extracted_content w
  /\ ~ In {| role := "user"; content := "Extracted content: " |}
         (drop (length (conversation_history w))
            (conversation_history (run_main E ui w))).
Proof.
  unfold events_of_run. analyse_run E ui w p w1.
  all: norm_events; intros Hin Hkind; event_cases Hin.
  all: try congruence.
  all: cbn; rewrite ?Hextracted1, ?Hhist1, ?drop_app_length, ?drop_all;
    (split; [reflexivity|]); cbn; intuition discriminate.
Qed.

(** C7 at the empty text. The page's ".price" element has the text "":
    the execution counts as a success with extracted text "", yet the
    session stores no extracted content and the history gets no
    "Extracted content: " entry; it holds the goal and the planner's
    decision only. *)
Lemma empty_extraction_is_dropped :
  In (Executed extract_price true (Some ""))
     (trace (run_script (proposing (obliging_page "") extract_price) ∅
               [ui_goal "read the price"; ui_idle]))
  /\ extracted_content
       (run_script (proposing (obliging_page "") extract_price) ∅
          [ui_goal "read the price"; ui_idle]) = None
  /\ conversation_history
       (run_script (proposing (obliging_page "") extract_price) ∅
          [ui_goal "read the price"; ui_idle])
     = [{| role := "user"; content := "read the price" |};
        {| role := "assistant"; content := render_json (JObj extract_price) |}].
Proof. vm_compute. split; [tauto|split; reflexivity]. Qed.

(** Scenario C: the text "$19.99" is stored and reported. *)
Example price_extraction_is_stored :
  extracted_content
    (run_script (proposing (obliging_page "$19.99") extract_price) ∅
       [ui_goal "read the price"; ui_idle]) = Some "$19.99"
  /\ last (conversation_history
             (run_script (proposing (obliging_page "$19.99") extract_price) ∅
                [ui_goal "read the price"; ui_idle]))
     = Some {| role := "user"; content := "Extracted content: $19.99" |}.
Proof. vm_compute. split; reflexivity. Qed.

(** ** The interaction log *)

Lemma logged_calls_app (E : Env) (p : TaskPlanner) (before evs more : list event) :
  logged_calls E p before (evs ++ more)
  = logged_calls E p before evs ++ logged_calls E p (before ++ evs) more.
Proof.
  revert before. induction evs as [|ev evs IH]; intros before; cbn.
  - rewrite app_nil_r. reflexivity.
  - rewrite IH. rewrite <- !app_assoc. reflexivity.
Qed.

Lemma logged_calls_drivers (E : Env) (p : TaskPlanner) (before drv : list event) :
  Forall is_driver drv -> logged_calls E p before drv = [].
Proof.
  intros Hdrv. revert before. induction Hdrv as [|ev drv Hev _ IH]; intros before;
    [reflexivity|].
  destruct ev; cbn in *; try contradiction. apply IH.
Qed.

Lemma log_ok_started (E : Env) (w : world) :
  log_ok E w ->
  log_file (fst (started E w)) = "llm_interactions.json"
  /\ read_logs (fst (started E w)) (snd (started E w))
     = logged_calls E (fst (started E w)) [] (trace w).
Proof.
  unfold log_ok, started. destruct (task_planner w) as [p|]; [tauto|].
  intros ->. cbn. split; [reflexivity|].
  unfold read_logs. cbn. rewrite lookup_insert_eq. reflexivity.
Qed.

Lemma log_ok_run_main (E : Env) (ui : ui_input) (w : world) :
  log_ok E w -> log_ok E (run_main E ui w).
Proof.
  intros Hok. destruct (log_ok_started E w Hok) as [Hfile Hlogs].
  assert (Hne : log_file (fst (started E w)) <> "dump.json")
    by (rewrite Hfile; discriminate).
  analyse_run E ui w p w1.
  all: unfold log_ok.
  all: cbn [task_planner goal_world set_agent set_trace set_files
            set_conversation_history set_user_task set_current_action set_user_inputs
            set_finished set_task_progress set_extracted_content note_progress
            reset_session].
  all: rewrite Hplanner1; split; [exact Hfile|].
  all: norm_events.
  all: rewrite ?logged_calls_app; cbn [app]; rewrite <- Hlogs.
  all: repeat first
         [ erewrite Hrecoverlog by reflexivity
         | erewrite Hplanlog by (try exact Hne; reflexivity) ].
  all: repeat match goal with
              | |- context [logged_calls ?E' ?p' ?b ?l] =>
                  rewrite (logged_calls_drivers E' p' b l)
                    by (assumption || apply planning_events_driver)
              end.
  all: cbn [logged_calls log_record interaction_name app]; rewrite ?app_nil_r.
  all: rewrite ?Htrace1; rewrite <- ?app_assoc; cbn [app].
  all: unfold read_logs;
    cbn [files reset_session set_agent set_trace set_files set_conversation_history
         set_user_task set_current_action set_user_inputs set_finished
         set_task_progress set_extracted_content note_progress].
  all: reflexivity.
Qed.

Lemma log_ok_run_script (E : Env) (fs : gmap string file) (uis : list ui_input) :
  log_ok E (run_script E fs uis).
Proof.
  induction uis as [|ui uis IH] using rev_ind; [reflexivity|].
  rewrite run_script_snoc. apply log_ok_run_main, IH.
Qed.

(** Every logged record comes from a planner call of the trace that
    decoded a decision, and holds that call's request, answer and
    decision under the name of the method. *)
Lemma logged_calls_in (E : Env) (p : TaskPlanner) (before evs : list event)
    (entry : log_entry) :
  In entry (logged_calls E p before evs) ->
  exists c msgs response res,
    In (Planner c msgs (Decoded response res)) evs
    /\ log_session_id entry = session_id p
    /\ log_interaction_type entry = interaction_name c
    /\ log_messages entry = msgs
    /\ log_response entry = response
    /\ log_parsed_result entry = res.
Proof.
  revert before. induction evs as [|ev evs IH]; intros before; [intros []|].
  cbn [logged_calls]. intros Hin. apply in_app_or in Hin as [Hin|Hin].
  - destruct ev as [c0 r|c msgs o|d|d b x]; cbn in Hin; try contradiction.
    destruct o as [| |response res]; cbn in Hin; try contradiction.
    destruct Hin as [<-|[]].
    exists c, msgs, response, res. cbn. auto 10.
  - destruct (IH _ Hin) as (c & msgs & response & res & Hev & Hrest).
    exists c, msgs, response, res. split; [right; exact Hev|exact Hrest].
Qed.

Lemma interaction_name_cases (c : planner_call) :
  interaction_name c = "get_next_action" \/ interaction_name c = "handle_error".
Proof. destruct c; [left|right]; reflexivity. Qed.

Lemma TaskPlanner_init_truncates (E : Env) (w : world) :
  exists p w', TaskPlanner_init E w = (Return p, w') /\ read_logs p w' = [].
Proof.
  unfold TaskPlanner_init. run_monad. eexists _, _. split; [reflexivity|].
  unfold read_logs. cbn. rewrite lookup_insert_eq. reflexivity.
Qed.

(** C9, as the code has it. Creating a planner leaves the log file
    empty. In every session the log file holds exactly the records of the
    planner calls that decoded a decision, in the order of the calls in
    the trace; every record carries a timestamp, the planner's session
    id, the request messages, the raw response and the decoded result of
    its call, and an interaction_type that is "get_next_action" or
    "handle_error", the name of the planner method that was called. *)
Theorem interaction_log_follows_calls (E : Env) (fs : gmap string file)
    (uis : list ui_input) (p : TaskPlanner) :
  task_planner (run_script E fs uis) = Some p ->
  read_logs p (run_script E fs uis) = logged_calls E p [] (trace (run_script E fs uis))
  /\ (forall entry,
        In entry (read_logs p (run_script E fs uis)) ->
        (log_interaction_type entry = "get_next_action"
         \/ log_interaction_type entry = "handle_error")
        /\ log_session_id entry = session_id p
        /\ exists c msgs response res,
             In (Planner c msgs (Decoded response res)) (trace (run_script E fs uis))
             /\ log_interaction_type entry = interaction_name c
             /\ log_messages entry = msgs
             /\ log_response entry = response
             /\ log_parsed_result entry = res)
  /\ (forall w, exists p' w',
        TaskPlanner_init E w = (Return p', w') /\ read_logs p' w' = []).
Proof.
  intros Hp. pose proof (log_ok_run_script E fs uis) as Hok.
  unfold log_ok in Hok. rewrite Hp in Hok. destruct Hok as [_ Hlogs].
  split; [exact Hlogs|]. split; [|apply TaskPlanner_init_truncates].
  intros entry Hin. rewrite Hlogs in Hin.
  destruct (logged_calls_in E p [] _ entry Hin)
    as (c & msgs & response & res & Hev & Hsid & Hname & Hmsgs & Hresp & Hres).
  split; [rewrite Hname; apply interaction_name_cases|]. split; [exact Hsid|].
  exists c, msgs, response, res. auto.
Qed.

(** Scenario B: the log after a plan and a recovery. *)
Lemma interaction_log_follows_calls_witness :
  read_logs {| session_id := "123e4567"; log_file := "llm_interactions.json" |}
    (run_script (proposing empty_page click_login) ∅ [ui_goal "log in"; ui_idle])
  = logged_calls (proposing empty_page click_login)
      {| session_id := "123e4567"; log_file := "llm_interactions.json" |} []
      (trace (run_script (proposing empty_page click_login) ∅
                [ui_goal "log in"; ui_idle])).
Proof.
  apply (interaction_log_follows_calls (proposing empty_page click_login) ∅
           [ui_goal "log in"; ui_idle]).
  vm_compute. reflexivity.
Defined.

(** C9, as the claim has it, fails on the values of interaction_type: the
    two records of scenario B are tagged "get_next_action" and
    "handle_error", and neither tag is "plan_next" or "plan_recovery". *)
Lemma interaction_type_is_method_name :
  map log_interaction_type
    (read_logs {| session_id := "123e4567"; log_file := "llm_interactions.json" |}
       (run_script (proposing empty_page click_login) ∅ [ui_goal "log in"; ui_idle]))
  = ["get_next_action"; "handle_error"]
  /\ ~ (forall entry,
          In entry
            (read_logs {| session_id := "123e4567"; log_file := "llm_interactions.json" |}
               (run_script (proposing empty_page click_login) ∅
                  [ui_goal "log in"; ui_idle])) ->
          log_interaction_type entry = "plan_next"
          \/ log_interaction_type entry = "plan_recovery").
Proof.
  split; [vm_compute; reflexivity|].
  intros Hall.
  destruct (Hall {| log_timestamp := "T3";
                    log_session_id := "123e4567";
                    log_interaction_type := "get_next_action";
                    log_messages :=
                      next_action_messages (proposing empty_page click_login) "log in"
                        (Some {| state_url := JStr "";
                                 state_page_content := "<html></html>" |})
                        [{| role := "user"; content := "log in" |}];
                    log_response := "decision";
                    log_parsed_result := click_login |}) as [H|H];
    [vm_compute; left; reflexivity|discriminate H|discriminate H].
Qed.

(** ** The driver's methods *)

(** The driver's methods, each as one Playwright call. *)
Lemma find_and_click_eq (E : Env) (w : world) (a : BrowserAgent)
    (k : option SelectorType) (s t : json) :
  agent w = Some a ->
  find_and_click E k s t w
  = (Return (came_back (playwright E (trace w) (click (_get_selector E k s) t))),
     after_call E (click (_get_selector E k s) t) w).
Proof.
  intros Ha. unfold find_and_click, self, page_do, after_call. run_monad. rewrite Ha.
  case_playwright; reflexivity.
Qed.

Lemma find_and_type_eq (E : Env) (w : world) (a : BrowserAgent)
    (k : option SelectorType) (s text t : json) :
  agent w = Some a ->
  find_and_type E k s text t w
  = (Return (came_back (playwright E (trace w) (fill (_get_selector E k s) text t))),
     after_call E (fill (_get_selector E k s) text t) w).
Proof.
  intros Ha. unfold find_and_type, self, page_do, after_call. run_monad. rewrite Ha.
  case_playwright; reflexivity.
Qed.

Lemma wait_for_element_eq (E : Env) (w : world) (a : BrowserAgent)
    (k : option SelectorType) (s t : json) :
  agent w = Some a ->
  wait_for_element E k s t w
  = (Return (came_back (playwright E (trace w)
                          (wait_for_selector (_get_selector E k s) t))),
     after_call E (wait_for_selector (_get_selector E k s) t) w).
Proof.
  intros Ha. unfold wait_for_element, self, page_do, after_call. run_monad. rewrite Ha.
  case_playwright; reflexivity.
Qed.

Lemma navigate_to_url_eq (E : Env) (w : world) (a : BrowserAgent) (url : json) :
  agent w = Some a ->
  navigate_to_url E url w
  = (Return (came_back (playwright E (trace w) (goto url))),
     if came_back (playwright E (trace w) (goto url))
     then set_agent (Some {| current_url := url |}) (after_call E (goto url) w)
     else after_call E (goto url) w).
Proof.
  intros Ha. unfold navigate_to_url, self, page_do, after_call. run_monad. rewrite Ha.
  case_playwright; reflexivity.
Qed.

Lemma extract_content_eq (E : Env) (w : world) (a : BrowserAgent)
    (k : option SelectorType) (s t : json) :
  agent w = Some a ->
  extract_content E k s t w
  = match playwright E (trace w) (wait_for_selector (_get_selector E k s) t) with
    | Succeeds (Some _) =>
        let w1 := after_call E (wait_for_selector (_get_selector E k s) t) w in
        (Return (match playwright E (trace w1) inner_text with
                 | Succeeds v => v
                 | Fails => None
                 end),
         after_call E inner_text w1)
    | _ => (Return None, after_call E (wait_for_selector (_get_selector E k s) t) w)
    end.
Proof.
  intros Ha. unfold extract_content, self, page_do, after_call. run_monad. rewrite Ha.
  destruct (playwright E (trace w) _) as [|[el|]]; cbn; try reflexivity.
  case_playwright; reflexivity.
Qed.

(** X1. With an agent in the session, [find_and_click], [find_and_type],
    [wait_for_element] and [get_page_content] never raise. Each makes
    exactly one Playwright call, on the locator [_get_selector] gives and
    with the text and timeout it was passed, and returns whether that
    call came back: an exception of the call becomes the value False
    (for [get_page_content]: the empty string, and otherwise the markup
    with scripts and styles taken out). *)
Theorem driver_errors_become_false (E : Env) (w : world) (a : BrowserAgent)
    (k : option SelectorType) (s text t : json) :
  agent w = Some a ->
  find_and_click E k s t w
  = (Return (came_back (playwright E (trace w) (click (_get_selector E k s) t))),
     after_call E (click (_get_selector E k s) t) w)
  /\ find_and_type E k s text t w
     = (Return (came_back (playwright E (trace w) (fill (_get_selector E k s) text t))),
        after_call E (fill (_get_selector E k s) text t) w)
  /\ wait_for_element E k s t w
     = (Return (came_back (playwright E (trace w)
                             (wait_for_selector (_get_selector E k s) t))),
        after_call E (wait_for_selector (_get_selector E k s) t) w)
  /\ get_page_content E w
     = (Return (page_snapshot E (playwright E (trace w) page_content)),
        after_call E page_content w).
Proof.
  intros Ha. split; [|split; [|split]].
  - apply (find_and_click_eq E w a), Ha.
  - apply (find_and_type_eq E w a), Ha.
  - apply (wait_for_element_eq E w a), Ha.
  - apply (get_page_content_eq E w a), Ha.
Qed.

Lemma driver_errors_become_false_witness :
  fst (find_and_click (scripted_env empty_page None (fun _ => None)) (Some ID)
         (JStr "login") (JNum 5000) (with_new_agent (new_session ∅)))
  = Return false
  /\ fst (wait_for_element (scripted_env (obliging_page "") None (fun _ => None))
            (Some CSS) (JStr ".price") (JNum 10000) (with_new_agent (new_session ∅)))
     = Return true.
Proof.
  split.
  - destruct (driver_errors_become_false (scripted_env empty_page None (fun _ => None))
                (with_new_agent (new_session ∅)) {| current_url := JStr "" |}
                (Some ID) (JStr "login") JNull (JNum 5000) eq_refl) as (Hclick & _).
    rewrite Hclick. reflexivity.
  - destruct (driver_errors_become_false
                (scripted_env (obliging_page "") None (fun _ => None))
                (with_new_agent (new_session ∅)) {| current_url := JStr "" |}
                (Some CSS) (JStr ".price") JNull (JNum 10000) eq_refl)
      as (_ & _ & Hwait & _).
    rewrite Hwait. reflexivity.
Defined.

(** X2. With an agent in the session, [extract_content] never raises. It
    waits for the element and reads the inner text only if the wait
    returned one; it returns None when the wait raises, when the wait
    returns no element and when reading the text raises, and the text
    otherwise. *)
Theorem extract_content_result (E : Env) (w : world) (a : BrowserAgent)
    (k : option SelectorType) (s t : json) :
  agent w = Some a ->
  extract_content E k s t w
  = match playwright E (trace w) (wait_for_selector (_get_selector E k s) t) with
    | Succeeds (Some _) =>
        let w1 := after_call E (wait_for_selector (_get_selector E k s) t) w in
        (Return (match playwright E (trace w1) inner_text with
                 | Succeeds v => v
                 | Fails => None
                 end),
         after_call E inner_text w1)
    | _ => (Return None, after_call E (wait_for_selector (_get_selector E k s) t) w)
    end.
Proof. apply extract_content_eq. Qed.

Lemma extract_content_result_witness :
  fst (extract_content (scripted_env unreadable_page None (fun _ => None)) (Some CSS)
         (JStr ".price") (JNum 10000) (with_new_agent (new_session ∅)))
  = Return None
  /\ fst (extract_content (scripted_env (obliging_page "9.99") None (fun _ => None))
            (Some CSS) (JStr ".price") (JNum 10000) (with_new_agent (new_session ∅)))
     = Return (Some "9.99").
Proof.
  split.
  - rewrite (extract_content_result (scripted_env unreadable_page None (fun _ => None))
               (with_new_agent (new_session ∅)) {| current_url := JStr "" |}
               (Some CSS) (JStr ".price") (JNum 10000) eq_refl).
    reflexivity.
  - rewrite (extract_content_result
               (scripted_env (obliging_page "9.99") None (fun _ => None))
               (with_new_agent (new_session ∅)) {| current_url := JStr "" |}
               (Some CSS) (JStr ".price") (JNum 10000) eq_refl).
    reflexivity.
Defined.

(** X3. [close] calls context.close(), browser.close() and
    playwright.stop() in this order and catches nothing: the first of
    them that raises ends [close] with that error and the calls after it
    are not made; if all three come back, [close] returns. *)
Theorem close_stops_at_first_failure (E : Env) (w : world) (a : BrowserAgent) :
  agent w = Some a ->
  let w1 := after_call E context_close w in
  let w2 := after_call E browser_close w1 in
  let w3 := after_call E playwright_stop w2 in
  close E w
  = if negb (came_back (playwright E (trace w) context_close))
    then (Raise PlaywrightError, w1)
    else if negb (came_back (playwright E (trace w1) browser_close))
    then (Raise PlaywrightError, w2)
    else if negb (came_back (playwright E (trace w2) playwright_stop))
    then (Raise PlaywrightError, w3)
    else (Return tt, w3).
Proof.
  intros Ha. cbn zeta. unfold close, self, page_do, after_call. run_monad. rewrite Ha.
  destruct (playwright E (trace w) context_close); cbn; [reflexivity|].
  case_playwright; cbn; try reflexivity; case_playwright; reflexivity.
Qed.

Lemma close_stops_at_first_failure_witness :
  close (scripted_env stuck_browser None (fun _ => None)) (with_new_agent (new_session ∅))
  = (Raise PlaywrightError,
     set_trace [Driver launch (Succeeds None); Driver context_close (Succeeds None);
                Driver browser_close Fails]
       (with_new_agent (new_session ∅))).
Proof.
  rewrite (close_stops_at_first_failure (scripted_env stuck_browser None (fun _ => None))
             (with_new_agent (new_session ∅)) {| current_url := JStr "" |} eq_refl).
  reflexivity.
Defined.

(** ** Decisions and the calls they lead to *)

(** X4. Looking a member up by value inverts taking the value of a
    member: [ActionType(v)] returns the member t exactly when v is the
    string t.value, and so for [SelectorType]. No other value, and no
    other spelling, is accepted. *)
Theorem enum_value_round_trip :
  (forall v t, ActionType_of_value v = Return t <-> v = JStr (ActionType_value t))
  /\ (forall v t, SelectorType_of_value v = Return t <-> v = JStr (SelectorType_value t)).
Proof.
  split; intros v t; split.
  - destruct v as [| | |s| |]; cbn; try discriminate.
    intros Hv; repeat case_decide; simplify_eq; reflexivity.
  - intros ->. destruct t; reflexivity.
  - destruct v as [| | |s| |]; cbn; try discriminate.
    intros Hv; repeat case_decide; simplify_eq; reflexivity.
  - intros ->. destruct t; reflexivity.
Qed.

(** What executing a decision asks of the browser first. *)
Lemma execute_first_call (E : Env) (d : pydict) (w : world) (a : BrowserAgent)
    (t : ActionType) (act : BrowserAction) :
  agent w = Some a ->
  decode_action_type d = Return (Some t) ->
  t <> FINISHED ->
  build_action (Some t) d = Return act ->
  exists c rest,
    first_call E t (selector_type act) d = Some c
    /\ trace (snd (execute_browser_action E d w))
       = trace w ++ Driver c (playwright E (trace w) c) :: rest
    /\ (t <> EXTRACT ->
        rest = []
        /\ fst (execute_browser_action E d w)
           = Return (came_back (playwright E (trace w) c), None))
    /\ (playwright E (trace w) c = Fails ->
        rest = [] /\ fst (execute_browser_action E d w) = Return (false, None)).
Proof.
  intros Ha Ht Hfin Hb.
  assert (Hfields : action_type act = Some t
                    /\ selector act = dict_get_none "selector" d
                    /\ input_value act = dict_get_none "input_value" d
                    /\ timeout act = dict_get_default "timeout" (JNum 10000) d).
  { unfold build_action in Hb.
    destruct (if truthy _ then _ else _); simplify_eq. cbn. auto. }
  destruct Hfields as (Hty & Hsel & Hin & Hto).
  remember (execute_browser_action E d w) as X eqn:HX.
  unfold execute_browser_action in HX. run_monad. rewrite Ht, Hb in HX.
  unfold first_call.
  destruct t; try congruence; rewrite Hty, ?Hsel, ?Hin, ?Hto in HX.
  - rewrite (find_and_click_eq E w a _ _ _ Ha) in HX. subst X.
    eexists _, []. unfold after_call. cbn.
    split; [reflexivity|]. split; [reflexivity|].
    split; [intros _; split; reflexivity|intros Hr; rewrite Hr; split; reflexivity].
  - rewrite (find_and_type_eq E w a _ _ _ _ Ha) in HX. subst X.
    eexists _, []. unfold after_call. cbn.
    split; [reflexivity|]. split; [reflexivity|].
    split; [intros _; split; reflexivity|intros Hr; rewrite Hr; split; reflexivity].
  - rewrite (extract_content_eq E w a _ _ _ Ha) in HX.
    destruct (playwright E (trace w) _) as [|[el|]] eqn:Hr; subst X.
    + eexists _, []. unfold after_call. cbn. split; [reflexivity|].
      rewrite Hr. repeat split; congruence.
    + eexists _, [_]. unfold after_call. cbn. split; [reflexivity|]. rewrite Hr.
      split; [rewrite <- app_assoc; reflexivity|]. split; congruence.
    + eexists _, []. unfold after_call. cbn. split; [reflexivity|].
      rewrite Hr. repeat split; congruence.
  - rewrite (wait_for_element_eq E w a _ _ _ Ha) in HX. subst X.
    eexists _, []. unfold after_call. cbn.
    split; [reflexivity|]. split; [reflexivity|].
    split; [intros _; split; reflexivity|intros Hr; rewrite Hr; split; reflexivity].
  - rewrite (navigate_to_url_eq E w a _ Ha) in HX. subst X.
    eexists _, []. unfold after_call. split; [reflexivity|].
    destruct (playwright E (trace w) _) eqn:Hr; cbn; repeat split; congruence.
Qed.

(** X5. For a decision of any kind but "finished" whose fields build an
    action, executed with an agent in the session, the first thing
    [execute_browser_action] does is one Playwright call read off the
    decision: goto of "input_value" for navigate, click of the locator
    for click, fill of the locator with "input_value" for type, a wait
    for the locator for extract and wait; the locator is [_get_selector]
    of the decoded selector kind and "selector", the timeout is
    "timeout" or 10000 if the key is absent. For every kind but extract
    this is the only call and the result is (whether the call came back,
    None); if the call raises, the result is (False, None) for every
    kind. *)
Theorem dispatch_reaches_the_driver (E : Env) (d : pydict) (w : world) (a : BrowserAgent)
    (t : ActionType) (act : BrowserAction) :
  agent w = Some a ->
  decode_action_type d = Return (Some t) ->
  t <> FINISHED ->
  build_action (Some t) d = Return act ->
  exists c rest,
    first_call E t (selector_type act) d = Some c
    /\ trace (snd (execute_browser_action E d w))
       = trace w ++ Driver c (playwright E (trace w) c) :: rest
    /\ (t <> EXTRACT ->
        rest = []
        /\ fst (execute_browser_action E d w)
           = Return (came_back (playwright E (trace w) c), None))
    /\ (playwright E (trace w) c = Fails ->
        rest = [] /\ fst (execute_browser_action E d w) = Return (false, None)).
Proof. apply execute_first_call. Qed.

Lemma dispatch_reaches_the_driver_witness :
  exists rest,
    trace (snd (execute_browser_action (proposing empty_page click_login) click_login
                  (with_new_agent (new_session ∅))))
    = [Driver launch (Succeeds None)]
      ++ Driver (click (JStr "#login") (JNum 5000)) Fails :: rest
    /\ rest = []
    /\ fst (execute_browser_action (proposing empty_page click_login) click_login
              (with_new_agent (new_session ∅)))
       = Return (false, None).
Proof.
  destruct (dispatch_reaches_the_driver (proposing empty_page click_login) click_login
              (with_new_agent (new_session ∅)) {| current_url := JStr "" |} CLICK
              {| action_type := Some CLICK; selector_type := Some ID;
                 selector := JStr "login"; input_value := JNull;
                 requires_user_input := JBool false; user_prompt := JNull;
                 timeout := JNum 5000 |}
              eq_refl eq_refl ltac:(discriminate) eq_refl)
    as (c & rest & Hc & Htrace & _ & Hfail).
  cbn in Hc. injection Hc as <-.
  exists rest. split; [exact Htrace|]. apply Hfail. reflexivity.
Defined.

(** X6. A "selector_type" that is absent or false in Python's sense
    (null, the empty string, 0, false) raises nothing: the decision is
    executed with no selector kind, so the raw "selector" is the locator
    Playwright is called with. *)
Theorem falsy_selector_type_is_absent (E : Env) (d : pydict) (w : world)
    (a : BrowserAgent) (t : ActionType) :
  agent w = Some a ->
  decode_action_type d = Return (Some t) ->
  t <> FINISHED ->
  truthy (dict_get_none "selector_type" d) = false ->
  exists c rest,
    first_call E t None d = Some c
    /\ trace (snd (execute_browser_action E d w))
       = trace w ++ Driver c (playwright E (trace w) c) :: rest.
Proof.
  intros Ha Ht Hfin Hfalsy.
  assert (Hb : build_action (Some t) d
               = Return {| action_type := Some t; selector_type := None;
                           selector := dict_get_none "selector" d;
                           input_value := dict_get_none "input_value" d;
                           requires_user_input :=
                             dict_get_default "requires_user_input" (JBool false) d;
                           user_prompt := dict_get_none "user_prompt" d;
                           timeout := dict_get_default "timeout" (JNum 10000) d |}).
  { unfold build_action. rewrite Hfalsy. reflexivity. }
  destruct (execute_first_call E d w a t _ Ha Ht Hfin Hb) as (c & rest & Hc & Htrace & _).
  exists c, rest. split; assumption.
Qed.

Lemma falsy_selector_type_is_absent_witness :
  exists rest,
    trace (snd (execute_browser_action (scripted_env (obliging_page "") None (fun _ => None))
                  [("action_type", JStr "click"); ("selector_type", JStr "");
                   ("selector", JStr "#login")]
                  (with_new_agent (new_session ∅))))
    = [Driver launch (Succeeds None)]
      ++ Driver (click (JStr "#login") (JNum 10000)) (Succeeds (Some "")) :: rest.
Proof.
  destruct (falsy_selector_type_is_absent
              (scripted_env (obliging_page "") None (fun _ => None))
              [("action_type", JStr "click"); ("selector_type", JStr "");
               ("selector", JStr "#login")]
              (with_new_agent (new_session ∅)) {| current_url := JStr "" |} CLICK
              eq_refl eq_refl ltac:(discriminate) eq_refl)
    as (c & rest & Hc & Htrace).
  cbn in Hc. injection Hc as <-. exists rest. exact Htrace.
Defined.

(** X7. Without an agent ([agent] is None), a decision of any kind but
    "finished" whose fields build an action raises AttributeError, and
    the world is as before: nothing is sent to the browser. *)
Theorem missing_agent_raises (E : Env) (d : pydict) (w : world) (t : ActionType)
    (act : BrowserAction) :
  agent w = None ->
  decode_action_type d = Return (Some t) ->
  t <> FINISHED ->
  build_action (Some t) d = Return act ->
  execute_browser_action E d w = (Raise AttributeError, w).
Proof.
  intros Ha Ht Hfin Hb.
  pose proof (build_action_type _ _ _ Hb) as Hty.
  unfold execute_browser_action. run_monad. rewrite Ht, Hb, Hty.
  destruct t; try congruence;
    unfold navigate_to_url, find_and_click, find_and_type, extract_content,
      wait_for_element, self; run_monad; rewrite Ha; reflexivity.
Qed.

Lemma missing_agent_raises_witness :
  execute_browser_action (proposing empty_page click_login) click_login (new_session ∅)
  = (Raise AttributeError, new_session ∅).
Proof.
  apply (missing_agent_raises (proposing empty_page click_login) click_login
           (new_session ∅) CLICK
           {| action_type := Some CLICK; selector_type := Some ID;
              selector := JStr "login"; input_value := JNull;
              requires_user_input := JBool false; user_prompt := JNull;
              timeout := JNum 5000 |});
    [reflexivity|reflexivity|discriminate|reflexivity].
Defined.

(** X8. Whenever [execute_browser_action] returns a pair (success,
    extracted): extracted text comes only with success; success comes
    only for a decision whose "action_type" is one of the six known
    values; and text is returned only for an "extract" or a "finished"
    decision. *)
Theorem extracted_text_implies_success (E : Env) (d : pydict) (w w' : world)
    (b : bool) (x : option string) :
  execute_browser_action E d w = (Return (b, x), w') ->
  (is_Some x -> b = true)
  /\ (b = true -> known_action_type (dict_get_none "action_type" d))
  /\ (is_Some x ->
      dict_get "action_type" d = Some (JStr "extract")
      \/ dict_get "action_type" d = Some (JStr "finished")).
Proof.
  unfold execute_browser_action, decode_action_type, dict_get_none, dict_get_default,
    known_action_type.
  run_monad.
  destruct (dict_get "action_type" d) as [v|] eqn:Hv.
  2:{ destruct (build_action None d) as [act|e] eqn:Hb; [|discriminate].
      rewrite (build_action_type _ _ _ Hb). intros [= <- <- <-].
      repeat split; intros H; try discriminate H; destruct H; discriminate. }
  destruct (ActionType_of_value v) as [t|e] eqn:Ht; [|discriminate].
  assert (Hval : v = JStr (ActionType_value t)).
  { destruct v as [| | |s| |]; cbn in Ht; try discriminate.
    repeat case_decide; simplify_eq; reflexivity. }
  subst v.
  destruct t; cbn [ActionType_value].
  6:{ intros [= <- <- <-]. intuition. }
  all: destruct (build_action _ d) as [act|e] eqn:Hb; [|discriminate];
    rewrite (build_action_type _ _ _ Hb);
    unfold navigate_to_url, find_and_click, find_and_type, extract_content,
      wait_for_element, self, page_do; run_monad;
    destruct (agent w); try discriminate; cbn;
    repeat (case_playwright; cbn);
    intros [= <- <- <-];
    (split; [intros [? H]; (discriminate H || reflexivity)|]);
    (split; [intros H; (discriminate H || tauto)|]);
    intros [? H]; (discriminate H || tauto).
Qed.

Lemma extracted_text_implies_success_witness :
  known_action_type (dict_get_none "action_type" extract_price).
Proof.
  destruct (extracted_text_implies_success (proposing (obliging_page "") extract_price)
              extract_price (with_new_agent (new_session ∅))
              (snd (execute_browser_action (proposing (obliging_page "") extract_price)
                      extract_price (with_new_agent (new_session ∅))))
              true (Some "") eq_refl) as (_ & Hknown & _).
  apply Hknown. reflexivity.
Defined.

(** ** The planner and the conversation history *)

(** A run leaves the planner it started with. *)
Lemma task_planner_run_main (E : Env) (ui : ui_input) (w : world) :
  task_planner (run_main E ui w) = Some (fst (started E w)).
Proof.
  analyse_run E ui w p w1.
  all: cbn; try assumption.
Qed.

(** X9. The planner is created by the first script run of a session
    and every later run finds that same object in the session state,
    whatever happens in between: its session id is the first eight
    characters of the uuid drawn in the first run, and its log file is
    "llm_interactions.json". *)
Theorem planner_is_created_once (E : Env) (fs : gmap string file) (ui : ui_input)
    (uis : list ui_input) :
  task_planner (run_script E fs (ui :: uis))
  = Some {| session_id := substring 0 8 (uuid4 E []);
            log_file := "llm_interactions.json" |}.
Proof.
  induction uis as [|ui' uis IH] using rev_ind.
  - unfold run_script. cbn [fold_left]. rewrite task_planner_run_main. reflexivity.
  - rewrite app_comm_cons, run_script_snoc, task_planner_run_main.
    unfold started. rewrite IH. reflexivity.
Qed.

Lemma history_ok_run_main (E : Env) (ui : ui_input) (w : world) :
  history_ok w -> history_ok (run_main E ui w).
Proof.
  unfold history_ok. intros Hok.
  analyse_run E ui w p w1.
  all: cbn; rewrite ?Hhist1, ?Htask1 in *.
  all: try exact Hok.
  all: try discriminate.
  all: try (intros task' Htask'; destruct (Hok task' Htask') as [rest ->];
            eexists; rewrite <- ?app_comm_cons; reflexivity).
  all: intros task' [= <-]; eexists; reflexivity.
Qed.

Lemma history_ok_run_script (E : Env) (fs : gmap string file) (uis : list ui_input) :
  history_ok (run_script E fs uis).
Proof.
  induction uis as [|ui uis IH] using rev_ind.
  - intros task. discriminate.
  - rewrite run_script_snoc. apply history_ok_run_main, IH.
Qed.

(** X10. In every session, whenever a task is set, the conversation
    history begins with the user message holding that task. *)
Theorem history_begins_with_task (E : Env) (fs : gmap string file) (uis : list ui_input)
    (task : string) :
  user_task (run_script E fs uis) = Some task ->
  exists rest,
    conversation_history (run_script E fs uis)
    = {| role := "user"; content := task |} :: rest.
Proof. apply history_ok_run_script. Qed.

Lemma history_begins_with_task_witness :
  exists rest,
    conversation_history
      (run_script (proposing empty_page click_login) ∅ [ui_goal "log in"; ui_idle])
    = {| role := "user"; content := "log in" |} :: rest.
Proof.
  apply (history_begins_with_task (proposing empty_page click_login) ∅
           [ui_goal "log in"; ui_idle] "log in").
  reflexivity.
Defined.

(** X11. A script run on a session that has a task only appends to the
    conversation history: at most three messages, each of role "user" or
    "assistant". The one exception is a run that ends with the task
    taken away by Start New Task, which leaves the history empty. *)
Theorem history_is_append_only (E : Env) (ui : ui_input) (w : world) :
  opt_str_truthy (user_task w) = true ->
  (exists more,
     conversation_history (run_main E ui w) = conversation_history w ++ more
     /\ length more <= 3
     /\ Forall (fun m => role m = "user" \/ role m = "assistant") more)
  \/ (user_task (run_main E ui w) = None /\ conversation_history (run_main E ui w) = []).
Proof.
  intros Htask.
  analyse_run E ui w p w1.
  all: try (rewrite Htask in Hguard; discriminate Hguard).
  all: cbn; rewrite ?Hhist1.
  all: try (right; split; reflexivity).
  all: left; rewrite <- ?app_assoc.
  all: try (exists []; rewrite app_nil_r; split; [reflexivity|]; split; [cbn; lia|constructor]).
  all: eexists; (split; [reflexivity|]); split; [cbn; lia|].
  all: repeat (apply List.Forall_cons;
               [cbn; first [left; reflexivity|right; reflexivity]|]).
  all: apply List.Forall_nil.
Qed.

Lemma history_is_append_only_witness :
  (exists more,
     conversation_history
       (run_main (proposing empty_page click_login) ui_idle
          (run_script (proposing empty_page click_login) ∅ [ui_goal "log in"]))
     = conversation_history
         (run_script (proposing empty_page click_login) ∅ [ui_goal "log in"]) ++ more
     /\ length more <= 3
     /\ Forall (fun m => role m = "user" \/ role m = "assistant") more)
  \/ (user_task
        (run_main (proposing empty_page click_login) ui_idle
           (run_script (proposing empty_page click_login) ∅ [ui_goal "log in"])) = None
      /\ conversation_history
           (run_main (proposing empty_page click_login) ui_idle
              (run_script (proposing empty_page click_login) ∅ [ui_goal "log in"])) = []).
Proof.
  apply (history_is_append_only (proposing empty_page click_login) ui_idle
           (run_script (proposing empty_page click_login) ∅ [ui_goal "log in"])).
  reflexivity.
Defined.

(** A run that plans afresh: what precedes the call and what it is made of. *)
Lemma fresh_plan_run (E : Env) (ui : ui_input) (w : world) (task : string)
    (st : option browser_state) (h msgs : list message) (o : planner_outcome) :
  In (Planner (GetNextAction task st h) msgs o) (events_of_run E ui w) ->
  exists tail,
    events_of_run E ui w
    = planning_events E w ++ Planner (GetNextAction task st h) msgs o :: tail
    /\ st = Some (planning_browser_state E w)
    /\ user_task w = Some task
    /\ h = conversation_history w
    /\ msgs = next_action_messages E task st h.
Proof.
  unfold events_of_run. analyse_run E ui w p w1.
  all: norm_events; intros Hin; event_cases Hin.
  all: unfold planning_events, planning_browser_state;
    rewrite Hagent1, Hhist1, Htrace1; rewrite <- Htask1.
  all: eexists; repeat split; try reflexivity; assumption.
Qed.

(** X12. A script run that calls [get_next_action] does so before
    anything else but the reading of the page, and that reading is made
    only if the session has an agent (the guard of lines 377-378). With
    an agent, the run's events begin with one page.content() call and the
    planner call, and the state passed holds the URL the agent has
    recorded and what [get_page_content] made of that reading. Without an
    agent, the planner call is the first event of the run and the state
    passed holds the empty URL and the empty page. *)
Theorem fresh_plan_reads_page_if_agent (E : Env) (ui : ui_input) (w : world)
    (task : string) (st : option browser_state) (h msgs : list message)
    (o : planner_outcome) :
  In (Planner (GetNextAction task st h) msgs o) (events_of_run E ui w) ->
  match agent w with
  | Some a =>
      exists tail,
        events_of_run E ui w
        = Driver page_content (playwright E (trace w) page_content)
          :: Planner (GetNextAction task st h) msgs o :: tail
        /\ st = Some {| state_url := current_url a;
                        state_page_content :=
                          page_snapshot E (playwright E (trace w) page_content) |}
  | None =>
      exists tail,
        events_of_run E ui w = Planner (GetNextAction task st h) msgs o :: tail
        /\ st = Some {| state_url := JStr ""; state_page_content := "" |}
  end.
Proof.
  intros Hin.
  destruct (fresh_plan_run E ui w task st h msgs o Hin) as (tail & Hevents & Hst & _).
  unfold planning_events, planning_browser_state in *.
  destruct (agent w) as [a|]; exists tail; split; assumption.
Qed.

(** With a browser, and on a machine where none can be started. *)
Lemma fresh_plan_reads_page_if_agent_witness :
  (exists tail,
     events_of_run (proposing empty_page click_login) ui_idle
       (run_script (proposing empty_page click_login) ∅ [ui_goal "log in"])
     = Driver page_content (Succeeds (Some "<html></html>"))
       :: Planner
            (GetNextAction "log in"
               (Some {| state_url := JStr ""; state_page_content := "<html></html>" |})
               [{| role := "user"; content := "log in" |}])
            (next_action_messages (proposing empty_page click_login) "log in"
               (Some {| state_url := JStr ""; state_page_content := "<html></html>" |})
               [{| role := "user"; content := "log in" |}])
            (Decoded "decision" click_login)
       :: tail
     /\ Some {| state_url := JStr ""; state_page_content := "<html></html>" |}
        = Some {| state_url := JStr ""; state_page_content := "<html></html>" |})
  /\ (exists tail,
        events_of_run lost_browser ui_idle (run_script lost_browser ∅ [ui_goal "log in"])
        = Planner
            (GetNextAction "log in"
               (Some {| state_url := JStr ""; state_page_content := "" |})
               [{| role := "user"; content := "log in" |}])
            (next_action_messages lost_browser "log in"
               (Some {| state_url := JStr ""; state_page_content := "" |})
               [{| role := "user"; content := "log in" |}])
            (Decoded "decision" [])
          :: tail
        /\ Some {| state_url := JStr ""; state_page_content := "" |}
           = Some {| state_url := JStr ""; state_page_content := "" |}).
Proof.
  split.
  - pose proof (fresh_plan_reads_page_if_agent (proposing empty_page click_login) ui_idle
                  (run_script (proposing empty_page click_login) ∅ [ui_goal "log in"])
                  "log in"
                  (Some {| state_url := JStr "";
                           state_page_content := "<html></html>" |})
                  [{| role := "user"; content := "log in" |}]
                  (next_action_messages (proposing empty_page click_login) "log in"
                     (Some {| state_url := JStr "";
                              state_page_content := "<html></html>" |})
                     [{| role := "user"; content := "log in" |}])
                  (Decoded "decision" click_login)) as Hrun.
    vm_compute in Hrun. vm_compute. apply Hrun. right. left. reflexivity.
  - pose proof (fresh_plan_reads_page_if_agent lost_browser ui_idle
                  (run_script lost_browser ∅ [ui_goal "log in"])
                  "log in"
                  (Some {| state_url := JStr ""; state_page_content := "" |})
                  [{| role := "user"; content := "log in" |}]
                  (next_action_messages lost_browser "log in"
                     (Some {| state_url := JStr ""; state_page_content := "" |})
                     [{| role := "user"; content := "log in" |}])
                  (Decoded "decision" [])) as Hrun.
    vm_compute in Hrun. vm_compute. apply Hrun. left. reflexivity.
Defined.

(** X13. In every session, the request of a [get_next_action] call is
    the system prompt, then the whole conversation history of the
    session, then one user message "Current state: ..." with the dumped
    state. The history is never empty there, it begins with the task,
    so the branch that sends the [user_input] argument instead of the
    history is never taken. *)
Theorem planner_request_is_history (E : Env) (fs : gmap string file)
    (uis : list ui_input) (ui : ui_input) (task : string) (st : option browser_state)
    (h msgs : list message) (o : planner_outcome) :
  In (Planner (GetNextAction task st h) msgs o) (events_of_run E ui (run_script E fs uis)) ->
  user_task (run_script E fs uis) = Some task
  /\ h = conversation_history (run_script E fs uis)
  /\ (exists rest, h = {| role := "user"; content := task |} :: rest)
  /\ exists st',
       st = Some st'
       /\ msgs = {| role := "system"; content := system_prompt E |}
                 :: h ++ [{| role := "user";
                             content := "Current state: "
                                        +:+ json_dumps E (state_json st') |}].
Proof.
  intros Hin.
  destruct (fresh_plan_run E ui _ task st h msgs o Hin)
    as (tail & _ & Hst & Htask & Hh & Hmsgs).
  destruct (history_ok_run_script E fs uis task Htask) as [rest Hrest].
  split; [exact Htask|]. split; [exact Hh|].
  split; [exists rest; congruence|].
  eexists. split; [exact Hst|].
  rewrite Hmsgs, Hst, Hh, Hrest. reflexivity.
Qed.

Lemma planner_request_is_history_witness :
  user_task (run_script (proposing empty_page click_login) ∅ [ui_goal "log in"])
  = Some "log in"
  /\ [{| role := "user"; content := "log in" |}]
     = conversation_history
         (run_script (proposing empty_page click_login) ∅ [ui_goal "log in"])
  /\ (exists rest,
        [{| role := "user"; content := "log in" |}]
        = {| role := "user"; content := "log in" |} :: rest)
  /\ exists st',
       Some {| state_url := JStr ""; state_page_content := "<html></html>" |} = Some st'
       /\ next_action_messages (proposing empty_page click_login) "log in"
            (Some {| state_url := JStr ""; state_page_content := "<html></html>" |})
            [{| role := "user"; content := "log in" |}]
          = {| role := "system";
               content := system_prompt (proposing empty_page click_login) |}
            :: [{| role := "user"; content := "log in" |}]
               ++ [{| role := "user";
                      content := "Current state: "
                                 +:+ json_dumps (proposing empty_page click_login)
                                       (state_json st') |}].
Proof.
  apply (planner_request_is_history (proposing empty_page click_login) ∅
           [ui_goal "log in"] ui_idle "log in"
           (Some {| state_url := JStr ""; state_page_content := "<html></html>" |})
           [{| role := "user"; content := "log in" |}]
           (next_action_messages (proposing empty_page click_login) "log in"
              (Some {| state_url := JStr ""; state_page_content := "<html></html>" |})
              [{| role := "user"; content := "log in" |}])
           (Decoded "decision" click_login)).
  vm_compute. right. left. reflexivity.
Defined.

(** ** What a run does with the pending action *)

(** A pending action that needs no answer is run at once. *)
Lemma pending_is_dispatched (E : Env) (ui : ui_input) (w : world) (task : string)
    (d : pydict) :
  user_task w = Some task -> str_truthy task = true -> finished w = false ->
  current_action w = Some d -> d <> [] ->
  needs_answer (requires_input_of d) (user_prompt_of d) w = Return None ->
  exists rest, events_of_run E ui w = Dispatch d :: rest.
Proof.
  intros Htask Htruthy Hfin Haction Hd Hneeds.
  assert (Hpend : action_pending (Some d) = true) by (destruct d; [congruence|reflexivity]).
  unfold events_of_run. analyse_run E ui w p w1.
  all: norm_events; back_to_start; simplify_eq.
  all: try (rewrite Htask in Hguard; cbn in Hguard; rewrite Htruthy in Hguard;
            discriminate Hguard).
  all: try match goal with
           | H : opt_str_truthy _ && negb _ = false |- _ =>
               rewrite Htask, Hfin in H; cbn in H; rewrite Htruthy in H; discriminate H
           | H : action_pending _ = false |- _ =>
               rewrite Haction, Hpend in H; discriminate H
           end.
  all: try match goal with
           | H : needs_answer _ _ _ = _ |- _ =>
               unfold needs_answer in H, Hneeds;
               cbn [user_inputs note_progress set_task_progress] in H;
               rewrite ?Hinputs1 in H; rewrite Hneeds in H; discriminate H
           end.
  all: eexists; reflexivity.
Qed.

(** X14. When a run finds a non-empty pending action that needs no
    answer (its "requires_user_input" is false, or its prompt has a
    recorded answer), the planner is not consulted: the first event of
    the run is the dispatch of that very action, unchanged. In
    particular a recorded answer is not asked for again and is not
    written into the action. *)
Theorem pending_action_is_dispatched_without_planning (E : Env) (ui : ui_input)
    (w : world) (task : string) (d : pydict) :
  user_task w = Some task -> str_truthy task = true -> finished w = false ->
  current_action w = Some d -> d <> [] ->
  needs_answer (requires_input_of d) (user_prompt_of d) w = Return None ->
  exists rest, events_of_run E ui w = Dispatch d :: rest.
Proof. apply pending_is_dispatched. Qed.

Lemma pending_action_is_dispatched_without_planning_witness :
  exists rest,
    events_of_run (proposing empty_page click_login) ui_idle
      (run_script (proposing empty_page click_login) ∅ [ui_goal "log in"; ui_idle])
    = Dispatch click_login :: rest.
Proof.
  apply (pending_action_is_dispatched_without_planning (proposing empty_page click_login)
           ui_idle
           (run_script (proposing empty_page click_login) ∅ [ui_goal "log in"; ui_idle])
           "log in" click_login);
    [reflexivity|reflexivity|reflexivity|reflexivity|discriminate|reflexivity].
Defined.

(** X15. After a run in which an action other than "finished" was
    executed with success, no action is pending, the session is not
    finished and the task is the same: the next run plans afresh. *)
Theorem success_clears_pending_action (E : Env) (ui : ui_input) (w : world) (d : pydict)
    (x : option string) :
  In (Executed d true x) (events_of_run E ui w) ->
  json_eq_str (dict_get_none "action_type" d) "finished" = false ->
  current_action (run_main E ui w) = None
  /\ finished (run_main E ui w) = false
  /\ user_task (run_main E ui w) = user_task w.
Proof.
  unfold events_of_run. analyse_run E ui w p w1.
  all: norm_events; intros Hin Hd; event_cases Hin.
  all: try congruence.
  all: cbn; rewrite ?Htask1, ?Hfinished1.
  all: match goal with
       | Ha : str_truthy _ && negb (finished ?w0) = true |- _ =>
           apply andb_true_iff in Ha as [_ Ha]; apply negb_true_iff in Ha;
           cbn in Ha; rewrite ?Hfinished1 in Ha
       end.
  all: repeat split; try reflexivity; try assumption.
Qed.

Lemma success_clears_pending_action_witness :
  current_action
    (run_main (proposing (obliging_page "9.99") extract_price) ui_idle
       (run_script (proposing (obliging_page "9.99") extract_price) ∅ [ui_goal "price"]))
  = None
  /\ finished
       (run_main (proposing (obliging_page "9.99") extract_price) ui_idle
          (run_script (proposing (obliging_page "9.99") extract_price) ∅
             [ui_goal "price"]))
     = false
  /\ user_task
       (run_main (proposing (obliging_page "9.99") extract_price) ui_idle
          (run_script (proposing (obliging_page "9.99") extract_price) ∅
             [ui_goal "price"]))
     = user_task
         (run_script (proposing (obliging_page "9.99") extract_price) ∅ [ui_goal "price"]).
Proof.
  apply (success_clears_pending_action (proposing (obliging_page "9.99") extract_price)
           ui_idle
           (run_script (proposing (obliging_page "9.99") extract_price) ∅
              [ui_goal "price"])
           extract_price (Some "9.99")).
  - vm_compute. repeat first [left; reflexivity | right].
  - reflexivity.
Defined.

(** X16. A script run leaves the session's extracted content as it was,
    unless an action other than "finished" was executed in that run with
    success and a non-empty text, which is then the extracted content,
    or the run ended with the task taken away, which clears it. The
    text "finished" that a finished decision returns is never stored. *)
Theorem extracted_content_changes_only_by_extraction (E : Env) (ui : ui_input)
    (w : world) :
  extracted_content (run_main E ui w) = extracted_content w
  \/ (exists d text,
        In (Executed d true (Some text)) (events_of_run E ui w)
        /\ str_truthy text = true
        /\ json_eq_str (dict_get_none "action_type" d) "finished" = false
        /\ extracted_content (run_main E ui w) = Some text)
  \/ (extracted_content (run_main E ui w) = None /\ user_task (run_main E ui w) = None).
Proof.
  unfold events_of_run. analyse_run E ui w p w1.
  all: norm_events; cbn; rewrite ?Hextracted1.
  all: try (left; reflexivity).
  all: try (right; right; split; reflexivity).
  all: right; left; do 2 eexists; (split; [|repeat split; eassumption || reflexivity]).
  all: repeat first [left; reflexivity | right | apply in_or_app; right].
Qed.

(** X17. A decoded planner decision is recorded in the conversation
    history. After a run with a decoded [handle_error] call, the history
    is the one the call was made with, followed by the user message
    "Error occurred: ..." (the short error, without the state) and the
    assistant message holding the dumped decision. After a run with a
    decoded [get_next_action] call, the history is the one the call was
    made with, followed by the assistant message holding the dumped
    decision and whatever the run appended later, unless the run ended
    with the task taken away. *)
Theorem decisions_are_recorded_in_history (E : Env) (ui : ui_input) (w : world) :
  (forall e st h msgs resp res,
     In (Planner (HandleError e st h) msgs (Decoded resp res)) (events_of_run E ui w) ->
     conversation_history (run_main E ui w)
     = h ++ [{| role := "user"; content := "Error occurred: " +:+ e |};
             {| role := "assistant"; content := json_dumps E (JObj res) |}])
  /\ (forall task st h msgs resp res,
        In (Planner (GetNextAction task st h) msgs (Decoded resp res))
           (events_of_run E ui w) ->
        (exists more,
           conversation_history (run_main E ui w)
           = h ++ {| role := "assistant"; content := json_dumps E (JObj res) |} :: more)
        \/ (user_task (run_main E ui w) = None
            /\ conversation_history (run_main E ui w) = [])).
Proof.
  split.
  - intros e st h msgs resp res.
    unfold events_of_run. analyse_run E ui w p w1.
    all: norm_events; intros Hin; event_cases Hin.
    all: cbn; rewrite <- ?app_assoc; reflexivity.
  - intros task st h msgs resp res.
    unfold events_of_run. analyse_run E ui w p w1.
    all: norm_events; intros Hin; event_cases Hin.
    all: cbn; rewrite <- ?app_assoc.
    all: try (right; split; reflexivity).
    all: left; eexists; reflexivity.
Qed.

(** ** The shape of a run *)

Lemma count_events_app (f : event -> bool) (evs more : list event) :
  count_events f (evs ++ more) = count_events f evs + count_events f more.
Proof. induction evs as [|ev evs IH]; cbn; [reflexivity|]. rewrite IH. lia. Qed.

Lemma count_events_drivers (f : event -> bool) (drv : list event) :
  (forall c r, f (Driver c r) = false) -> Forall is_driver drv -> count_events f drv = 0.
Proof.
  intros Hf. induction 1 as [|ev drv Hev _ IH]; [reflexivity|].
  destruct ev; cbn in Hev; try contradiction. cbn. rewrite Hf, IH. reflexivity.
Qed.

(** X18. One script run dispatches at most one action, reports at most
    one execution and calls the planner at most twice. *)
Theorem one_dispatch_per_run (E : Env) (ui : ui_input) (w : world) :
  count_events is_dispatch (events_of_run E ui w) <= 1
  /\ count_events is_executed (events_of_run E ui w) <= 1
  /\ count_events is_planner_call (events_of_run E ui w) <= 2.
Proof.
  unfold events_of_run. analyse_run E ui w p w1.
  all: norm_events; rewrite ?app_nil_r.
  all: rewrite ?count_events_app.
  all: repeat match goal with
              | Hd : Forall is_driver ?drv |- context [count_events ?f ?drv] =>
                  rewrite (count_events_drivers f drv (fun _ _ => eq_refl) Hd)
              | |- context [count_events ?f (planning_events ?E' ?w')] =>
                  rewrite (count_events_drivers f (planning_events E' w')
                             (fun _ _ => eq_refl) (planning_events_driver E' w'))
              end.
  all: cbn; lia.
Qed.

(** X19. When the [get_next_action] call of a run does not decode (the
    endpoint raised, or its answer is no JSON), the run leaves the agent,
    the task, the conversation history, the pending action, the recorded
    answers, the finished flag and the extracted content as they were,
    and dispatches nothing. *)
Theorem failed_planning_changes_nothing (E : Env) (ui : ui_input) (w : world)
    (task : string) (st : option browser_state) (h msgs : list message)
    (o : planner_outcome) :
  In (Planner (GetNextAction task st h) msgs o) (events_of_run E ui w) ->
  (forall resp res, o <> Decoded resp res) ->
  agent (run_main E ui w) = agent w
  /\ user_task (run_main E ui w) = user_task w
  /\ conversation_history (run_main E ui w) = conversation_history w
  /\ current_action (run_main E ui w) = current_action w
  /\ user_inputs (run_main E ui w) = user_inputs w
  /\ finished (run_main E ui w) = finished w
  /\ extracted_content (run_main E ui w) = extracted_content w
  /\ count_events is_dispatch (events_of_run E ui w) = 0.
Proof.
  unfold events_of_run. analyse_run E ui w p w1.
  all: norm_events; intros Hin Ho; event_cases Hin.
  all: try (exfalso; eapply Ho; reflexivity).
  all: cbn; rewrite ?count_events_app.
  all: rewrite (count_events_drivers _ _ (fun _ _ => eq_refl) (planning_events_driver E w1)).
  all: repeat split; try assumption; reflexivity.
Qed.

Lemma failed_planning_changes_nothing_witness :
  agent (run_main (silent (obliging_page "")) ui_idle
           (run_script (silent (obliging_page "")) ∅ [ui_goal "buy milk"]))
  = agent (run_script (silent (obliging_page "")) ∅ [ui_goal "buy milk"])
  /\ user_task (run_main (silent (obliging_page "")) ui_idle
                  (run_script (silent (obliging_page "")) ∅ [ui_goal "buy milk"]))
     = user_task (run_script (silent (obliging_page "")) ∅ [ui_goal "buy milk"])
  /\ conversation_history
       (run_main (silent (obliging_page "")) ui_idle
          (run_script (silent (obliging_page "")) ∅ [ui_goal "buy milk"]))
     = conversation_history (run_script (silent (obliging_page "")) ∅ [ui_goal "buy milk"])
  /\ current_action
       (run_main (silent (obliging_page "")) ui_idle
          (run_script (silent (obliging_page "")) ∅ [ui_goal "buy milk"]))
     = current_action (run_script (silent (obliging_page "")) ∅ [ui_goal "buy milk"])
  /\ user_inputs
       (run_main (silent (obliging_page "")) ui_idle
          (run_script (silent (obliging_page "")) ∅ [ui_goal "buy milk"]))
     = user_inputs (run_script (silent (obliging_page "")) ∅ [ui_goal "buy milk"])
  /\ finished
       (run_main (silent (obliging_page "")) ui_idle
          (run_script (silent (obliging_page "")) ∅ [ui_goal "buy milk"]))
     = finished (run_script (silent (obliging_page "")) ∅ [ui_goal "buy milk"])
  /\ extracted_content
       (run_main (silent (obliging_page "")) ui_idle
          (run_script (silent (obliging_page "")) ∅ [ui_goal "buy milk"]))
     = extracted_content (run_script (silent (obliging_page "")) ∅ [ui_goal "buy milk"])
  /\ count_events is_dispatch
       (events_of_run (silent (obliging_page "")) ui_idle
          (run_script (silent (obliging_page "")) ∅ [ui_goal "buy milk"]))
     = 0.
Proof.
  apply (failed_planning_changes_nothing (silent (obliging_page "")) ui_idle
           (run_script (silent (obliging_page "")) ∅ [ui_goal "buy milk"])
           "buy milk"
           (Some {| state_url := JStr ""; state_page_content := "" |})
           [{| role := "user"; content := "buy milk" |}]
           (next_action_messages (silent (obliging_page "")) "buy milk"
              (Some {| state_url := JStr ""; state_page_content := "" |})
              [{| role := "user"; content := "buy milk" |}])
           NoResponse).
  - vm_compute. repeat first [left; reflexivity | right].
  - discriminate.
Defined.

(** X20. When the [handle_error] call after a failed execution does not
    decode, the action that failed stays the pending action and the
    history is the one the call was made with; if the action is not the
    empty dictionary, the next run dispatches it again as its first
    event, whatever the user does. *)
Theorem failed_recovery_keeps_action_pending (E : Env) (ui : ui_input) (w : world)
    (d : pydict) (x : option string) (e : string) (st : browser_state)
    (h msgs : list message) (o : planner_outcome) :
  In (Executed d false x) (events_of_run E ui w) ->
  In (Planner (HandleError e st h) msgs o) (events_of_run E ui w) ->
  (forall resp res, o <> Decoded resp res) ->
  current_action (run_main E ui w) = Some d
  /\ conversation_history (run_main E ui w) = h
  /\ (d <> [] ->
      forall ui', exists rest,
        events_of_run E ui' (run_main E ui w) = Dispatch d :: rest).
Proof.
  unfold events_of_run at 1 2. 
  pose (Hretry := pending_is_dispatched E).
  analyse_run E ui w p w1.
  all: norm_events; intros Hexec Hin Ho; event_cases Hexec.
  all: event_cases Hin.
  all: try (exfalso; eapply Ho; reflexivity).
  all: match goal with
       | Ha : str_truthy ?t && negb (finished ?w0) = true |- _ =>
           apply andb_true_iff in Ha as [Htruthy Hnotfin]; apply negb_true_iff in Hnotfin
       end.
  all: (split; [cbn; try assumption; reflexivity|]).
  all: (split; [reflexivity|]).
  all: intros Hd ui'; eapply Hretry; cbn; try eassumption; try reflexivity.
Qed.

Lemma failed_recovery_keeps_action_pending_witness :
  current_action
    (run_main (answers_once empty_page click_login) ui_idle
       (run_script (answers_once empty_page click_login) ∅ [ui_goal "log in"]))
  = Some click_login
  /\ conversation_history
       (run_main (answers_once empty_page click_login) ui_idle
          (run_script (answers_once empty_page click_login) ∅ [ui_goal "log in"]))
     = [{| role := "user"; content := "log in" |};
        {| role := "assistant"; content := render_json (JObj click_login) |}]
  /\ (click_login <> [] ->
      forall ui', exists rest,
        events_of_run (answers_once empty_page click_login) ui'
          (run_main (answers_once empty_page click_login) ui_idle
             (run_script (answers_once empty_page click_login) ∅ [ui_goal "log in"]))
        = Dispatch click_login :: rest).
Proof.
  apply (failed_recovery_keeps_action_pending (answers_once empty_page click_login)
           ui_idle
           (run_script (answers_once empty_page click_login) ∅ [ui_goal "log in"])
           click_login None "Action failed"
           {| state_url := JStr ""; state_page_content := "<html></html>" |}
           [{| role := "user"; content := "log in" |};
            {| role := "assistant"; content := render_json (JObj click_login) |}]
           (handle_error_messages (answers_once empty_page click_login) "Action failed"
              {| state_url := JStr ""; state_page_content := "<html></html>" |}
              [{| role := "user"; content := "log in" |};
               {| role := "assistant"; content := render_json (JObj click_login) |}])
           NoResponse).
  - vm_compute. repeat first [left; reflexivity | right].
  - vm_compute. repeat first [left; reflexivity | right].
  - discriminate.
Defined.

Lemma work_on_task_ignores_goal_box (E : Env) (p : TaskPlanner) (ui : ui_input)
    (s : string) (w : world) :
  work_on_task E p (with_task_input s ui) w = work_on_task E p ui w.
Proof. destruct ui. reflexivity. Qed.

(** X21. The goal box (lines 358-364). While the session has a task, the
    text in the box has no effect on the run. Without a task and with an
    empty box, the run does nothing but create the planner if there is
    none. Without a task and with a text in the box, the run stores the
    text as the task and the single user message holding it as the
    history, then launches the browser, and that launch is the run's only
    event; the pending action is untouched. If the launch returns, the
    session gets a new agent with the empty URL and the run ends at
    st.rerun(); if the launch raises, the run ends with that error and
    the agent is as before, although task and history are already
    stored. *)
Theorem goal_box_is_consulted_only_without_task (E : Env) (ui : ui_input) (w : world) :
  (opt_str_truthy (user_task w) = true ->
   forall s, main E (with_task_input s ui) w = main E ui w)
  /\ (opt_str_truthy (user_task w) = false -> task_input ui = "" ->
      main E ui w = (Return tt, snd (started E w)) /\ events_of_run E ui w = [])
  /\ (opt_str_truthy (user_task w) = false -> task_input ui <> "" ->
      events_of_run E ui w = [Driver launch (playwright E (trace w) launch)]
      /\ user_task (run_main E ui w) = Some (task_input ui)
      /\ conversation_history (run_main E ui w)
         = [{| role := "user"; content := task_input ui |}]
      /\ current_action (run_main E ui w) = current_action w
      /\ match playwright E (trace w) launch with
         | Succeeds _ =>
             fst (main E ui w) = Raise RerunException
             /\ agent (run_main E ui w) = Some {| current_url := JStr "" |}
         | Fails =>
             fst (main E ui w) = Raise PlaywrightError
             /\ agent (run_main E ui w) = agent w
         end).
Proof.
  split; [|split].
  - intros Htask s. rewrite !main_eq. rewrite Htask. cbn [negb andb].
    apply work_on_task_ignores_goal_box.
  - intros Htask Hinput.
    assert (Hmain : main E ui w = (Return tt, snd (started E w))).
    { rewrite main_eq. rewrite Hinput. rewrite andb_false_r.
      destruct (started_same E w) as (_ & Hut & _).
      unfold work_on_task. unfold bind at 1, get. cbn beta iota. rewrite Hut.
      destruct (user_task w) as [task|]; [|reflexivity].
      cbn in Htask. rewrite Htask. reflexivity. }
    split; [exact Hmain|].
    unfold events_of_run, run_main. rewrite Hmain. cbn [snd].
    destruct (started_same E w) as (_ & _ & _ & _ & _ & _ & _ & -> & _).
    apply drop_all.
  - intros Htask Hinput.
    assert (Htyped : str_truthy (task_input ui) = true).
    { unfold str_truthy. apply negb_true_iff. apply String.eqb_neq. exact Hinput. }
    assert (Hmain : main E ui w
                    = (Raise (goal_outcome (playwright E (trace w) launch)),
                       goal_world (playwright E (trace w) launch) ui (snd (started E w)))).
    { rewrite main_eq, Htask, Htyped. reflexivity. }
    unfold events_of_run, run_main. rewrite Hmain. cbn [fst snd].
    destruct (started_same E w) as (Hag & _ & _ & Hact & _ & _ & _ & Htr & _).
    destruct (playwright E (trace w) launch); cbn;
      rewrite Htr, Hact, ?Hag, drop_app_length; repeat split.
Qed.

(** With a browser, and on a machine where none can be started. *)
Example goal_typed_with_and_without_browser :
  agent (run_script (proposing empty_page click_login) ∅ [ui_goal "log in"])
  = Some {| current_url := JStr "" |}
  /\ agent (run_script lost_browser ∅ [ui_goal "log in"]) = None
  /\ user_task (run_script lost_browser ∅ [ui_goal "log in"]) = Some "log in"
  /\ fst (main lost_browser (ui_goal "log in") (new_session ∅)) = Raise PlaywrightError.
Proof. repeat split. Qed.

(** The run of a session whose pending question cannot be a dictionary key. *)
Lemma unhashable_run (E : Env) (ui : ui_input) (w : world) (task : string) (d : pydict) :
  user_task w = Some task -> str_truthy task = true -> finished w = false ->
  current_action w = Some d ->
  truthy (requires_input_of d) = true ->
  key_of (user_prompt_of d) = Raise TypeError ->
  main E ui w = (Raise TypeError, note_progress d (snd (started E w))).
Proof.
  intros Htask Htruthy Hfin Haction Hreq Hkey.
  pose proof (requires_input_pending d Hreq) as Hpend.
  rewrite main_eq. rewrite Htask. cbn [opt_str_truthy]. rewrite Htruthy. cbn [negb andb].
  destruct (started_same E w)
    as (Hagent1 & Htask1 & Hhist1 & Haction1 & Hinputs1 & Hfinished1 & _ & _ & _).
  set (p := fst (started E w)) in *. set (w1 := snd (started E w)) in *. clearbody p w1.
  destruct (work_on_task E p ui w1) as [r w'] eqn:Hrun.
  apply work_on_task_step in Hrun.
  inversion Hrun; subst; clear Hrun.
  2-6: analyse_plan.
  all: back_to_start; simplify_eq.
  all: try match goal with
           | H : opt_str_truthy _ && negb _ = false |- _ =>
               rewrite Htask, Hfin in H; cbn in H; rewrite Htruthy in H; discriminate H
           | H : action_pending _ = false |- _ =>
               rewrite Haction, Hpend in H; discriminate H
           end.
  all: match goal with
       | H : needs_answer _ _ _ = _ |- _ =>
           unfold needs_answer in H; rewrite Hreq, Hkey in H; simplify_eq
       end.
  reflexivity.
Qed.

(** X22. When the pending action requires user input and its
    "user_prompt" is a list or a dictionary, the membership test of line
    395 raises TypeError: the run adds no event, the action stays
    pending, and every later run raises TypeError again. *)
Theorem unhashable_prompt_raises (E : Env) (ui : ui_input) (w : world) (task : string)
    (d : pydict) :
  user_task w = Some task -> str_truthy task = true -> finished w = false ->
  current_action w = Some d ->
  truthy (requires_input_of d) = true ->
  (exists items, user_prompt_of d = JArr items)
  \/ (exists fields, user_prompt_of d = JObj fields) ->
  fst (main E ui w) = Raise TypeError
  /\ events_of_run E ui w = []
  /\ current_action (run_main E ui w) = Some d
  /\ forall ui', fst (main E ui' (run_main E ui w)) = Raise TypeError.
Proof.
  intros Htask Htruthy Hfin Haction Hreq Hshape.
  assert (Hkey : key_of (user_prompt_of d) = Raise TypeError)
    by (destruct Hshape as [[v ->]|[v ->]]; reflexivity).
  pose proof (unhashable_run E ui w task d Htask Htruthy Hfin Haction Hreq Hkey) as Hmain.
  destruct (started_same E w)
    as (_ & Htask1 & _ & Haction1 & _ & Hfinished1 & _ & Htrace1 & _).
  unfold events_of_run, run_main. rewrite Hmain. cbn [fst snd].
  split; [reflexivity|]. split; [cbn; rewrite Htrace1; apply drop_all|].
  split; [cbn; congruence|].
  intros ui'.
  rewrite (unhashable_run E ui' _ task d); cbn; congruence.
Qed.

Lemma unhashable_prompt_raises_witness :
  fst (main (proposing (obliging_page "") ask_with_list) ui_idle
         (run_script (proposing (obliging_page "") ask_with_list) ∅
            [ui_goal "sign up"; ui_idle]))
  = Raise TypeError
  /\ events_of_run (proposing (obliging_page "") ask_with_list) ui_idle
       (run_script (proposing (obliging_page "") ask_with_list) ∅
          [ui_goal "sign up"; ui_idle])
     = []
  /\ current_action
       (run_main (proposing (obliging_page "") ask_with_list) ui_idle
          (run_script (proposing (obliging_page "") ask_with_list) ∅
             [ui_goal "sign up"; ui_idle]))
     = Some ask_with_list
  /\ forall ui',
       fst (main (proposing (obliging_page "") ask_with_list) ui'
              (run_main (proposing (obliging_page "") ask_with_list) ui_idle
                 (run_script (proposing (obliging_page "") ask_with_list) ∅
                    [ui_goal "sign up"; ui_idle])))
       = Raise TypeError.
Proof.
  apply (unhashable_prompt_raises (proposing (obliging_page "") ask_with_list) ui_idle
           (run_script (proposing (obliging_page "") ask_with_list) ∅
              [ui_goal "sign up"; ui_idle])
           "sign up" ask_with_list);
    [reflexivity|reflexivity|reflexivity|reflexivity|reflexivity|].
  left. eexists. reflexivity.
Defined.

(** X23. For a planner whose log file is not "dump.json": after
    [get_next_action], "dump.json" holds three newlines followed by the
    decision dumped with indent 4 if the call decoded, and the dumped
    state that was passed (null if none) if it did not; [handle_error]
    leaves "dump.json" as it is. *)
Theorem dump_file_after_planning (E : Env) (p : TaskPlanner) (task : string)
    (st : option browser_state) (w : world) :
  log_file p <> "dump.json" ->
  files (snd (get_next_action E p task st w)) !! "dump.json"
  = Some (Text
            match oracle_outcome E (trace w)
                    (next_action_messages E task st (conversation_history w)) with
            | Decoded _ res => nl +:+ nl +:+ nl +:+ json_dumps_indent E 4 (JObj res)
            | _ => json_dumps E (match st with Some s => state_json s | None => JNull end)
            end)
  /\ forall e s,
       files (snd (handle_error E p e s w)) !! "dump.json" = files w !! "dump.json".
Proof.
  intros Hne. split.
  - unfold get_next_action, ask_oracle, log_llm_interaction, write_file, append_history,
      oracle_outcome.
    destruct w as [ag tp ut ch ca ui fin prog ext fs tr].
    run_monad. cbn [trace files set_files conversation_history].
    destruct (chat_completion E tr _) as [resp|]; [|cbn; apply lookup_insert_eq].
    destruct (json_loads E resp) as [res|]; cbn; apply lookup_insert_eq.
  - intros e s.
    unfold handle_error, ask_oracle, log_llm_interaction, append_history.
    destruct w as [ag tp ut ch ca ui fin prog ext fs tr].
    run_monad. cbn [trace files set_files conversation_history].
    destruct (chat_completion E tr _) as [resp|]; [|reflexivity].
    destruct (json_loads E resp) as [res|]; cbn; [|reflexivity].
    apply lookup_insert_ne. exact Hne.
Qed.

Lemma dump_file_after_planning_witness :
  files (snd (get_next_action (proposing empty_page click_login)
                {| session_id := "123e4567"; log_file := "llm_interactions.json" |}
                "log in" None (new_session ∅))) !! "dump.json"
  = Some (Text (nl +:+ nl +:+ nl +:+ render_json (JObj click_login)))
  /\ forall e s,
       files (snd (handle_error (proposing empty_page click_login)
                     {| session_id := "123e4567"; log_file := "llm_interactions.json" |}
                     e s (new_session ∅))) !! "dump.json"
       = files (new_session ∅) !! "dump.json".
Proof.
  apply (dump_file_after_planning (proposing empty_page click_login)
           {| session_id := "123e4567"; log_file := "llm_interactions.json" |}
           "log in" None (new_session ∅)).
  discriminate.
Defined.

(** X24. Every execution a run reports comes after the dispatch of the
    same decision in that run, with nothing but driver calls in
    between. *)
Theorem execution_follows_its_dispatch (E : Env) (ui : ui_input) (w : world)
    (d : pydict) (b : bool) (x : option string) :
  In (Executed d b x) (events_of_run E ui w) ->
  exists pre drv post,
    events_of_run E ui w = pre ++ Dispatch d :: drv ++ Executed d b x :: post
    /\ Forall is_driver drv.
Proof.
  unfold events_of_run. analyse_run E ui w p w1.
  all: norm_events; intros Hin; event_cases Hin.
  all: match goal with
       | |- context [planning_events ?E' ?w' ++ [Planner ?c ?m ?o] ++ [Dispatch _] ++ _] =>
           exists (planning_events E' w' ++ [Planner c m o])
       | _ => exists []
       end.
  all: match goal with
       | |- context [[Dispatch _] ++ ?l ++ [Executed _ _ _]] => exists l
       | |- context [[Dispatch _] ++ ?l ++ [Executed _ _ _] ++ _] => exists l
       end.
  all: eexists; (split; [rewrite <- ?app_assoc; cbn [app]; reflexivity|assumption]).
Qed.

Lemma execution_follows_its_dispatch_witness :
  exists pre drv post,
    events_of_run (proposing empty_page click_login) ui_idle
      (run_script (proposing empty_page click_login) ∅ [ui_goal "log in"])
    = pre ++ Dispatch click_login :: drv ++ Executed click_login false None :: post
    /\ Forall is_driver drv.
Proof.
  apply (execution_follows_its_dispatch (proposing empty_page click_login) ui_idle
           (run_script (proposing empty_page click_login) ∅ [ui_goal "log in"])).
  vm_compute. repeat first [left; reflexivity | right].
Defined.

(** Lists that end with a given list. *)
Lemma ends_with_app (s l0 l : list event) :
  (exists pre, l = pre ++ s) -> exists pre, l0 ++ l = pre ++ s.
Proof. intros [pre ->]. exists (l0 ++ pre). apply app_assoc. Qed.

Lemma ends_with_refl (s : list event) : exists pre, s = pre ++ s.
Proof. exists []. reflexivity. Qed.

(** X25. [handle_error] is called only for a failed execution: a run
    that calls it does so with the description "Action failed", as its
    last event, right after the report of a failed execution and one
    reading of the page. *)
Theorem recovery_only_after_failure (E : Env) (ui : ui_input) (w : world) (e : string)
    (st : browser_state) (h msgs : list message) (o : planner_outcome) :
  In (Planner (HandleError e st h) msgs o) (events_of_run E ui w) ->
  e = "Action failed"
  /\ exists d x r pre,
       events_of_run E ui w
       = pre ++ [Executed d false x; Driver page_content r;
                 Planner (HandleError e st h) msgs o].
Proof.
  unfold events_of_run. analyse_run E ui w p w1.
  all: norm_events; intros Hin; event_cases Hin.
  all: (split; [reflexivity|]); do 3 eexists.
  all: repeat first [apply ends_with_refl | apply ends_with_app].
Qed.

Lemma recovery_only_after_failure_witness :
  "Action failed" = "Action failed"
  /\ exists d x r pre,
       events_of_run (proposing empty_page click_login) ui_idle
         (run_script (proposing empty_page click_login) ∅ [ui_goal "log in"])
       = pre ++ [Executed d false x; Driver page_content r;
                 Planner
                   (HandleError "Action failed"
                      {| state_url := JStr ""; state_page_content := "<html></html>" |}
                      [{| role := "user"; content := "log in" |};
                       {| role := "assistant";
                          content := render_json (JObj click_login) |}])
                   (handle_error_messages (proposing empty_page click_login)
                      "Action failed"
                      {| state_url := JStr ""; state_page_content := "<html></html>" |}
                      [{| role := "user"; content := "log in" |};
                       {| role := "assistant";
                          content := render_json (JObj click_login) |}])
                   (Decoded "decision" click_login)].
Proof.
  apply (recovery_only_after_failure (proposing empty_page click_login) ui_idle
           (run_script (proposing empty_page click_login) ∅ [ui_goal "log in"])).
  vm_compute. repeat first [left; reflexivity | right].
Defined.

(** ** From the user's answer to the page *)

(** The run of a session whose pending action needs no answer is that
    action's execution and what follows it. *)
Lemma pending_run_eq (E : Env) (ui : ui_input) (w : world) (task : string) (d : pydict) :
  user_task w = Some task -> str_truthy task = true -> finished w = false ->
  current_action w = Some d -> d <> [] ->
  needs_answer (requires_input_of d) (user_prompt_of d) w = Return None ->
  main E ui w
  = run_action E (fst (started E w)) ui d (note_progress d (snd (started E w))).
Proof.
  intros Htask Htruthy Hfin Haction Hd Hneeds.
  assert (Hpend : action_pending (Some d) = true) by (destruct d; [congruence|reflexivity]).
  rewrite main_eq. rewrite Htask. cbn [opt_str_truthy]. rewrite Htruthy. cbn [negb andb].
  destruct (started_same E w)
    as (Hagent1 & Htask1 & Hhist1 & Haction1 & Hinputs1 & Hfinished1 & _ & _ & _).
  set (p := fst (started E w)) in *. set (w1 := snd (started E w)) in *. clearbody p w1.
  destruct (work_on_task E p ui w1) as [r w'] eqn:Hrun.
  apply work_on_task_step in Hrun.
  inversion Hrun; subst; clear Hrun.
  2-6: analyse_plan.
  all: back_to_start; simplify_eq.
  all: try match goal with
           | H : opt_str_truthy _ && negb _ = false |- _ =>
               rewrite Htask, Hfin in H; cbn in H; rewrite Htruthy in H; discriminate H
           | H : action_pending _ = false |- _ =>
               rewrite Haction, Hpend in H; discriminate H
           end.
  all: try match goal with
           | H : needs_answer _ _ _ = _ |- _ =>
               unfold needs_answer in H, Hneeds;
               cbn [user_inputs note_progress set_task_progress] in H;
               rewrite ?Hinputs1 in H; rewrite Hneeds in H; discriminate H
           end.
  symmetry. assumption.
Qed.

(** What follows an execution only adds to the trace. *)
Lemma run_action_trace (E : Env) (p : TaskPlanner) (ui : ui_input) (d : pydict)
    (w : world) :
  exists tail,
    trace (snd (run_action E p ui d w))
    = trace (snd (execute_browser_action E d (set_trace (trace w ++ [Dispatch d]) w)))
      ++ tail.
Proof.
  rewrite run_action_eq.
  destruct (execute_browser_action E d _) as [[[[] x]|e] w5]; cbn [snd].
  - rewrite on_success_eq.
    destruct (json_eq_str _ _).
    + pose proof (new_task_button_spec E ui
                    (set_finished true (set_trace (trace w5 ++ [Executed d true x]) w5)))
        as Hb.
      destruct (start_new_task ui).
      * destruct Hb as (drv & _ & [-> | ->]); cbn; rewrite <- app_assoc; eexists;
          reflexivity.
      * rewrite Hb. cbn. eexists; reflexivity.
    + destruct x as [text|]; [destruct (str_truthy text)|]; cbn; eexists; reflexivity.
  - destruct (agent w5) as [a|] eqn:Ha.
    + destruct (on_failure_spec E p (set_trace (trace w5 ++ [Executed d false x]) w5) a)
        as (fs' & Hs & _); [exact Ha|].
      cbn zeta in Hs. rewrite Hs.
      destruct (oracle_outcome E _ _); cbn; rewrite <- app_assoc; eexists; reflexivity.
    + rewrite on_failure_without_agent by exact Ha. cbn. eexists; reflexivity.
  - exists []. rewrite app_nil_r. reflexivity.
Qed.

Lemma pending_run_first_call (E : Env) (ui : ui_input) (w : world) (task : string)
    (d : pydict) (a : BrowserAgent) (t : ActionType) (act : BrowserAction) :
  user_task w = Some task -> str_truthy task = true -> finished w = false ->
  current_action w = Some d -> d <> [] ->
  needs_answer (requires_input_of d) (user_prompt_of d) w = Return None ->
  agent w = Some a ->
  decode_action_type d = Return (Some t) -> t <> FINISHED ->
  build_action (Some t) d = Return act ->
  exists c r rest,
    first_call E t (selector_type act) d = Some c
    /\ events_of_run E ui w = Dispatch d :: Driver c r :: rest.
Proof.
  intros Htask Htruthy Hfin Haction Hd Hneeds Ha Ht Hnotfin Hb.
  unfold events_of_run, run_main.
  rewrite (pending_run_eq E ui w task d Htask Htruthy Hfin Haction Hd Hneeds).
  destruct (started_same E w) as (Hagent1 & _ & _ & _ & _ & _ & _ & Htrace1 & _).
  set (p := fst (started E w)) in *. set (w1 := snd (started E w)) in *. clearbody p w1.
  destruct (run_action_trace E p ui d (note_progress d w1)) as [tail ->].
  destruct (execute_first_call E d
              (set_trace (trace (note_progress d w1) ++ [Dispatch d]) (note_progress d w1))
              a t act) as (c & rest & Hc & -> & _); try assumption.
  { cbn. rewrite Hagent1. exact Ha. }
  exists c. eexists. exists (rest ++ tail). split; [exact Hc|].
  cbn [trace set_trace note_progress set_task_progress]. rewrite Htrace1.
  rewrite <- !app_assoc. rewrite drop_app_length. reflexivity.
Qed.

(** A run that asks the user leaves the agent alone. *)
Lemma pending_question_agent (E : Env) (ui : ui_input) (w : world) (task : string)
    (d : pydict) (k : pykey) :
  user_task w = Some task -> str_truthy task = true -> finished w = false ->
  current_action w = Some d ->
  truthy (requires_input_of d) = true ->
  key_of (user_prompt_of d) = Return k ->
  user_inputs w !! k = None ->
  agent (run_main E ui w) = agent w.
Proof.
  intros Htask Htruthy Hfin Haction Hreq Hkey Hunanswered.
  pose proof (requires_input_pending d Hreq) as Hpend.
  analyse_run E ui w p w1.
  all: norm_events; back_to_start; simplify_eq.
  all: try (rewrite Htask in Hguard; cbn in Hguard; rewrite Htruthy in Hguard;
            discriminate Hguard).
  all: try match goal with
           | H : opt_str_truthy _ && negb _ = false |- _ =>
               rewrite Htask, Hfin in H; cbn in H; rewrite Htruthy in H; discriminate H
           | H : action_pending _ = false |- _ =>
               rewrite Haction, Hpend in H; discriminate H
           end.
  all: match goal with
       | H : needs_answer _ _ _ = _ |- _ =>
           unfold needs_answer in H; rewrite Hreq, Hkey in H;
           cbn [user_inputs note_progress set_task_progress] in H;
           rewrite ?Hinputs1 in H; rewrite Hunanswered in H; simplify_eq
       end.
  all: cbn; assumption.
Qed.

(** X26. When a pending "type" action requires user input, its prompt
    has no recorded answer and its fields build an action, a run in
    which the user presses Submit is followed by a run that begins with
    the dispatch of the action holding the answer as "input_value" and
    the Playwright call fill(locator, answer, timeout): locator and
    timeout are those of the original decision, the text is what the
    user typed. *)
Theorem answer_is_typed_into_the_page (E : Env) (ui : ui_input) (w : world)
    (task : string) (d : pydict) (k : pykey) (a : BrowserAgent) (act : BrowserAction) :
  user_task w = Some task -> str_truthy task = true -> finished w = false ->
  agent w = Some a ->
  current_action w = Some d ->
  truthy (requires_input_of d) = true ->
  key_of (user_prompt_of d) = Return k ->
  user_inputs w !! k = None ->
  dict_get "action_type" d = Some (JStr "type") ->
  build_action (Some TYPE) d = Return act ->
  submit ui = true ->
  forall ui', exists r rest,
    events_of_run E ui' (run_main E ui w)
    = Dispatch (dict_set "input_value" (JStr (user_response ui)) d)
      :: Driver (fill (_get_selector E (selector_type act) (dict_get_none "selector" d))
                   (JStr (user_response ui))
                   (dict_get_default "timeout" (JNum 10000) d)) r
      :: rest.
Proof.
  intros Htask Htruthy Hfin Ha Haction Hreq Hkey Hunanswered Htype Hb Hsubmit ui'.
  destruct (pending_question E ui w task d k Htask Htruthy Hfin Haction Hreq Hkey
              Hunanswered) as (_ & [Htask' Hfin'] & _ & Hpressed).
  destruct (Hpressed Hsubmit) as (Hinputs & Haction' & _). clear Hpressed.
  pose proof (pending_question_agent E ui w task d k Htask Htruthy Hfin Haction Hreq Hkey
                Hunanswered) as Hagent'.
  rewrite Ha in Hagent'.
  destruct (requires_input_after_answer (JStr (user_response ui)) d) as [Hreq' Hprompt'].
  set (d' := dict_set "input_value" (JStr (user_response ui)) d) in *.
  assert (Hget : forall key, key <> "input_value" -> dict_get key d' = dict_get key d).
  { intros key Hne. apply dict_get_set_ne. congruence. }
  assert (Hb' : build_action (Some TYPE) d'
                = Return {| action_type := Some TYPE;
                            selector_type := selector_type act;
                            selector := dict_get_none "selector" d;
                            input_value := JStr (user_response ui);
                            requires_user_input := requires_input_of d;
                            user_prompt := dict_get_none "user_prompt" d;
                            timeout := dict_get_default "timeout" (JNum 10000) d |}).
  { unfold build_action, dict_get_none, dict_get_default, requires_input_of in *.
    rewrite (Hget "selector_type"), (Hget "selector"), (Hget "requires_user_input"),
      (Hget "user_prompt"), (Hget "timeout") by discriminate.
    unfold d'. rewrite dict_get_set_eq.
    destruct (if truthy _ then _ else _) as [kind|]; simplify_eq. reflexivity. }
  assert (Hd' : d' <> []).
  { unfold d'. intros Hnil.
    pose proof (dict_set_pending "input_value" (JStr (user_response ui)) d) as Hp.
    rewrite Hnil in Hp. discriminate Hp. }
  assert (Hneeds : needs_answer (requires_input_of d') (user_prompt_of d')
                     (run_main E ui w) = Return None).
  { unfold needs_answer. rewrite Hreq', Hreq, Hprompt', Hkey, Hinputs, lookup_insert_eq.
    reflexivity. }
  assert (Hdecode : decode_action_type d' = Return (Some TYPE)).
  { unfold decode_action_type. rewrite Hget by discriminate. rewrite Htype. reflexivity. }
  destruct (pending_run_first_call E ui' (run_main E ui w) task d' a TYPE _
              Htask' Htruthy Hfin' Haction' Hd' Hneeds Hagent' Hdecode
              ltac:(discriminate) Hb') as (c & r & rest & Hc & Hevents).
  exists r, rest. rewrite Hevents. unfold first_call in Hc. cbn [selector_type] in Hc.
  unfold dict_get_none, dict_get_default in *.
  rewrite (Hget "selector"), (Hget "timeout") in Hc by discriminate.
  unfold d' in Hc. rewrite dict_get_set_eq in Hc. simplify_eq. reflexivity.
Qed.

Lemma answer_is_typed_into_the_page_witness :
  exists r rest,
    events_of_run (proposing (obliging_page "") type_email) ui_idle
      (run_main (proposing (obliging_page "") type_email) (ui_answer "a@b.com")
         (run_script (proposing (obliging_page "") type_email) ∅
            [ui_goal "sign up"; ui_idle]))
    = Dispatch (dict_set "input_value" (JStr "a@b.com") type_email)
      :: Driver (fill (JStr "#email") (JStr "a@b.com") (JNum 10000)) r
      :: rest.
Proof.
  apply (answer_is_typed_into_the_page (proposing (obliging_page "") type_email)
           (ui_answer "a@b.com")
           (run_script (proposing (obliging_page "") type_email) ∅
              [ui_goal "sign up"; ui_idle])
           "sign up" type_email (KStr "What is your email?")
           {| current_url := JStr "" |}
           {| action_type := Some TYPE; selector_type := Some ID;
              selector := JStr "email"; input_value := JNull;
              requires_user_input := JBool true;
              user_prompt := JStr "What is your email?"; timeout := JNum 10000 |});
    reflexivity.
Defined.
